(** * recipe_scraper: crawl control and recipe extraction

    A shallow embedding of the three crawler scripts of the repository
    ([scrapermod.py], [scraper.py], [scraperlist_of_recipes.py]) and the
    properties of their rate limiter, link discoverer, recipe extractor
    and orchestrator.

    Conventions.
    - Python values that come out of [json.loads] are kept as [json]
      values; the code is duck-typed, so record fields hold [json].
    - Python [str] is [string]; whitespace and case are the ASCII ones.
    - Time is an integer number of milliseconds ([RATE_LIMIT = 2.0] is
      [2000]); rounding of binary floats is not part of the model.
    - The HTTP client, the HTML parser, the JSON decoder and the URL
      library are collaborators: a [World] gives their results.
      [urlparse] and [urljoin] raise [ValueError] on a malformed URL
      (an IPv6 bracket that is never closed, say), and the scripts call
      them outside the [try] blocks of their helper functions.
    - Module-level and in-place mutated Python objects live in a [store]
      threaded through a state-and-exception monad. *)

From Stdlib Require Import ZArith String Ascii List Bool Lia.
From stdpp Require Import gmap strings list fin_maps.

#[local] Set Warnings "-clear-no-such-hyp".

Local Open Scope string_scope.
Local Open Scope Z_scope.

(** ** Python strings *)

Module Py.

(** [str.isspace] on ASCII: TAB..CR, FS..US and SPACE. *)
Definition isspace (c : ascii) : bool :=
  let n := nat_of_ascii c in
  ((9 <=? n)%nat && (n <=? 13)%nat) || ((28 <=? n)%nat && (n <=? 32)%nat).

Fixpoint lstrip (s : string) : string :=
  match s with
  | EmptyString => EmptyString
  | String c s' => if isspace c then lstrip s' else s
  end.

Fixpoint rstrip (s : string) : string :=
  match s with
  | EmptyString => EmptyString
  | String c s' =>
      match rstrip s' with
      | EmptyString => if isspace c then EmptyString else String c EmptyString
      | r => String c r
      end
  end.

(** [s.strip()] *)
Definition strip (s : string) : string := rstrip (lstrip s).

Definition lower_ascii (c : ascii) : ascii :=
  let n := nat_of_ascii c in
  if ((65 <=? n)%nat && (n <=? 90)%nat) then ascii_of_nat (n + 32) else c.

(** [s.lower()] *)
Fixpoint lower (s : string) : string :=
  match s with
  | EmptyString => EmptyString
  | String c s' => String (lower_ascii c) (lower s')
  end.

(** [s.startswith(p)] *)
Fixpoint startswith (s p : string) : bool :=
  match p, s with
  | EmptyString, _ => true
  | String a p', String b s' => Ascii.eqb a b && startswith s' p'
  | String _ _, EmptyString => false
  end.

(** [sub in s] for two strings *)
Fixpoint contains (sub s : string) : bool :=
  startswith s sub ||
  match s with
  | EmptyString => false
  | String _ s' => contains sub s'
  end.

Definition newline : ascii := ascii_of_nat 10.
Definition space : ascii := ascii_of_nat 32.

(** [s.replace('\n', ' ')] *)
Fixpoint replace_nl (s : string) : string :=
  match s with
  | EmptyString => EmptyString
  | String c s' =>
      String (if Ascii.eqb c newline then space else c) (replace_nl s')
  end.

(** [s.split('\n')] *)
Fixpoint split_nl (s : string) : list string :=
  match s with
  | EmptyString => [EmptyString]
  | String c s' =>
      if Ascii.eqb c newline then EmptyString :: split_nl s'
      else match split_nl s' with
           | [] => [String c EmptyString]
           | w :: ws => String c w :: ws
           end
  end.

(** [s[n:]] *)
Definition drop_prefix (n : nat) (s : string) : string :=
  substring n (String.length s - n) s.

(** [s[4:-3]] *)
Definition slice_4_m3 (s : string) : string :=
  substring 4 (String.length s - 7) s.

(** Non-emptiness, the truth value of a [str]. *)
Definition nonempty (s : string) : bool :=
  match s with EmptyString => false | String _ _ => true end.

End Py.

(** ** Python values and exceptions *)

#[local] Set Warnings "-register-all".

Inductive json : Type :=
| JNull
| JBool (b : bool)
| JNum (z : Z)
| JStr (s : string)
| JArr (l : list json)
| JObj (kv : list (string * json)).

(** The exception classes the scripts can meet.  [ConnectionError],
    [Timeout] and [HTTPError] are [requests.exceptions.RequestException]s;
    [ValueError] is what [urllib.parse] raises on a malformed URL. *)
Inductive exn : Type :=
| ConnectionError | Timeout | HTTPError
| AttributeError | TypeError | JSONDecodeError | ValueError.

Definition is_RequestException (e : exn) : bool :=
  match e with
  | ConnectionError | Timeout | HTTPError => true
  | _ => false
  end.

Inductive result (A : Type) : Type :=
| Ok (a : A)
| Raise (e : exn).
Arguments Ok {A} a.
Arguments Raise {A} e.

Definition rbind {A B} (r : result A) (k : A → result B) : result B :=
  match r with
  | Ok a => k a
  | Raise e => Raise e
  end.

Notation "'let?' x ':=' r 'in' k" := (rbind r (fun x => k))
  (at level 10, x name, r at level 100, k at level 200).

(** The value of a call that answers [None] when it raises [e]. *)
Definition or_raise {A} (o : option A) (e : exn) : result A :=
  match o with
  | Some a => Ok a
  | None => Raise e
  end.

Module Value.

(** Truth value of a Python object ([if v:], [v or w], [not v]). *)
Definition truthy (v : json) : bool :=
  match v with
  | JNull => false
  | JBool b => b
  | JNum z => negb (z =? 0)
  | JStr s => Py.nonempty s
  | JArr l => match l with [] => false | _ :: _ => true end
  | JObj kv => match kv with [] => false | _ :: _ => true end
  end.

(** [a or b] *)
Definition or_ (a b : json) : json := if truthy a then a else b.

(** [k in d] for a dict [d] *)
Fixpoint has_key (kv : list (string * json)) (k : string) : bool :=
  match kv with
  | [] => false
  | (k', _) :: kv' => String.eqb k' k || has_key kv' k
  end.

(** [d.get(k, default)] *)
Fixpoint get (kv : list (string * json)) (k : string) (default : json) : json :=
  match kv with
  | [] => default
  | (k', v) :: kv' => if String.eqb k' k then v else get kv' k default
  end.

(** [v == s] for a string literal [s] *)
Definition eq_str (v : json) (s : string) : bool :=
  match v with
  | JStr s' => String.eqb s' s
  | _ => false
  end.

(** The values a [for x in v] loop binds, or the [TypeError] of a value
    that is not iterable.  A dict yields its keys and a string its
    characters. *)
Definition iterate (v : json) : result (list json) :=
  match v with
  | JArr l => Ok l
  | JObj kv => Ok (map (λ p, JStr (fst p)) kv)
  | JStr s => Ok (map (λ c, JStr (String c EmptyString)) (list_ascii_of_string s))
  | _ => Raise TypeError
  end.

(** A non-empty list: what the specification calls a non-empty sequence
    once the value is known to be a list. *)
Definition nonempty_list (v : json) : bool :=
  match v with
  | JArr (_ :: _) => true
  | _ => false
  end.

End Value.

(** ** The collaborators *)

(** [urllib.parse.urlparse(url)]: the three components the code reads. *)
Record ParseResult : Type := {
  scheme : string;
  netloc : string;
  path : string;
}.

(** What the code reads of a [requests.Response]. *)
Record Response : Type := {
  status_code : Z;
  content_type : option string;   (* headers.get('Content-Type') *)
  text : string;
}.

(** An [<a href=...>] element: [a['href']] and [a.get_text(strip=True)]. *)
Record anchor : Type := {
  href : string;
  a_text : string;
}.

(** An element found by a CSS selector, as far as the heuristics read it. *)
Record container : Type := {
  li_p_texts : list string;      (* get_text(strip=True) of each find_all(['li','p']) *)
  text_lines : string;           (* get_text('\n', strip=True) *)
}.

(** The queries the scripts put to a [BeautifulSoup] document. *)
Record soup : Type := {
  find_all_a : list anchor;                   (* find_all('a', href=True) *)
  find_all_ld_json : list (option string);    (* .string of each ld+json script *)
  find_h1 : option string;                    (* find('h1').text *)
  find_og_title : option (option string);     (* find('meta', property='og:title') and its content *)
  select_one : string → option container;
  select_a : string → list (list anchor);     (* for each element of select(sel): find_all('a', href=True) *)
}.

Class World : Type := {
  urlparse : string → option ParseResult;     (* None: ValueError *)
  urljoin : string → string → option string;  (* None: ValueError *)
  json_loads : string → option json;          (* None: json.JSONDecodeError *)
  BeautifulSoup : string → soup;
  (** outcome of the [k]-th [requests.get] of the run, and how long it took *)
  requests_get : nat → string → result Response;
  latency : nat → Z;
}.

(** ** The store and the monad *)

(** The dict every extractor builds. *)
Record recipe : Type := {
  source_url : string;
  name : json;
  ingredients : json;
  instructions : json;
}.

Record store : Type := {
  domain_timers : gmap string Z;    (* module global *)
  seen_urls : gset string;          (* module global of scrapermod *)
  clock : Z;                        (* what time.time() returns *)
  trace : list (string * Z);        (* GETs issued so far: url and issue time *)
  all_recipes : list recipe;        (* the list the orchestrator appends to *)
}.

Definition M (A : Type) : Type := store → result A * store.

Definition ret {A} (a : A) : M A := λ st, (Ok a, st).

Definition bind {A B} (m : M A) (k : A → M B) : M B :=
  λ st, match m st with
        | (Ok a, st') => k a st'
        | (Raise e, st') => (Raise e, st')
        end.

Definition raise {A} (e : exn) : M A := λ st, (Raise e, st).

(** [try: body except <classes>: handler] *)
Definition try_except {A} (body : M A) (catches : exn → bool) (handler : exn → M A) : M A :=
  λ st, match body st with
        | (Raise e, st') => if catches e then handler e st' else (Raise e, st')
        | r => r
        end.

Definition Exception (e : exn) : bool := true.

Notation "'let*' x ':=' m 'in' k" := (bind m (fun x => k))
  (at level 10, x name, m at level 100, k at level 200).
Notation "m ';;' k" := (bind m (fun _ => k))
  (at level 100, k at level 200, right associativity).

Definition lift {A} (r : result A) : M A := λ st, (r, st).

(** [time.time()] *)
Definition time_time : M Z := λ st, (Ok (clock st), st).

(** [time.sleep(d)] *)
Definition time_sleep (d : Z) : M unit :=
  λ st, (Ok tt, {| domain_timers := domain_timers st; seen_urls := seen_urls st;
                   clock := clock st + d; trace := trace st;
                   all_recipes := all_recipes st |}).

(** [requests.get(url, ...)]: logs the GET, lets the clock run, and hands
    back what the world answers. *)
Definition requests_get_ `{World} (url : string) : M Response :=
  λ st, let k := length (trace st) in
        (requests_get k url,
         {| domain_timers := domain_timers st; seen_urls := seen_urls st;
            clock := clock st + latency k;
            trace := trace st ++ [(url, clock st)];
            all_recipes := all_recipes st |}).

Definition get_domain_timers : M (gmap string Z) := λ st, (Ok (domain_timers st), st).

(** [domain_timers[domain] = t] *)
Definition set_domain_timer (domain : string) (t : Z) : M unit :=
  λ st, (Ok tt, {| domain_timers := <[domain := t]> (domain_timers st);
                   seen_urls := seen_urls st; clock := clock st;
                   trace := trace st; all_recipes := all_recipes st |}).

Definition get_seen_urls : M (gset string) := λ st, (Ok (seen_urls st), st).

(** [seen_urls.add(url)] *)
Definition seen_urls_add (url : string) : M unit :=
  λ st, (Ok tt, {| domain_timers := domain_timers st;
                   seen_urls := {[url]} ∪ seen_urls st; clock := clock st;
                   trace := trace st; all_recipes := all_recipes st |}).

Definition get_all_recipes : M (list recipe) := λ st, (Ok (all_recipes st), st).

(** [all_recipes = []] *)
Definition reset_all_recipes : M unit :=
  λ st, (Ok tt, {| domain_timers := domain_timers st; seen_urls := seen_urls st;
                   clock := clock st; trace := trace st; all_recipes := [] |}).

(** [all_recipes.append(r)] *)
Definition all_recipes_append (r : recipe) : M unit :=
  λ st, (Ok tt, {| domain_timers := domain_timers st; seen_urls := seen_urls st;
                   clock := clock st; trace := trace st;
                   all_recipes := all_recipes st ++ [r] |}).

(** [res.raise_for_status()]: [HTTPError] for 4xx and 5xx. *)
Definition raise_for_status (res : Response) : M unit :=
  if (400 <=? status_code res) && (status_code res <? 600)
  then raise HTTPError else ret tt.

(** [bool(res)] is [res.ok]; [not res] for what [make_request] returned. *)
Definition Response_ok (res : Response) : bool :=
  negb ((400 <=? status_code res) && (status_code res <? 600)).

Definition not_ (res : option Response) : bool :=
  match res with
  | None => true
  | Some r => negb (Response_ok r)
  end.

(** A fresh process: no timers, nothing seen, the clock at [t0]. *)
Definition initial_store (t0 : Z) : store :=
  {| domain_timers := ∅; seen_urls := ∅; clock := t0; trace := []; all_recipes := [] |}.

(** The module constants of a script.  The specification treats them as
    configuration; [scrapermod_config] and [scraper_config] below carry
    the values written in the sources. *)
Class Config : Type := {
  RECIPE_WEBSITES : list string;
  RATE_LIMIT : Z;
  MAX_RECIPES_PER_SITE : nat;
  MAX_TOTAL_RECIPES : nat;
}.

(** ** scrapermod.py *)

Module Scrapermod.
Section Scrapermod.
Context `{World} `{Config}.

(** [normalize_domain(url)] *)
Definition normalize_domain (url : string) : result string :=
  let? parsed := or_raise (urlparse url) ValueError in
  let domain := Py.lower (netloc parsed) in
  Ok (if Py.startswith domain "www." then Py.drop_prefix 4 domain else domain).

(** The rate-limiting prefix of [make_request]: how long the caller
    sleeps, given the timers and the current time. *)
Definition sleep_time (timers : gmap string Z) (domain : string) (now : Z) : option Z :=
  match timers !! domain with
  | Some last =>
      let elapsed := now - last in
      if elapsed <? RATE_LIMIT then Some (RATE_LIMIT - elapsed) else None
  | None => None
  end.

(** [make_request(url)] *)
Definition make_request (url : string) : M (option Response) :=
  let* domain := lift (normalize_domain url) in
  let* now := time_time in
  let* timers := get_domain_timers in
  (match sleep_time timers domain now with
   | Some d => time_sleep d
   | None => ret tt
   end) ;;
  try_except
    (let* res := requests_get_ url in
     let* t := time_time in
     set_domain_timer domain t ;;
     raise_for_status res ;;
     let content_type := Py.lower (default "" (content_type res)) in
     if negb (Py.contains "text/html" content_type)
     then ret None
     else ret (Some res))
    Exception
    (λ _, ret None).

Definition recipe_keywords : list string :=
  ["recipe"; "recipes"; "cook"; "dish"; "receipt"; "food"].

(** The body of [for a in soup.find_all('a', href=True)] in [get_links],
    with [links] the local set.  [urljoin], [urlparse] and
    [normalize_domain] stand outside any [try]: their [ValueError] ends
    the loop and leaves [get_links]. *)
Fixpoint get_links_loop (site_url base_domain : string) (max_links : nat)
    (anchors : list anchor) (links : gset string) : M (gset string) :=
  match anchors with
  | [] => ret links
  | a :: rest =>
      let href := Py.strip (href a) in
      if negb (Py.nonempty href)
         || existsb (Py.startswith href) ["javascript:"; "mailto:"; "tel:"]
      then get_links_loop site_url base_domain max_links rest links
      else
        let* full_url := lift (or_raise (urljoin site_url href) ValueError) in
        let* parsed := lift (or_raise (urlparse full_url) ValueError) in
        if negb (existsb (String.eqb (scheme parsed)) ["http"; "https"])
        then get_links_loop site_url base_domain max_links rest links
        else
          let* domain := lift (normalize_domain full_url) in
          if negb (String.eqb domain base_domain)
          then get_links_loop site_url base_domain max_links rest links
          else
            let path := Py.lower (path parsed) in
            let* links :=
              (if existsb (λ kw, Py.contains kw path) recipe_keywords
               then
                 let* seen := get_seen_urls in
                 if bool_decide (full_url ∈ seen) then ret links
                 else seen_urls_add full_url ;; ret ({[full_url]} ∪ links)
               else ret links) in
            if (max_links <=? size links)%nat then ret links
            else get_links_loop site_url base_domain max_links rest links
  end.

(** [get_links(site_url, max_links)]; [list(links)] is [elements links],
    an enumeration in no particular order. *)
Definition get_links (site_url : string) (max_links : nat) : M (list string) :=
  let* res := make_request site_url in
  match res with
  | Some r =>
      if not_ res then ret []
      else
        let soup := BeautifulSoup (text r) in
        let* base_domain := lift (normalize_domain site_url) in
        let* links := get_links_loop site_url base_domain max_links (find_all_a soup) ∅ in
        ret (elements links)
  | None => ret []
  end.

Definition is_recipe_type (t : json) : bool :=
  Value.eq_str t "Recipe" || Value.eq_str t "HowTo".

(** The [instructions] list built from [item.get('recipeInstructions', [])]. *)
Definition instructions_of (steps : json) : list json :=
  match steps with
  | JStr _ => [steps]
  | JArr l =>
      flat_map
        (λ step, match step with
                 | JObj kv =>
                     if Value.eq_str (Value.get kv "@type" JNull) "HowToStep"
                     then [Value.get kv "text" (JStr "")] else []
                 | JStr _ => [step]
                 | _ => []
                 end) l
  | _ => []
  end.

(** One round of [for item in items]: the updated [recipe] dict and
    whether [return recipe] was reached. *)
Definition process_item (item : json) (r : recipe) : recipe * bool :=
  match item with
  | JObj kv =>
      if is_recipe_type (Value.get kv "@type" JNull) then
        let name_ := Value.or_ (Value.get kv "name" JNull) (Value.get kv "headline" (JStr "")) in
        let r1 := if Value.truthy name_
                  then {| source_url := source_url r; name := name_;
                          ingredients := ingredients r; instructions := instructions r |}
                  else r in
        let ingredients_ := Value.get kv "recipeIngredient" (JArr []) in
        let r2 := if Value.truthy ingredients_
                  then {| source_url := source_url r1; name := name r1;
                          ingredients := ingredients_; instructions := instructions r1 |}
                  else r1 in
        let steps := Value.get kv "recipeInstructions" (JArr []) in
        let r3 := {| source_url := source_url r2; name := name r2;
                     ingredients := ingredients r2;
                     instructions := JArr (instructions_of steps) |} in
        (r3, Value.truthy (ingredients r3) && Value.truthy (instructions r3))
      else (r, false)
  | _ => (r, false)
  end.

Fixpoint process_items (items : list json) (r : recipe) : recipe * bool :=
  match items with
  | [] => (r, false)
  | item :: rest =>
      match process_item item r with
      | (r', true) => (r', true)
      | (r', false) => process_items rest r'
      end
  end.

(** The part of the [try] block before the item loop: the items of one
    script tag, or the exception raised on the way. *)
Definition script_items (script_string : option string) : result (list json) :=
  let? s := match script_string with
            | Some s => Ok s
            | None => Raise AttributeError       (* None.strip() *)
            end in
  let data_str := Py.strip s in
  let data_str := if Py.startswith data_str "<!--"
                  then Py.strip (Py.slice_4_m3 data_str) else data_str in
  let? data := match json_loads data_str with
               | Some d => Ok d
               | None => Raise JSONDecodeError
               end in
  let? items := match data with
                | JArr _ => Ok data
                | JObj kv => if Value.has_key kv "@graph"
                             then Ok (Value.get kv "@graph" JNull)
                             else Ok (JArr [data])
                | JStr s => if Py.contains "@graph" s
                            then Raise TypeError  (* data['@graph'] on a str *)
                            else Ok (JArr [data])
                | _ => Raise TypeError            (* '@graph' in data *)
                end in
  Value.iterate items.

(** [for script in script_tags: try: ... except Exception: ...] and the
    final [return None]. *)
Fixpoint parse_scripts (scripts : list (option string)) (r : recipe) : option recipe :=
  match scripts with
  | [] => None
  | script :: rest =>
      match script_items script with
      | Raise _ => parse_scripts rest r
      | Ok items =>
          match process_items items r with
          | (r', true) => Some r'
          | (r', false) => parse_scripts rest r'
          end
      end
  end.

Definition empty_recipe (url : string) : recipe :=
  {| source_url := url; name := JStr ""; ingredients := JArr []; instructions := JArr [] |}.

(** [parse_recipe(url)] *)
Definition parse_recipe (url : string) : M (option recipe) :=
  let* res := make_request url in
  match res with
  | Some r =>
      if not_ res then ret None
      else
        let soup := BeautifulSoup (text r) in
        ret (parse_scripts (find_all_ld_json soup) (empty_recipe url))
  | None => ret None
  end.

(** [recipe['name'][:50]] in the log line: slicing needs a [str] or a
    [list]. *)
Definition name_preview (r : recipe) : M unit :=
  match name r with
  | JStr _ | JArr _ => ret tt
  | _ => raise TypeError
  end.

(** [for link in links:] in [main] *)
Fixpoint links_loop (links : list string) : M unit :=
  match links with
  | [] => ret tt
  | link :: rest =>
      let* recs := get_all_recipes in
      if (MAX_TOTAL_RECIPES <=? length recs)%nat then ret tt
      else
        let* r := parse_recipe link in
        (match r with
         | Some r => all_recipes_append r ;; name_preview r
         | None => ret tt
         end) ;;
        links_loop rest
  end.

(** The [try] block of one site; [true] when it ended in [continue].
    The progress bar of the loop over the links is labelled with
    [urlparse(site).netloc]. *)
Definition site_body (site : string) : M bool :=
  let* links := get_links site MAX_RECIPES_PER_SITE in
  match links with
  | [] => ret true
  | _ :: _ =>
      lift (or_raise (urlparse site) ValueError) ;;
      links_loop links ;; ret false
  end.

(** [for site in RECIPE_WEBSITES:] in [main] *)
Fixpoint sites_loop (sites : list string) : M unit :=
  match sites with
  | [] => ret tt
  | site :: rest =>
      let* continued :=
        try_except (site_body site) Exception (λ _, time_sleep 5000 ;; ret false) in
      if continued then sites_loop rest
      else
        let* recs := get_all_recipes in
        if (MAX_TOTAL_RECIPES <=? length recs)%nat then ret tt
        else sites_loop rest
  end.

(** [main()], up to the point where [all_recipes] goes to the three
    [save_*] functions; the value is that list. *)
Definition main : M (list recipe) :=
  reset_all_recipes ;;
  sites_loop RECIPE_WEBSITES ;;
  get_all_recipes.

End Scrapermod.
End Scrapermod.

Definition scrapermod_config : Config := {|
  RECIPE_WEBSITES :=
    ["https://101cookbooks.com/"; "https://www.allrecipes.com/";
     "https://www.bbc.co.uk/food/recipes/"; "https://www.bbcgoodfood.com/recipes/";
     "https://www.bonappetit.com/recipes/"; "https://www.closetcooking.com/";
     "https://www.epicurious.com/recipes/"; "https://www.finedininglovers.com/recipes/";
     "https://www.foodrepublic.com/recipes/"; "https://www.jamieoliver.com/recipes/";
     "https://www.mybakingaddiction.com/recipes/"; "https://www.paninihappy.com/";
     "https://www.realsimple.com/food-recipes"; "https://www.simplyrecipes.com/recipes/";
     "https://steamykitchen.com/recipes/"; "https://tastykitchen.com/recipes/";
     "https://thepioneerwoman.com/food-cooking/recipes/";
     "https://www.thevintagemixer.com/recipe-index/";
     "https://www.twopeasandtheirpod.com/recipes/"; "https://whatsgabycooking.com/recipes/"];
  RATE_LIMIT := 2000;
  MAX_RECIPES_PER_SITE := 10;
  MAX_TOTAL_RECIPES := 500;
|}.

(** ** scraper.py *)

Module Scraper.
Section Scraper.
Context `{World} `{Config}.

(** [make_request(url)]: the timer key is the raw [netloc]. *)
Definition make_request (url : string) : M (option Response) :=
  let* parsed := lift (or_raise (urlparse url) ValueError) in
  let domain := netloc parsed in
  let* now := time_time in
  let* timers := get_domain_timers in
  (match timers !! domain with
   | Some last =>
       if now - last <? RATE_LIMIT then time_sleep (RATE_LIMIT - (now - last))
       else ret tt
   | None => ret tt
   end) ;;
  try_except
    (let* res := requests_get_ url in
     let* t := time_time in
     set_domain_timer domain t ;;
     raise_for_status res ;;
     ret (Some res))
    Exception
    (λ _, ret None).

(** The loop of [get_links] over the anchors. *)
Fixpoint get_links_loop (domain : string) (max_links : nat)
    (anchors : list anchor) (links : gset string) : gset string :=
  match anchors with
  | [] => links
  | a :: rest =>
      let href := href a in
      let href := if Py.startswith href "/" then "https://" ++ domain ++ href else href in
      let links :=
        if existsb (λ word, Py.contains word (Py.lower href)) ["recipe"]
           && Py.contains domain href
        then {[href]} ∪ links else links in
      if (max_links <=? size links)%nat then links
      else get_links_loop domain max_links rest links
  end.

(** [get_links(site_url, max_links)] *)
Definition get_links (site_url : string) (max_links : nat) : M (list string) :=
  let* res := make_request site_url in
  match res with
  | Some r =>
      if not_ res then ret []
      else
        let soup := BeautifulSoup (text r) in
        let* parsed := lift (or_raise (urlparse site_url) ValueError) in
        let domain := netloc parsed in
        ret (elements (get_links_loop domain max_links (find_all_a soup) ∅))
  | None => ret []
  end.

(** [next((i for i in data if i.get('@type') == 'Recipe'), {})] *)
Fixpoint first_recipe (data : list json) : result json :=
  match data with
  | [] => Ok (JObj [])
  | i :: rest =>
      match i with
      | JObj kv =>
          if Value.eq_str (Value.get kv "@type" JNull) "Recipe" then Ok i
          else first_recipe rest
      | _ => Raise AttributeError
      end
  end.

(** The body of the [try] in [parse_recipe], given [script.string]. *)
Definition read_script (script_string : option string) (r : recipe) : result recipe :=
  let? s := match script_string with
            | Some s => Ok s
            | None => Raise AttributeError
            end in
  let? data := match json_loads (Py.strip s) with
               | Some d => Ok d
               | None => Raise JSONDecodeError
               end in
  let? data := match data with
               | JArr l => first_recipe l
               | _ => Ok data
               end in
  match data with
  | JObj kv =>
      if Value.eq_str (Value.get kv "@type" JNull) "Recipe" then
        let steps := Value.get kv "recipeInstructions" (JArr []) in
        Ok {| source_url := source_url r;
              name := Value.get kv "name" (JStr "");
              ingredients := Value.get kv "recipeIngredient" (JArr []);
              instructions :=
                match steps with
                | JArr l =>
                    JArr (map (λ s, match s with
                                    | JObj skv => Value.get skv "text" (JStr "")
                                    | _ => s
                                    end) l)
                | _ => instructions r
                end |}
      else Ok r
  | _ => Raise AttributeError                 (* data.get on a non-dict *)
  end.

(** [parse_recipe] after the fetch. *)
Definition parse_soup (url : string) (sp : soup) : option recipe :=
  let r0 := {| source_url := url; name := JStr ""; ingredients := JArr [];
               instructions := JArr [] |} in
  let r := match find_all_ld_json sp with
           | script :: _ =>
               match read_script script r0 with
               | Ok r => r
               | Raise _ => r0
               end
           | [] => r0
           end in
  if Value.truthy (ingredients r) || Value.truthy (instructions r)
  then Some r else None.

(** [parse_recipe(url)] *)
Definition parse_recipe (url : string) : M (option recipe) :=
  let* res := make_request url in
  match res with
  | Some r =>
      if not_ res then ret None
      else ret (parse_soup url (BeautifulSoup (text r)))
  | None => ret None
  end.

(** [for link in links:] in [main] *)
Fixpoint links_loop (links : list string) : M unit :=
  match links with
  | [] => ret tt
  | link :: rest =>
      let* r := parse_recipe link in
      (match r with
       | Some r => all_recipes_append r
       | None => ret tt
       end) ;;
      let* recs := get_all_recipes in
      if (MAX_TOTAL_RECIPES <=? length recs)%nat then ret tt
      else links_loop rest
  end.

(** [for site in RECIPE_WEBSITES:] in [main] *)
Fixpoint sites_loop (sites : list string) : M unit :=
  match sites with
  | [] => ret tt
  | site :: rest =>
      try_except
        (let* links := get_links site MAX_RECIPES_PER_SITE in links_loop links)
        Exception (λ _, ret tt) ;;
      let* recs := get_all_recipes in
      if (MAX_TOTAL_RECIPES <=? length recs)%nat then ret tt
      else sites_loop rest
  end.

(** [main()] up to the [save_*] calls. *)
Definition main : M (list recipe) :=
  reset_all_recipes ;;
  sites_loop RECIPE_WEBSITES ;;
  get_all_recipes.

End Scraper.
End Scraper.

Definition scraper_config : Config := {|
  RECIPE_WEBSITES :=
    ["http://101cookbooks.com/"; "http://allrecipes.com/"; "http://bbc.co.uk/";
     "http://bbcgoodfood.com/"; "http://bonappetit.com/"; "http://closetcooking.com/";
     "http://epicurious.com/"; "http://finedininglovers.com/"; "http://foodrepublic.com/";
     "http://jamieoliver.com/"; "http://mybakingaddiction.com/"; "http://paninihappy.com/";
     "http://realsimple.com/"; "http://simplyrecipes.com/"; "http://steamykitchen.com/";
     "http://tastykitchen.com/"; "http://thepioneerwoman.com/"; "http://thevintagemixer.com/";
     "http://twopeasandtheirpod.com/"; "http://whatsgabycooking.com/"];
  RATE_LIMIT := 1500;
  MAX_RECIPES_PER_SITE := 10;
  MAX_TOTAL_RECIPES := 500;
|}.

(** ** scraperlist_of_recipes.py *)

Module ScraperList.
Section ScraperList.
Context `{World}.

(** [make_request(url)]: 1.5 s per raw [netloc]; only
    [RequestException] is caught. *)
Definition make_request (url : string) : M (option Response) :=
  let* parsed := lift (or_raise (urlparse url) ValueError) in
  let domain := netloc parsed in
  let* current_time := time_time in
  let* timers := get_domain_timers in
  (match timers !! domain with
   | Some last =>
       let elapsed := current_time - last in
       if elapsed <? 1500 then time_sleep (1500 - elapsed) else ret tt
   | None => ret tt
   end) ;;
  try_except
    (let* response := requests_get_ url in
     let* t := time_time in
     set_domain_timer domain t ;;
     raise_for_status response ;;
     ret (Some response))
    is_RequestException
    (λ _, ret None).

(** [json.loads(script.string)] *)
Definition loads (script_string : option string) : result json :=
  match script_string with
  | None => Raise TypeError
  | Some s =>
      match json_loads s with
      | Some d => Ok d
      | None => Raise JSONDecodeError
      end
  end.

(** [try: ... except (json.JSONDecodeError, TypeError): ...] around a
    block that leaves [fallback] when it is abandoned. *)
Definition except_json {A} (r : result A) (fallback : A) : result A :=
  match r with
  | Raise JSONDecodeError | Raise TypeError => Ok fallback
  | _ => r
  end.

Definition is_Recipe (kv : list (string * json)) : bool :=
  Value.eq_str (Value.get kv "@type" JNull) "Recipe".

(** *** Name *)

Fixpoint name_of_list (data : list json) (cur : json) : result json :=
  match data with
  | [] => Ok cur
  | item :: rest =>
      match item with
      | JObj kv =>
          if is_Recipe kv && Value.truthy (Value.get kv "name" JNull)
          then Ok (Value.get kv "name" JNull)
          else name_of_list rest cur
      | _ => Raise AttributeError
      end
  end.

Definition structured_name (data : json) (cur : json) : result json :=
  match data with
  | JArr l => name_of_list l cur
  | JObj kv => if is_Recipe kv then Ok (Value.get kv "name" (JStr "")) else Ok cur
  | _ => Ok cur
  end.

Definition heuristic_name (sp : soup) (cur : json) : json :=
  match find_h1 sp with
  | Some t => JStr (Py.strip t)
  | None =>
      match find_og_title sp with
      | Some content => JStr (Py.strip (default "" content))
      | None => cur
      end
  end.

(** *** Ingredients *)

(** [[ing.strip() for ing in ingredients]] *)
Fixpoint strip_each (l : list json) : result (list json) :=
  match l with
  | [] => Ok []
  | JStr s :: rest => let? rest' := strip_each rest in Ok (JStr (Py.strip s) :: rest')
  | _ :: _ => Raise AttributeError
  end.

Fixpoint ingredients_of_list (data : list json) (cur : list json) : result (list json) :=
  match data with
  | [] => Ok cur
  | item :: rest =>
      match item with
      | JObj kv =>
          if is_Recipe kv && Value.truthy (Value.get kv "recipeIngredient" JNull)
          then match Value.get kv "recipeIngredient" JNull with
               | JArr l => strip_each l
               | _ => Ok cur
               end
          else ingredients_of_list rest cur
      | _ => Raise AttributeError
      end
  end.

Definition structured_ingredients (data : json) (cur : list json) : result (list json) :=
  match data with
  | JArr l => ingredients_of_list l cur
  | JObj kv =>
      if is_Recipe kv
      then match Value.get kv "recipeIngredient" (JArr []) with
           | JArr l => strip_each l
           | _ => Ok cur
           end
      else Ok cur
  | _ => Ok cur
  end.

(** The texts one matched container gives: its non-empty [li]/[p] texts,
    else the lines of its text. *)
Definition container_texts (c : container) : list string :=
  match filter (λ t, Is_true (Py.nonempty t)) (li_p_texts c) with
  | [] => if Py.nonempty (text_lines c) then Py.split_nl (text_lines c) else []
  | l => l
  end.

(** [for selector in selectors:] up to the first container with texts. *)
Fixpoint first_match (sp : soup) (selectors : list string) : option (list string) :=
  match selectors with
  | [] => None
  | selector :: rest =>
      match select_one sp selector with
      | Some c =>
          match container_texts c with
          | [] => first_match sp rest
          | l => Some l
          end
      | None => first_match sp rest
      end
  end.

(** The selector lists; the quotation marks of the attribute selectors
    ([[class*="ingredient"]]) are left out of the keys. *)
Definition ingredient_selectors : list string :=
  [".ingredients"; ".recipe-ingredients"; ".ingredient"; ".ingredients-list";
   ".recipe-ingred_txt"; ".wprm-recipe-ingredient"; ".ingredients-section";
   "[class*=ingredient]"].

Definition instruction_selectors : list string :=
  [".instructions"; ".recipe-steps"; ".directions"; ".recipe-instructions";
   ".wprm-recipe-instruction"; ".instructions-section"; "[class*=instruction]";
   "[class*=direction]"; "[class*=step]"].

(** [if not recipe_data[field]: ...] with the selector list of the field *)
Definition heuristic_list (sp : soup) (selectors : list string) (cur : list json) : list json :=
  match cur with
  | [] =>
      match first_match sp selectors with
      | Some l => map JStr l
      | None => cur
      end
  | _ :: _ => cur
  end.

(** *** Instructions *)

Definition steps_of (instructions_ : list json) : list json :=
  flat_map
    (λ step, match step with
             | JObj kv =>
                 if Value.eq_str (Value.get kv "@type" JNull) "HowToStep"
                 then [Value.get kv "text" (JStr "")] else []
             | JStr _ => [step]
             | _ => []
             end) instructions_.

Fixpoint instructions_of_list (data : list json) (cur : list json) : result (list json) :=
  match data with
  | [] => Ok cur
  | item :: rest =>
      match item with
      | JObj kv =>
          if is_Recipe kv && Value.truthy (Value.get kv "recipeInstructions" JNull)
          then match Value.get kv "recipeInstructions" JNull with
               | JArr l => Ok (steps_of l)
               | _ => Ok cur
               end
          else instructions_of_list rest cur
      | _ => Raise AttributeError
      end
  end.

Definition structured_instructions (data : json) (cur : list json) : result (list json) :=
  match data with
  | JArr l => instructions_of_list l cur
  | JObj kv =>
      if is_Recipe kv
      then match Value.get kv "recipeInstructions" (JArr []) with
           | JArr l => Ok (steps_of l)
           | JStr s => Ok [JStr s]
           | _ => Ok cur
           end
      else Ok cur
  | _ => Ok cur
  end.

(** *** Clean up *)

(** [x.replace('\n', ' ').strip()] on whatever [x] is *)
Definition clean (x : json) : result string :=
  match x with
  | JStr s => Ok (Py.strip (Py.replace_nl s))
  | _ => Raise AttributeError
  end.

Fixpoint clean_each (l : list json) : result (list json) :=
  match l with
  | [] => Ok []
  | x :: rest =>
      let? s := clean x in
      let? rest' := clean_each rest in
      Ok (JStr s :: rest')
  end.

Definition Unknown_Recipe_Name : string := "Unknown Recipe Name".

(** One structured phase: [if script: try: data = json.loads(...) ...]. *)
Definition structured_phase {A} (sp : soup) (phase : json → A → result A) (cur : A) : result A :=
  match find_all_ld_json sp with
  | script :: _ => except_json (let? data := loads script in phase data cur) cur
  | [] => Ok cur
  end.

(** The three fields before the clean-up, in the order the code fills
    them. *)
Definition extract_name (sp : soup) : result json :=
  let? n := structured_phase sp structured_name (JStr "") in
  Ok (if Value.truthy n then n else heuristic_name sp n).

Definition extract_ingredients (sp : soup) : result (list json) :=
  let? l := structured_phase sp structured_ingredients [] in
  Ok (heuristic_list sp ingredient_selectors l).

Definition extract_instructions (sp : soup) : result (list json) :=
  let? l := structured_phase sp structured_instructions [] in
  Ok (heuristic_list sp instruction_selectors l).

(** [extract_recipe_data] after the fetch. *)
Definition extract_soup (url : string) (sp : soup) : result recipe :=
  let? name0 := extract_name sp in
  let? ingredients0 := extract_ingredients sp in
  let? instructions0 := extract_instructions sp in
  let? n := clean name0 in
  let? ingredients1 := clean_each ingredients0 in
  let? instructions1 := clean_each instructions0 in
  Ok {| source_url := url;
        name := JStr (if Py.nonempty n then n else Unknown_Recipe_Name);
        ingredients := JArr ingredients1;
        instructions := JArr instructions1 |}.

(** [extract_recipe_data(url)] *)
Definition extract_recipe_data (url : string) : M (option recipe) :=
  let* response := make_request url in
  match response with
  | Some r =>
      if not_ response || negb (status_code r =? 200) then ret None
      else
        let* rec := lift (extract_soup url (BeautifulSoup (text r))) in
        ret (Some rec)
  | None => ret None
  end.

(** *** Links *)

Definition absolute (domain href : string) : string :=
  if Py.startswith href "/" then "https://" ++ domain ++ href else href.

Definition same_site (domain href : string) : bool :=
  Py.startswith href "http" && Py.contains domain href.

(** [for a in a_tags:] of strategy 1 *)
Fixpoint card_loop (domain : string) (max_links : nat) (a_tags : list anchor)
    (links : gset string) : gset string :=
  match a_tags with
  | [] => links
  | a :: rest =>
      let href := absolute domain (href a) in
      let links := if same_site domain href then {[href]} ∪ links else links in
      if (max_links * 2 <=? size links)%nat then links
      else card_loop domain max_links rest links
  end.

Definition card_selectors : list string :=
  [".card"; ".recipe-card"; ".post-card"; ".item"; ".teaser"; ".summary";
   ".content-card"; ".result"].

Definition strategy1 (sp : soup) (domain : string) (max_links : nat)
    (links : gset string) : gset string :=
  fold_left
    (λ links selector,
       fold_left (λ links a_tags, card_loop domain max_links a_tags links)
                 (select_a sp selector) links)
    card_selectors links.

(** [for a in soup.find_all('a', href=True):] of strategy 2 *)
Fixpoint url_loop (domain : string) (max_links : nat) (anchors : list anchor)
    (links : gset string) : gset string :=
  match anchors with
  | [] => links
  | a :: rest =>
      let href := absolute domain (href a) in
      let links :=
        if same_site domain href
           && existsb (λ keyword, Py.contains keyword (Py.lower href))
                      ["recipe"; "recipes"; "dish"; "cook"; "make"]
        then {[href]} ∪ links else links in
      if (max_links * 2 <=? size links)%nat then links
      else url_loop domain max_links rest links
  end.

(** [for a in soup.find_all('a', href=True):] of strategy 3 *)
Fixpoint text_loop (domain : string) (max_links : nat) (anchors : list anchor)
    (links : gset string) : gset string :=
  match anchors with
  | [] => links
  | a :: rest =>
      let text_ := Py.lower (a_text a) in
      if Py.contains "recipe" text_ || Py.contains "cook" text_ || Py.contains "make" text_
      then
        let href := absolute domain (href a) in
        let links := if same_site domain href then {[href]} ∪ links else links in
        if (max_links * 2 <=? size links)%nat then links
        else text_loop domain max_links rest links
      else text_loop domain max_links rest links
  end.

(** The three strategies in turn. *)
Definition collect_links (sp : soup) (domain : string) (max_links : nat) : gset string :=
  let links := strategy1 sp domain max_links ∅ in
  let links := if (size links <? max_links)%nat
               then url_loop domain max_links (find_all_a sp) links else links in
  if (size links <? max_links)%nat
  then text_loop domain max_links (find_all_a sp) links else links.

(** [get_recipe_links(site_url, max_links)] *)
Definition get_recipe_links (site_url : string) (max_links : nat) : M (list string) :=
  let* response := make_request site_url in
  match response with
  | Some r =>
      if not_ response || negb (status_code r =? 200) then ret []
      else
        let sp := BeautifulSoup (text r) in
        let* parsed := lift (or_raise (urlparse site_url) ValueError) in
        let domain := netloc parsed in
        ret (take max_links (elements (collect_links sp domain max_links)))
  | None => ret []
  end.

(** *** Orchestrator *)

(** [for link in recipe_links:] in [scrape_and_save] *)
Fixpoint links_loop (recipe_links : list string) : M unit :=
  match recipe_links with
  | [] => ret tt
  | link :: rest =>
      try_except
        (let* r := extract_recipe_data link in
         match r with
         | Some r =>
             if Value.truthy (ingredients r) || Value.truthy (instructions r)
             then all_recipes_append r      (* after writer.writerow *)
             else ret tt
         | None => ret tt
         end)
        Exception (λ _, ret tt) ;;
      let* recs := get_all_recipes in
      if (100 <=? length recs)%nat then ret tt
      else links_loop rest
  end.

(** [for website in RECIPE_WEBSITES:] in [scrape_and_save]; the [try]
    block yields [true] when it ends in [break]. *)
Fixpoint websites_loop (websites : list string) : M unit :=
  match websites with
  | [] => ret tt
  | website :: rest =>
      let* stop :=
        try_except
          (let* recipe_links := get_recipe_links website 5 in
           links_loop recipe_links ;;
           let* recs := get_all_recipes in
           ret (100 <=? length recs)%nat)
          Exception (λ _, ret false) in
      if stop then ret tt else websites_loop rest
  end.

(** [scrape_and_save()], with the script's constant [RECIPE_WEBSITES] as
    the argument [websites]; the value is [all_recipes], each element of
    which was also written as a CSV row when it was appended. *)
Definition scrape_and_save (websites : list string) : M (list recipe) :=
  reset_all_recipes ;;
  websites_loop websites ;;
  get_all_recipes.

End ScraperList.
End ScraperList.

(** ** Vocabulary of the statements *)

(** The store right after a GET for [url] that was issued [d] ms after
    [clock st]: the GET is logged, the clock has run, and the timer of
    [domain] holds the new time when a response came back. *)
Definition after_get `{World} (st : store) (url domain : string) (d : Z) : store :=
  let k := length (trace st) in
  {| domain_timers :=
       match requests_get k url with
       | Ok _ => <[domain := clock st + d + latency k]> (domain_timers st)
       | Raise _ => domain_timers st
       end;
     seen_urls := seen_urls st;
     clock := clock st + d + latency k;
     trace := trace st ++ [(url, clock st + d)];
     all_recipes := all_recipes st |}.

(** The (lower-cased) Content-Type mentions [text/html]. *)
Definition is_html (res : Response) : bool :=
  Py.contains "text/html" (Py.lower (default "" (content_type res))).

(** The time at which the last GET of the store was issued. *)
Definition last_issue (st : store) : option Z := snd <$> last (trace st).

(** The store with another set of seen URLs. *)
Definition with_seen (st : store) (seen : gset string) : store :=
  {| domain_timers := domain_timers st; seen_urls := seen; clock := clock st;
     trace := trace st; all_recipes := all_recipes st |}.

(** The validity rule of the orchestrators: [ingredients or instructions]. *)
Definition valid (r : recipe) : bool :=
  Value.truthy (ingredients r) || Value.truthy (instructions r).

(** The store with another timer table. *)
Definition with_timers (st : store) (timers : gmap string Z) : store :=
  {| domain_timers := timers; seen_urls := seen_urls st; clock := clock st;
     trace := trace st; all_recipes := all_recipes st |}.

(** The moment a GET leaves, for a host whose timer entry is [entry]. *)
Definition issue_time_of `{Config} (entry : option Z) (now : Z) : Z :=
  match entry with
  | Some last => Z.max now (last + RATE_LIMIT)
  | None => now
  end.


(** ** Concrete collaborators for the examples *)

Module Examples.

(** Cuts [s] at the first occurrence of [sep]. *)
Fixpoint split_at (sep s : string) : option (string * string) :=
  if Py.startswith s sep then Some (EmptyString, Py.drop_prefix (String.length sep) s)
  else match s with
       | EmptyString => None
       | String c s' =>
           match split_at sep s' with
           | Some (a, b) => Some (String c a, b)
           | None => None
           end
       end.

(** [urlparse] on URLs of the shape [scheme://host/path] (no query, no
    fragment), which is all the examples use.  As in [urllib.parse], a
    host with an opening bracket and no closing one (or the reverse) is
    a [ValueError]. *)
Definition urlparse_simple (url : string) : option ParseResult :=
  match split_at "://" url with
  | Some (sch, rest) =>
      let parsed :=
        match split_at "/" rest with
        | Some (host, p) => {| scheme := sch; netloc := host; path := "/" ++ p |}
        | None => {| scheme := sch; netloc := rest; path := "" |}
        end in
      if xorb (Py.contains "[" (netloc parsed)) (Py.contains "]" (netloc parsed))
      then None else Some parsed
  | None => Some {| scheme := ""; netloc := ""; path := url |}
  end.

(** [urljoin] for an absolute [href] or one that starts with a slash; it
    parses both arguments. *)
Definition urljoin_simple (base href : string) : option string :=
  match urlparse_simple base, urlparse_simple href with
  | Some b, Some _ =>
      Some (if Py.contains "://" href then href
            else scheme b ++ "://" ++ netloc b ++ href)
  | _, _ => None
  end.

(** JSON text is written with apostrophes and turned into the real text
    by [dq]. *)
Fixpoint dq (s : string) : string :=
  match s with
  | EmptyString => EmptyString
  | String c s' =>
      String (if Ascii.eqb c (ascii_of_nat 39) then ascii_of_nat 34 else c) (dq s')
  end.

(** A decoder that knows the documents of a table and rejects the rest. *)
Fixpoint json_loads_table (table : list (string * json)) (s : string) : option json :=
  match table with
  | [] => None
  | (text_, v) :: table' =>
      if String.eqb (dq text_) s then Some v else json_loads_table table' s
  end.

Definition no_soup : soup :=
  {| find_all_a := []; find_all_ld_json := []; find_h1 := None; find_og_title := None;
     select_one := λ _, None; select_a := λ _, [] |}.

Definition html_page (body : string) : Response :=
  {| status_code := 200; content_type := Some "text/html; charset=utf-8"; text := body |}.

(** A host that refuses every connection, at once. *)
Definition world_down : World :=
  {| urlparse := urlparse_simple; urljoin := urljoin_simple;
     json_loads := λ _, None; BeautifulSoup := λ _, no_soup;
     requests_get := λ _ _, Raise ConnectionError; latency := λ _, 0 |}.

(** A site that answers every GET with an empty HTML page after 120 ms. *)
Definition world_blank : World :=
  {| urlparse := urlparse_simple; urljoin := urljoin_simple;
     json_loads := λ _, None; BeautifulSoup := λ _, no_soup;
     requests_get := λ _ _, Ok (html_page "<html></html>"); latency := λ _, 120 |}.

End Examples.

(** Two requests in a row to one host that is down, by [scrapermod.py]. *)
Definition down_twice : store :=
  let u := "https://www.example.com/recipes/" in
  let st1 := (@Scrapermod.make_request Examples.world_down scrapermod_config u (initial_store 0)).2 in
  (@Scrapermod.make_request Examples.world_down scrapermod_config u st1).2.

(** [www.example.com] and then [example.com], by [scraper.py], on a site
    that answers. *)
Definition www_then_bare : store :=
  let st1 := (@Scraper.make_request Examples.world_blank scraper_config
                "http://www.example.com/" (initial_store 0)).2 in
  (@Scraper.make_request Examples.world_blank scraper_config "http://example.com/recipes" st1).2.

(** Two requests in a row to one host that answers, by [scrapermod.py]. *)
Definition up_twice : store :=
  let st1 := (@Scrapermod.make_request Examples.world_blank scrapermod_config
                "https://www.example.com/recipes/" (initial_store 0)).2 in
  (@Scrapermod.make_request Examples.world_blank scrapermod_config
     "https://example.com/recipes/42-lemon-cake" st1).2.

(** The absolute URL of an anchor that gets past the three [continue]
    tests of [scrapermod.get_links] (href, scheme, host) and so reaches
    the keyword test and the [len(links) >= max_links] test; [None] for
    an anchor that is skipped, and the [ValueError] of an anchor whose
    URL [urljoin] or [urlparse] refuses. *)
Definition past_guards `{World} (site_url base_domain : string) (a : anchor)
    : result (option string) :=
  let href := Py.strip (href a) in
  if negb (Py.nonempty href)
     || existsb (Py.startswith href) ["javascript:"; "mailto:"; "tel:"]
  then Ok None
  else
    let? full_url := or_raise (urljoin site_url href) ValueError in
    let? parsed := or_raise (urlparse full_url) ValueError in
    if negb (existsb (String.eqb (scheme parsed)) ["http"; "https"]) then Ok None
    else
      let? domain := Scrapermod.normalize_domain full_url in
      if negb (String.eqb domain base_domain) then Ok None
      else Ok (Some full_url).

(** The keyword test of [scrapermod.get_links] on an absolute URL. *)
Definition keyword_in_path `{World} (full_url : string) : bool :=
  match urlparse full_url with
  | Some parsed =>
      existsb (λ kw, Py.contains kw (Py.lower (path parsed))) Scrapermod.recipe_keywords
  | None => false
  end.

(** The absolute URL an anchor contributes in [scrapermod.get_links], if
    it passes the filters of the loop (href, scheme, host, keyword). *)
Definition candidate `{World} (site_url base_domain : string) (a : anchor) : option string :=
  match past_guards site_url base_domain a with
  | Ok (Some full_url) => if keyword_in_path full_url then Some full_url else None
  | _ => None
  end.

(** An anchor at which the loop of [scrapermod.get_links] raises. *)
Definition malformed `{World} (site_url base_domain : string) (a : anchor) : bool :=
  match past_guards site_url base_domain a with
  | Raise _ => true
  | Ok _ => false
  end.

Module Pages.

(** A seed page with two recipe links. *)
Definition seed_soup : soup :=
  {| find_all_a := [ {| href := "/recipes/42-lemon-cake"; a_text := "Lemon cake" |};
                     {| href := "/recipes/7-apple-pie"; a_text := "Apple pie" |} ];
     find_all_ld_json := []; find_h1 := None; find_og_title := None;
     select_one := λ _, None; select_a := λ _, [] |}.

Definition world_seed : World :=
  {| urlparse := Examples.urlparse_simple; urljoin := Examples.urljoin_simple;
     json_loads := λ _, None; BeautifulSoup := λ _, seed_soup;
     requests_get := λ _ _, Ok (Examples.html_page "<html>seed</html>");
     latency := λ _, 120 |}.

(** A seed page of [example.com] that links to another site whose URL
    happens to contain the text [example.com]. *)
Definition foreign_soup : soup :=
  {| find_all_a := [ {| href := "https://evil.test/recipe/example.com"; a_text := "Best recipe" |} ];
     find_all_ld_json := []; find_h1 := None; find_og_title := None;
     select_one := λ _, None; select_a := λ _, [] |}.

Definition world_foreign : World :=
  {| urlparse := Examples.urlparse_simple; urljoin := Examples.urljoin_simple;
     json_loads := λ _, None; BeautifulSoup := λ _, foreign_soup;
     requests_get := λ _ _, Ok (Examples.html_page "<html>seed</html>");
     latency := λ _, 120 |}.


Definition lemon_cake_text : string :=
  "{'@type': 'Recipe', 'name': 'Lemon Cake', 'recipeIngredient': ['200g flour', '2 eggs'], 'recipeInstructions': ['Mix.', 'Bake.']}".

Definition lemon_cake : json :=
  JObj [("@type", JStr "Recipe"); ("name", JStr "Lemon Cake");
        ("recipeIngredient", JArr [JStr "200g flour"; JStr "2 eggs"]);
        ("recipeInstructions", JArr [JStr "Mix."; JStr "Bake."])].



(** A detail page whose JSON-LD block has ingredients only (and no
    name), and whose HTML has an instructions list. *)
Definition ingredients_only_text : string :=
  "{'@type': 'Recipe', 'recipeIngredient': ['200g flour', '2 eggs']}".

Definition ingredients_only : json :=
  JObj [("@type", JStr "Recipe");
        ("recipeIngredient", JArr [JStr "200g flour"; JStr "2 eggs"])].

Definition mixed_soup : soup :=
  {| find_all_a := [];
     find_all_ld_json := [Some (Examples.dq ingredients_only_text)];
     find_h1 := None; find_og_title := None;
     select_one := λ selector,
       if String.eqb selector ".instructions"
       then Some {| li_p_texts := ["Mix."; "Bake."];
                    text_lines := "Mix." ++ String Py.newline "Bake." |}
       else None;
     select_a := λ _, [] |}.

Definition world_mixed : World :=
  {| urlparse := Examples.urlparse_simple; urljoin := Examples.urljoin_simple;
     json_loads := Examples.json_loads_table [(ingredients_only_text, ingredients_only)];
     BeautifulSoup := λ _, mixed_soup;
     requests_get := λ _ _, Ok (Examples.html_page "<html>detail</html>");
     latency := λ _, 120 |}.

(** A detail page whose JSON-LD block has no name and no headline. *)
Definition nameless_text : string :=
  "{'@type': 'Recipe', 'recipeIngredient': ['200g flour', '2 eggs'], 'recipeInstructions': ['Mix.', 'Bake.']}".

Definition nameless : json :=
  JObj [("@type", JStr "Recipe");
        ("recipeIngredient", JArr [JStr "200g flour"; JStr "2 eggs"]);
        ("recipeInstructions", JArr [JStr "Mix."; JStr "Bake."])].

Definition nameless_soup : soup :=
  {| find_all_a := [];
     find_all_ld_json := [Some (Examples.dq nameless_text)];
     find_h1 := None; find_og_title := None;
     select_one := λ _, None; select_a := λ _, [] |}.

Definition world_nameless : World :=
  {| urlparse := Examples.urlparse_simple; urljoin := Examples.urljoin_simple;
     json_loads := Examples.json_loads_table [(nameless_text, nameless)];
     BeautifulSoup := λ _, nameless_soup;
     requests_get := λ _ _, Ok (Examples.html_page "<html>detail</html>");
     latency := λ _, 120 |}.

(** A detail page whose JSON-LD block has padded strings, a newline in
    the name, and a step without text. *)
Definition untidy_text : string :=
  "{'@type': 'Recipe', 'name': ' Lemon\nCake ', 'recipeIngredient': [' 2 eggs '], 'recipeInstructions': [{'@type': 'HowToStep'}, 'Bake.']}".

Definition untidy : json :=
  JObj [("@type", JStr "Recipe");
        ("name", JStr (" Lemon" ++ String Py.newline "Cake "));
        ("recipeIngredient", JArr [JStr " 2 eggs "]);
        ("recipeInstructions", JArr [JObj [("@type", JStr "HowToStep")]; JStr "Bake."])].

Definition untidy_soup : soup :=
  {| find_all_a := [];
     find_all_ld_json := [Some (Examples.dq untidy_text)];
     find_h1 := None; find_og_title := None;
     select_one := λ _, None; select_a := λ _, [] |}.

Definition world_untidy : World :=
  {| urlparse := Examples.urlparse_simple; urljoin := Examples.urljoin_simple;
     json_loads := Examples.json_loads_table [(untidy_text, untidy)];
     BeautifulSoup := λ _, untidy_soup;
     requests_get := λ _ _, Ok (Examples.html_page "<html>detail</html>");
     latency := λ _, 120 |}.

(** A small run: two sites, every page the Lemon Cake page with the two
    seed links, and a cap of one recipe. *)
Definition cake_soup : soup :=
  {| find_all_a := find_all_a seed_soup;
     find_all_ld_json := [Some (Examples.dq lemon_cake_text)];
     find_h1 := Some "Lemon Cake"; find_og_title := None;
     select_one := λ _, None; select_a := λ _, [] |}.

Definition world_cakes : World :=
  {| urlparse := Examples.urlparse_simple; urljoin := Examples.urljoin_simple;
     json_loads := Examples.json_loads_table [(lemon_cake_text, lemon_cake)];
     BeautifulSoup := λ _, cake_soup;
     requests_get := λ _ _, Ok (Examples.html_page "<html>cake</html>");
     latency := λ _, 120 |}.

Definition one_recipe_config : Config :=
  {| RECIPE_WEBSITES := ["https://example.com/recipes/"; "https://example.org/recipes/"];
     RATE_LIMIT := 2000; MAX_RECIPES_PER_SITE := 10; MAX_TOTAL_RECIPES := 1 |}.

End Pages.

(** The store after [all_recipes.append(r)]. *)
Definition appended (st : store) (r : recipe) : store := (all_recipes_append r st).2.

(** The number of recipes collected so far. *)
Definition collected (st : store) : nat := length (all_recipes st).

(** What [scrapermod.parse_recipe] guarantees of a record: both lists
    are non-empty, and the instructions are a list. *)
Definition complete (r : recipe) : bool :=
  Value.truthy (ingredients r) && Value.nonempty_list (instructions r).

(** The store after one round of the loop over the links in
    [scraper.main]. *)
Definition Scraper_round `{World} `{Config} (link : string) (st : store) : store :=
  let st1 := (Scraper.make_request link st).2 in
  match (Scraper.parse_recipe link st).1 with
  | Ok (Some r) => appended st1 r
  | _ => st1
  end.

(** The store after the [try] statement of one site in [scraper.main]. *)
Definition Scraper_site `{World} `{Config} (site : string) (st : store) : store :=
  (try_except
     (let* links := Scraper.get_links site MAX_RECIPES_PER_SITE in Scraper.links_loop links)
     Exception (λ _, ret tt) st).2.

(** A record one of whose two lists is a non-empty list: what the
    specification calls a non-empty ingredients or instructions
    sequence. *)
Definition has_content (r : recipe) : bool :=
  Value.nonempty_list (ingredients r) || Value.nonempty_list (instructions r).

(** A computation that only ever appends records with content to
    [all_recipes]. *)
Definition grows {A} (m : M A) : Prop :=
  ∀ st, ∃ new, all_recipes (m st).2 = (all_recipes st ++ new)%list
               ∧ Forall (λ r, has_content r = true) new.

(** A computation that always returns. *)
Definition returns {A} (m : M A) : Prop :=
  ∀ st, ∃ a, (m st).1 = Ok a.

(** A string as the clean-up leaves it: no newline, and nothing for
    [strip] to remove. *)
Definition has_newline (s : string) : bool :=
  existsb (Ascii.eqb Py.newline) (list_ascii_of_string s).

Definition cleaned (s : string) : Prop :=
  has_newline s = false ∧ Py.strip s = s.

(** ** Further vocabulary *)

(** The number of GETs issued so far. *)
Definition gets (st : store) : nat := length (trace st).

(** The text that [scrapermod.parse_recipe] hands to [json.loads] for a
    script whose [.string] is [s]. *)
Definition unwrap_payload (s : string) : string :=
  let data_str := Py.strip s in
  if Py.startswith data_str "<!--" then Py.strip (Py.slice_4_m3 data_str) else data_str.

(** The values [v] for which [v[:50]] is defined: [str] and [list]. *)
Definition sliceable (v : json) : bool :=
  match v with
  | JStr _ | JArr _ => true
  | _ => false
  end.

Module MorePages.

(** A detail page whose JSON-LD name is a language-tagged object. *)
Definition tagged_name_text : string :=
  "{'@type': 'Recipe', 'name': {'@language': 'en', '@value': 'Lemon Cake'}, 'recipeIngredient': ['200g flour'], 'recipeInstructions': ['Mix.']}".

Definition tagged_name_name : json :=
  JObj [("@language", JStr "en"); ("@value", JStr "Lemon Cake")].

Definition tagged_name : json :=
  JObj [("@type", JStr "Recipe");
        ("name", tagged_name_name);
        ("recipeIngredient", JArr [JStr "200g flour"]);
        ("recipeInstructions", JArr [JStr "Mix."])].

Definition tagged_name_soup : soup :=
  {| find_all_a := find_all_a Pages.seed_soup;
     find_all_ld_json := [Some (Examples.dq tagged_name_text)];
     find_h1 := None; find_og_title := None;
     select_one := λ _, None; select_a := λ _, [] |}.

Definition world_tagged_name : World :=
  {| urlparse := Examples.urlparse_simple; urljoin := Examples.urljoin_simple;
     json_loads := Examples.json_loads_table [(tagged_name_text, tagged_name)];
     BeautifulSoup := λ _, tagged_name_soup;
     requests_get := λ _ _, Ok (Examples.html_page "<html>detail</html>");
     latency := λ _, 120 |}.

(** Two JSON-LD items: a recipe with ingredients only, then a how-to
    with steps only. *)
Definition half_recipe : list (string * json) :=
  [("@type", JStr "Recipe"); ("name", JStr "Lemon Cake");
   ("recipeIngredient", JArr [JStr "200g flour"; JStr "2 eggs"])].

Definition half_howto : list (string * json) :=
  [("@type", JStr "HowTo"); ("name", JStr "Changing a tyre");
   ("recipeInstructions", JArr [JStr "Jack up the car."])].

End MorePages.

(** A JSON object whose [@type] is not ['Recipe']. *)
Definition other_dict (v : json) : bool :=
  match v with
  | JObj kv => negb (Value.eq_str (Value.get kv "@type" JNull) "Recipe")
  | _ => false
  end.

Definition is_dict (v : json) : bool :=
  match v with
  | JObj _ => true
  | _ => false
  end.

(** The record [scraper.parse_recipe] fills from a JSON-LD object of
    type Recipe. *)
Definition Scraper_record (url : string) (kv : list (string * json)) : recipe :=
  {| source_url := url;
     name := Value.get kv "name" (JStr "");
     ingredients := Value.get kv "recipeIngredient" (JArr []);
     instructions :=
       match Value.get kv "recipeInstructions" (JArr []) with
       | JArr l =>
           JArr (map (λ s, match s with
                           | JObj skv => Value.get skv "text" (JStr "")
                           | _ => s
                           end) l)
       | _ => JArr []
       end |}.

Module ListPages.

(** A JSON-LD list: a site object, then the recipe. *)
Definition site_then_recipe_text : string :=
  "[{'@type': 'WebSite', 'name': 'Example'}, " ++ Pages.lemon_cake_text ++ "]".

Definition site_then_recipe : json :=
  JArr [JObj [("@type", JStr "WebSite"); ("name", JStr "Example")]; Pages.lemon_cake].

(** A JSON-LD list with a bare string before the recipe. *)
Definition string_then_recipe_text : string :=
  "['https://schema.org', " ++ Pages.lemon_cake_text ++ "]".

Definition string_then_recipe : json :=
  JArr [JStr "https://schema.org"; Pages.lemon_cake].

Definition list_soup (payload : string) : soup :=
  {| find_all_a := find_all_a Pages.seed_soup;
     find_all_ld_json := [Some (Examples.dq payload)];
     find_h1 := Some "Lemon Cake"; find_og_title := None;
     select_one := λ _, None; select_a := λ _, [] |}.

Definition world_lists : World :=
  {| urlparse := Examples.urlparse_simple; urljoin := Examples.urljoin_simple;
     json_loads := Examples.json_loads_table
                     [(site_then_recipe_text, site_then_recipe);
                      (string_then_recipe_text, string_then_recipe)];
     BeautifulSoup := λ body, if String.eqb body "<html>string first</html>"
                              then list_soup string_then_recipe_text
                              else list_soup site_then_recipe_text;
     requests_get := λ _ url, if Py.contains "string-first" url
                              then Ok (Examples.html_page "<html>string first</html>")
                              else Ok (Examples.html_page "<html>site first</html>");
     latency := λ _, 120 |}.

End ListPages.

(** A computation that appends at most [n] records to [all_recipes]. *)
Definition adds {A} (n : nat) (m : M A) : Prop :=
  ∀ st, ∃ new, all_recipes (m st).2 = (all_recipes st ++ new)%list
               ∧ (length new ≤ n)%nat.

(** A JSON-LD list item that the name phase of
    [scraperlist_of_recipes.extract_recipe_data] passes over: an object
    that is not a Recipe with a non-empty name. *)
Definition unnamed_dict (v : json) : bool :=
  match v with
  | JObj kv => negb (ScraperList.is_Recipe kv && Value.truthy (Value.get kv "name" JNull))
  | _ => false
  end.

(** A selector that gives no texts on a page. *)
Definition no_texts (sp : soup) (selector : string) : bool :=
  match select_one sp selector with
  | Some c => match ScraperList.container_texts c with [] => true | _ => false end
  | None => true
  end.

(** Every timer entry lies in the past. *)
Definition timers_in_past (st : store) : Prop :=
  ∀ domain t, domain_timers st !! domain = Some t → t ≤ clock st.


(** The inner [try] statement of [scrape_and_save] for one link. *)
Definition ScraperList_try `{World} (link : string) : M unit :=
  try_except
    (let* r := ScraperList.extract_recipe_data link in
     match r with
     | Some r =>
         if Value.truthy (ingredients r) || Value.truthy (instructions r)
         then all_recipes_append r
         else ret tt
     | None => ret tt
     end)
    Exception (λ _, ret tt).

(** ['sep'.join(v)]: [v] must be iterable and give strings only. *)
Fixpoint as_strs (items : list json) : option (list string) :=
  match items with
  | [] => Some []
  | JStr s :: rest => cons s <$> as_strs rest
  | _ :: _ => None
  end.

Definition str_join (sep : string) (v : json) : result string :=
  let? items := Value.iterate v in
  match as_strs items with
  | Some ss => Ok (String.concat sep ss)
  | None => Raise TypeError
  end.

(** An item that [scrapermod.parse_recipe] passes over: not an object,
    or an object whose [@type] is not exactly the string ['Recipe'] or
    ['HowTo']. *)
Definition passed_over (item : json) : bool :=
  match item with
  | JObj kv => negb (Scrapermod.is_recipe_type (Value.get kv "@type" JNull))
  | _ => true
  end.

Module EdgePages.

(** A JSON-LD object whose [@graph] is a single object instead of a
    list, followed by a regular recipe block. *)
Definition graph_object_text : string :=
  "{'@context': 'https://schema.org', '@graph': {'@type': 'Recipe', 'name': 'Hidden'}}".

Definition graph_object : list (string * json) :=
  [("@context", JStr "https://schema.org");
   ("@graph", JObj [("@type", JStr "Recipe"); ("name", JStr "Hidden")])].

(** A recipe whose [@type] is a list, as JSON-LD allows. *)
Definition typed_by_list : json :=
  JObj [("@type", JArr [JStr "Recipe"]); ("name", JStr "Lemon Cake");
        ("recipeIngredient", JArr [JStr "200g flour"]);
        ("recipeInstructions", JArr [JStr "Mix."])].

Definition world_graph_object : World :=
  {| urlparse := Examples.urlparse_simple; urljoin := Examples.urljoin_simple;
     json_loads := Examples.json_loads_table
                     [(graph_object_text, JObj graph_object);
                      (Pages.lemon_cake_text, Pages.lemon_cake)];
     BeautifulSoup := λ _, Examples.no_soup;
     requests_get := λ _ _, Ok (Examples.html_page "<html>detail</html>");
     latency := λ _, 120 |}.

(** A site that answers every GET with status 204 and an HTML content
    type. *)
Definition world_204 : World :=
  {| urlparse := Examples.urlparse_simple; urljoin := Examples.urljoin_simple;
     json_loads := Examples.json_loads_table [(Pages.lemon_cake_text, Pages.lemon_cake)];
     BeautifulSoup := λ _, Pages.cake_soup;
     requests_get := λ _ _, Ok {| status_code := 204; content_type := Some "text/html";
                                  text := "<html>cake</html>" |};
     latency := λ _, 120 |}.

End EdgePages.

Module FlagPages.

(** A site whose pages carry one recipe link and a JSON-LD recipe whose
    [recipeIngredient] is the JSON value [true]. *)
Definition flag_text : string :=
  "{'@type': 'Recipe', 'name': 'Lemon Cake', 'recipeIngredient': true}".

Definition flag : json :=
  JObj [("@type", JStr "Recipe"); ("name", JStr "Lemon Cake");
        ("recipeIngredient", JBool true)].

Definition flag_soup : soup :=
  {| find_all_a := [ {| href := "/recipes/42-lemon-cake"; a_text := "Lemon cake" |} ];
     find_all_ld_json := [Some (Examples.dq flag_text)];
     find_h1 := Some "Lemon Cake"; find_og_title := None;
     select_one := λ _, None; select_a := λ _, [] |}.

Definition world_flag : World :=
  {| urlparse := Examples.urlparse_simple; urljoin := Examples.urljoin_simple;
     json_loads := Examples.json_loads_table [(flag_text, flag)];
     BeautifulSoup := λ _, flag_soup;
     requests_get := λ _ _, Ok (Examples.html_page "<html>cake</html>");
     latency := λ _, 120 |}.

Definition one_site_config : Config :=
  {| RECIPE_WEBSITES := ["http://example.com/"];
     RATE_LIMIT := 1500; MAX_RECIPES_PER_SITE := 10; MAX_TOTAL_RECIPES := 500 |}.

Definition flag_record : recipe :=
  {| source_url := "https://example.com/recipes/42-lemon-cake";
     name := JStr "Lemon Cake";
     ingredients := JBool true;
     instructions := JArr [] |}.

End FlagPages.

Module BadPages.

(** A seed page with a recipe link, then a link whose host opens an
    IPv6 bracket and never closes it, then another recipe link. *)
Definition bad_soup : soup :=
  {| find_all_a := [ {| href := "/recipes/42-lemon-cake"; a_text := "Lemon cake" |};
                     {| href := "http://[/recipes/broken"; a_text := "Broken" |};
                     {| href := "/recipes/7-apple-pie"; a_text := "Apple pie" |} ];
     find_all_ld_json := []; find_h1 := None; find_og_title := None;
     select_one := λ _, None; select_a := λ _, [] |}.

Definition world_bad : World :=
  {| urlparse := Examples.urlparse_simple; urljoin := Examples.urljoin_simple;
     json_loads := λ _, None; BeautifulSoup := λ _, bad_soup;
     requests_get := λ _ _, Ok (Examples.html_page "<html>seed</html>");
     latency := λ _, 120 |}.

End BadPages.

(** * Properties *)

(** ** The monad *)

Ltac unfold_M :=
  unfold bind, ret, raise, try_except, lift, time_time, time_sleep,
    requests_get_, get_domain_timers, set_domain_timer, get_seen_urls,
    seen_urls_add, get_all_recipes, reset_all_recipes, all_recipes_append,
    raise_for_status, Exception in *.

Lemma bind_Ok {A B} (m : M A) (k : A → M B) st a st' :
  m st = (Ok a, st') → bind m k st = k a st'.
Proof. intros E. unfold bind. by rewrite E. Qed.

Lemma bind_Raise {A B} (m : M A) (k : A → M B) st e st' :
  m st = (Raise e, st') → bind m k st = (Raise e, st').
Proof. intros E. unfold bind. by rewrite E. Qed.

Lemma bind_lift_Ok {A B} (r : result A) (k : A → M B) st a :
  r = Ok a → bind (lift r) k st = k a st.
Proof. by intros ->. Qed.

Lemma bind_lift_Raise {A B} (r : result A) (k : A → M B) st e :
  r = Raise e → bind (lift r) k st = (Raise e, st).
Proof. by intros ->. Qed.

(** ** URLs *)

Section urls.
Context `{World}.

(** [normalize_domain] raises exactly when [urlparse] does, and only
    [ValueError]. *)
Lemma normalize_domain_Ok url domain :
  Scrapermod.normalize_domain url = Ok domain →
  ∃ parsed, urlparse url = Some parsed.
Proof.
  unfold Scrapermod.normalize_domain. destruct (urlparse url) as [p|]; [eauto|done].
Qed.

Lemma normalize_domain_parsed url parsed :
  urlparse url = Some parsed →
  ∃ domain, Scrapermod.normalize_domain url = Ok domain.
Proof. intros E. unfold Scrapermod.normalize_domain. rewrite E. simpl. eauto. Qed.

Lemma normalize_domain_Raise url e :
  Scrapermod.normalize_domain url = Raise e → e = ValueError ∧ urlparse url = None.
Proof.
  unfold Scrapermod.normalize_domain. destruct (urlparse url) as [p|]; [done|].
  simpl. by intros [= <-].
Qed.

Lemma normalize_domain_None url :
  urlparse url = None → Scrapermod.normalize_domain url = Raise ValueError.
Proof. intros E. unfold Scrapermod.normalize_domain. by rewrite E. Qed.

End urls.

(** ** The rate limiter *)

Section make_request.
Context `{World} `{Config}.

(** A URL that [urlparse] refuses: [make_request] raises before anything
    else happens. *)
Lemma Scrapermod_make_request_raise url st e :
  Scrapermod.normalize_domain url = Raise e →
  Scrapermod.make_request url st = (Raise e, st).
Proof. intros E. unfold Scrapermod.make_request. by rewrite (bind_lift_Raise _ _ _ e). Qed.

Lemma Scrapermod_make_request_eq url st domain :
  Scrapermod.normalize_domain url = Ok domain →
  let d := default 0 (Scrapermod.sleep_time (domain_timers st) domain (clock st)) in
  Scrapermod.make_request url st =
    (Ok match requests_get (length (trace st)) url with
        | Ok res => if Response_ok res && is_html res then Some res else None
        | Raise _ => None
        end,
     after_get st url domain d).
Proof.
  intros Hdom d. subst d. unfold Scrapermod.make_request.
  rewrite (bind_lift_Ok _ _ _ domain Hdom).
  unfold after_get, is_html, Response_ok. unfold_M.
  destruct (Scrapermod.sleep_time _ _ _) as [d|]; simpl;
    rewrite ?Z.add_0_r;
    destruct (requests_get _ url) as [res|e]; simpl; try reflexivity;
    destruct (_ && _); simpl; try reflexivity;
    destruct (Py.contains _ _); reflexivity.
Qed.

End make_request.

Section make_request_facts.
Context `{World} `{Config}.

Lemma Scraper_make_request_raise url st :
  urlparse url = None →
  Scraper.make_request url st = (Raise ValueError, st).
Proof. intros E. unfold Scraper.make_request. by rewrite E. Qed.

Lemma Scraper_make_request_eq url st parsed :
  urlparse url = Some parsed →
  let domain := netloc parsed in
  let d := default 0 (Scrapermod.sleep_time (domain_timers st) domain (clock st)) in
  Scraper.make_request url st =
    (Ok match requests_get (length (trace st)) url with
        | Ok res => if Response_ok res then Some res else None
        | Raise _ => None
        end,
     after_get st url domain d).
Proof.
  intros Hp domain d. subst d.
  unfold Scraper.make_request. rewrite Hp.
  rewrite (bind_lift_Ok _ _ _ parsed) by done. fold domain.
  unfold Scrapermod.sleep_time, after_get, Response_ok. unfold_M.
  destruct (domain_timers st !! domain) as [last|]; simpl;
    [destruct (_ <? RATE_LIMIT); simpl|];
    rewrite ?Z.add_0_r;
    destruct (requests_get _ url) as [res|e]; simpl; try reflexivity;
    destruct (_ && _); reflexivity.
Qed.

(** The delay is the remaining part of [RATE_LIMIT], if any. *)
Lemma sleep_time_issue timers domain now :
  now + default 0 (Scrapermod.sleep_time timers domain now)
  = issue_time_of (timers !! domain) now.
Proof.
  unfold Scrapermod.sleep_time, issue_time_of.
  destruct (timers !! domain) as [last|]; simpl; [|lia].
  destruct (Z.ltb_spec (now - last) RATE_LIMIT); simpl; lia.
Qed.

Lemma Scrapermod_trace url st domain :
  Scrapermod.normalize_domain url = Ok domain →
  trace (Scrapermod.make_request url st).2
  = (trace st ++ [(url, issue_time_of (domain_timers st !! domain) (clock st))])%list.
Proof.
  intros Hdom. rewrite (Scrapermod_make_request_eq _ _ _ Hdom). simpl.
  by rewrite sleep_time_issue.
Qed.

Lemma Scraper_trace url st parsed :
  urlparse url = Some parsed →
  trace (Scraper.make_request url st).2
  = (trace st ++ [(url, issue_time_of (domain_timers st !! netloc parsed) (clock st))])%list.
Proof.
  intros Hp. rewrite (Scraper_make_request_eq _ _ _ Hp). simpl. by rewrite sleep_time_issue.
Qed.

Lemma after_get_timer st url domain d res :
  requests_get (length (trace st)) url = Ok res →
  domain_timers (after_get st url domain d) !! domain = Some (clock (after_get st url domain d)).
Proof. intros E. unfold after_get. simpl. rewrite E. by rewrite lookup_insert_eq. Qed.

Lemma after_get_other st url domain d host :
  host ≠ domain →
  domain_timers (after_get st url domain d) !! host = domain_timers st !! host.
Proof.
  intros Hne. unfold after_get. simpl.
  destruct (requests_get _ _); [by rewrite lookup_insert_ne|done].
Qed.

End make_request_facts.

(** C10: a GET that raises leaves the timer table as it was, in
    [scrapermod.py] and in [scraper.py], so the delay of the next request
    to any host is computed from the old entries; a GET that returns a
    response, whatever its status and content type, writes the time
    after the response into the entry of its host.  (A URL that
    [urlparse] refuses never gets as far as the GET: [make_request]
    raises at once and the store is as it was.) *)
Theorem C10_timer_written_only_after_response `{World} `{Config}
    (url : string) (st : store) :
  let st1 := (Scrapermod.make_request url st).2 in
  let st2 := (Scraper.make_request url st).2 in
  match urlparse url with
  | None => st1 = st ∧ st2 = st
  | Some parsed =>
      ∃ domain,
        Scrapermod.normalize_domain url = Ok domain
        ∧ match requests_get (length (trace st)) url with
          | Raise _ =>
              domain_timers st1 = domain_timers st
              ∧ domain_timers st2 = domain_timers st
              ∧ (∀ host now,
                   Scrapermod.sleep_time (domain_timers st1) host now
                   = Scrapermod.sleep_time (domain_timers st) host now)
          | Ok _ =>
              domain_timers st1 = <[domain := clock st1]> (domain_timers st)
              ∧ domain_timers st2 = <[netloc parsed := clock st2]> (domain_timers st)
          end
  end.
Proof.
  intros st1 st2. subst st1 st2.
  destruct (urlparse url) as [parsed|] eqn:Hp.
  - destruct (normalize_domain_parsed url parsed Hp) as [domain Hdom].
    exists domain. split; [done|].
    rewrite (Scrapermod_make_request_eq _ _ _ Hdom), (Scraper_make_request_eq _ _ _ Hp).
    unfold after_get. simpl.
    destruct (requests_get _ url); simpl; auto.
  - rewrite (Scrapermod_make_request_raise url st ValueError (normalize_domain_None url Hp)).
    by rewrite (Scraper_make_request_raise url st Hp).
Qed.

Section spacing.
Context `{World} `{Config}.

Lemma last_issue_snoc st url t tr :
  trace st = (tr ++ [(url, t)])%list → last_issue st = Some t.
Proof. intros E. unfold last_issue. rewrite E, last_snoc. done. Qed.

Lemma Scrapermod_last_issue url st domain :
  Scrapermod.normalize_domain url = Ok domain →
  last_issue (Scrapermod.make_request url st).2
  = Some (issue_time_of (domain_timers st !! domain) (clock st)).
Proof. intros Hdom. eapply last_issue_snoc, Scrapermod_trace, Hdom. Qed.

Lemma Scraper_last_issue url st parsed :
  urlparse url = Some parsed →
  last_issue (Scraper.make_request url st).2
  = Some (issue_time_of (domain_timers st !! netloc parsed) (clock st)).
Proof. intros Hp. eapply last_issue_snoc, Scraper_trace, Hp. Qed.

(** A request leaves the timers of the other hosts alone. *)
Lemma Scrapermod_other_host url st host :
  Scrapermod.normalize_domain url ≠ Ok host →
  domain_timers (Scrapermod.make_request url st).2 !! host = domain_timers st !! host.
Proof.
  intros Hne. destruct (Scrapermod.normalize_domain url) as [domain|e] eqn:Hdom.
  - rewrite (Scrapermod_make_request_eq _ _ _ Hdom). simpl.
    apply after_get_other. congruence.
  - by rewrite (Scrapermod_make_request_raise _ _ _ Hdom).
Qed.

Lemma Scrapermod_issue_ge_clock url st domain :
  Scrapermod.normalize_domain url = Ok domain →
  0 ≤ latency (length (trace st)) →
  ∀ t, last_issue (Scrapermod.make_request url st).2 = Some t →
       t ≤ clock (Scrapermod.make_request url st).2.
Proof.
  intros Hdom Hlat t. rewrite (Scrapermod_last_issue _ _ _ Hdom). intros [= <-].
  rewrite (Scrapermod_make_request_eq _ _ _ Hdom). simpl. rewrite sleep_time_issue. lia.
Qed.

End spacing.

(** C6, as the code has it ([scrapermod.py]): when a request to a host
    got a response, the next GET to the same normalized host (its timer
    entry still being the one that response wrote) leaves at the later of
    "now" and "recorded timestamp + RATE_LIMIT", hence at least
    RATE_LIMIT after the recorded timestamp and after the earlier GET was
    issued; requests to other hosts do not touch the entry, and an entry
    of another host never changes the moment the GET leaves. *)
Theorem C6_spacing_after_response `{World} `{Config}
    (url1 url2 : string) (st st' : store) (res : Response) (domain : string) :
  Scrapermod.normalize_domain url1 = Ok domain →
  Scrapermod.normalize_domain url2 = Ok domain →
  requests_get (length (trace st)) url1 = Ok res →
  domain_timers st' !! domain
    = domain_timers (Scrapermod.make_request url1 st).2 !! domain →
  let st1 := (Scrapermod.make_request url1 st).2 in
  let st2 := (Scrapermod.make_request url2 st').2 in
  last_issue st2 = Some (Z.max (clock st') (clock st1 + RATE_LIMIT))
  ∧ (∀ t1 t2, 0 ≤ latency (length (trace st)) →
       last_issue st1 = Some t1 → last_issue st2 = Some t2 → t1 + RATE_LIMIT ≤ t2)
  ∧ (∀ url3 st3,
       Scrapermod.normalize_domain url3 ≠ Ok domain →
       domain_timers (Scrapermod.make_request url3 st3).2 !! domain
       = domain_timers st3 !! domain)
  ∧ (∀ host t, host ≠ domain →
       last_issue (Scrapermod.make_request url2
                     (with_timers st' (<[host := t]> (domain_timers st')))).2
       = last_issue st2).
Proof.
  intros Hdom1 Hdom2 Hres Hentry st1 st2.
  assert (Hlast : domain_timers st' !! domain = Some (clock st1)).
  { rewrite Hentry. subst st1. rewrite (Scrapermod_make_request_eq _ _ _ Hdom1). simpl.
    eapply after_get_timer, Hres. }
  assert (Hissue : last_issue st2 = Some (Z.max (clock st') (clock st1 + RATE_LIMIT))).
  { subst st2. rewrite (Scrapermod_last_issue _ _ _ Hdom2), Hlast. done. }
  split; [done|]. split.
  { intros t1 t2 Hlat Ht1 Ht2. rewrite Hissue in Ht2. injection Ht2 as <-.
    pose proof (Scrapermod_issue_ge_clock url1 st domain Hdom1 Hlat t1 Ht1) as Hge.
    fold st1 in Hge. lia. }
  split.
  { intros url3 st3 Hne. by apply Scrapermod_other_host. }
  intros host t Hne. subst st2. rewrite !(Scrapermod_last_issue _ _ _ Hdom2). simpl.
  by rewrite lookup_insert_ne.
Qed.

Lemma C6_spacing_after_response_witness :
  last_issue up_twice = Some 2120.
Proof.
  pose proof (@C6_spacing_after_response Examples.world_blank scrapermod_config
    "https://www.example.com/recipes/" "https://example.com/recipes/42-lemon-cake"
    (initial_store 0)
    (@Scrapermod.make_request Examples.world_blank scrapermod_config
       "https://www.example.com/recipes/" (initial_store 0)).2
    (Examples.html_page "<html></html>") "example.com"
    eq_refl eq_refl eq_refl eq_refl) as [Hissue _].
  exact Hissue.
Defined.

(** C6 as stated fails: in [scrapermod.py] a GET that raised leaves no
    timestamp, so the next GET to the host leaves at once; in [scraper.py]
    the timers are kept per raw netloc, so [www.example.com] and
    [example.com] do not delay each other. *)
Lemma C6_counterexample :
  trace down_twice
    = [("https://www.example.com/recipes/", 0); ("https://www.example.com/recipes/", 0)]
  ∧ trace www_then_bare
    = [("http://www.example.com/", 0); ("http://example.com/recipes", 120)]
  ∧ @Scrapermod.normalize_domain Examples.world_blank "http://www.example.com/"
    = Ok "example.com"
  ∧ @Scrapermod.normalize_domain Examples.world_blank "http://example.com/recipes"
    = Ok "example.com"
  ∧ ¬ (0 + @RATE_LIMIT scrapermod_config ≤ 0)
  ∧ ¬ (0 + @RATE_LIMIT scraper_config ≤ 120).
Proof.
  repeat split; try (vm_compute; reflexivity);
    cbn; intros Hc; lia.
Qed.

(** ** The link discoverer of [scrapermod.py] *)

Section get_links.
Context `{World} `{Config}.

Lemma with_seen_id st : with_seen st (seen_urls st) = st.
Proof. by destruct st. Qed.

Lemma with_seen_twice st s1 s2 : with_seen (with_seen st s1) s2 = with_seen st s2.
Proof. done. Qed.

(** The loop can only raise the [ValueError] of the URL library. *)
Lemma past_guards_Raise site base a e :
  past_guards site base a = Raise e → e = ValueError.
Proof.
  unfold past_guards.
  destruct (negb _ || _); [done|].
  destruct (urljoin site _) as [full_url|]; cbn [or_raise rbind]; [|by intros [= <-]].
  destruct (urlparse full_url) as [parsed|] eqn:Hp; cbn [or_raise rbind];
    [|by intros [= <-]].
  destruct (negb (existsb _ _)); [done|].
  unfold Scrapermod.normalize_domain. rewrite Hp. cbn [or_raise rbind].
  by destruct (negb (String.eqb _ _)).
Qed.

(** One round of the loop over the anchors. *)
Lemma get_links_loop_cons site base max a rest links st :
  Scrapermod.get_links_loop site base max (a :: rest) links st =
    match past_guards site base a with
    | Raise e => (Raise e, st)
    | Ok None => Scrapermod.get_links_loop site base max rest links st
    | Ok (Some full_url) =>
        let new := bool_decide (full_url ∉ seen_urls st) && keyword_in_path full_url in
        let links1 := if new then {[full_url]} ∪ links else links in
        let seen1 := if new then {[full_url]} ∪ seen_urls st else seen_urls st in
        if (max <=? size links1)%nat then (Ok links1, with_seen st seen1)
        else Scrapermod.get_links_loop site base max rest links1 (with_seen st seen1)
    end.
Proof.
  cbn [Scrapermod.get_links_loop]. unfold past_guards.
  destruct (negb _ || _); [done|].
  destruct (urljoin site _) as [full_url|]; [|done].
  rewrite (bind_lift_Ok _ _ _ full_url) by done. cbn [or_raise rbind].
  unfold Scrapermod.normalize_domain.
  destruct (urlparse full_url) as [parsed|] eqn:Hp; [|done].
  rewrite (bind_lift_Ok _ _ _ parsed) by done. cbn [or_raise rbind].
  destruct (negb (existsb _ _)); [done|].
  rewrite (bind_lift_Ok _ _ _ _ eq_refl).
  destruct (negb (String.eqb _ _)); [done|].
  cbn zeta. unfold keyword_in_path. rewrite Hp. unfold bind at 1.
  destruct (existsb _ Scrapermod.recipe_keywords); unfold_M; simpl.
  - repeat case_bool_decide; simpl; try tauto.
    + destruct st; simpl. by destruct (_ <=? _)%nat.
    + by destruct (_ <=? _)%nat.
  - rewrite andb_false_r. destruct st; simpl. by destruct (_ <=? _)%nat.
Qed.

Lemma candidate_past_guards site base a u :
  candidate site base a = Some u ↔
  past_guards site base a = Ok (Some u) ∧ keyword_in_path u = true.
Proof.
  unfold candidate. destruct (past_guards site base a) as [[full_url|]|e]; try (split; [done|by intros [? ?]]).
  destruct (keyword_in_path full_url) eqn:E.
  - split; [by intros [= <-]|by intros [[= <-] _]].
  - split; [done|]. intros [[= <-] E']. congruence.
Qed.

(** What the loop over the anchors does.  It touches only the seen set,
    which can only grow, and only by candidates.  When it returns, it has added to [links] and to
    the seen set the same fresh candidates, and when it ends below the
    cap it has met no malformed anchor and has seen every candidate.
    When it raises, it does so with [ValueError] at a malformed anchor. *)
Lemma get_links_loop_spec site base max anchors :
  ∀ links st, ∃ seen',
    (Scrapermod.get_links_loop site base max anchors links st).2 = with_seen st seen'
    ∧ seen_urls st ⊆ seen'
    ∧ (∀ u, u ∈ seen' → u ∉ seen_urls st →
         ∃ a, a ∈ anchors ∧ candidate site base a = Some u)
    ∧ match (Scrapermod.get_links_loop site base max anchors links st).1 with
      | Ok links' =>
          links ⊆ links'
          ∧ seen' ⊆ seen_urls st ∪ links'
          ∧ (∀ u, u ∈ links' → u ∉ links →
               (u ∉ seen_urls st) ∧ u ∈ seen'
               ∧ (∃ a, a ∈ anchors ∧ candidate site base a = Some u))
          ∧ ((size links' < max)%nat →
               (∀ a u, a ∈ anchors → candidate site base a = Some u → u ∈ seen')
               ∧ (∀ a, a ∈ anchors → malformed site base a = false))
      | Raise e =>
          e = ValueError ∧ (∃ a, a ∈ anchors ∧ malformed site base a = true)
      end.
Proof.
  induction anchors as [|a rest IH]; intros links st.
  { exists (seen_urls st). rewrite with_seen_id. simpl.
    split; [done|]. split; [done|]. split; [done|]. split; [done|]. split; [set_solver|].
    split; [set_solver|]. intros _.
    split; [intros a u Ha|intros a Ha]; by apply elem_of_nil in Ha. }
  rewrite get_links_loop_cons.
  destruct (past_guards site base a) as [[full_url|]|e] eqn:Hpg.
  - (* the anchor reaches the keyword test *)
    cbn zeta.
    assert (Hcand : candidate site base a = if keyword_in_path full_url then Some full_url else None)
      by (unfold candidate; by rewrite Hpg).
    assert (Hmal : malformed site base a = false) by (unfold malformed; by rewrite Hpg).
    set (new := bool_decide (full_url ∉ seen_urls st) && keyword_in_path full_url).
    set (links1 := if new then {[full_url]} ∪ links else links).
    set (seen1 := if new then {[full_url]} ∪ seen_urls st else seen_urls st).
    assert (Hl1 : links ⊆ links1) by (subst links1; destruct new; set_solver).
    assert (Hs1 : seen_urls st ⊆ seen1) by (subst seen1; destruct new; set_solver).
    assert (Hs1' : seen1 ⊆ seen_urls st ∪ links1)
      by (subst seen1 links1; destruct new; set_solver).
    assert (Hnew : ∀ u, u ∈ links1 → u ∉ links →
              (u ∉ seen_urls st) ∧ u ∈ seen1 ∧ candidate site base a = Some u).
    { intros u Hu Hnu. subst links1 seen1. destruct new eqn:En; [|done].
      subst new. apply andb_true_iff in En as [En1 En2].
      apply bool_decide_eq_true_1 in En1. rewrite Hcand, En2.
      assert (u = full_url) as -> by set_solver. repeat split; try done. set_solver. }
    assert (Hnew_seen : ∀ u, u ∈ seen1 → u ∉ seen_urls st →
              candidate site base a = Some u).
    { intros u Hu Hnu. subst seen1. destruct new eqn:En; [|done].
      subst new. apply andb_true_iff in En as [En1 En2]. rewrite Hcand, En2.
      assert (u = full_url) as -> by set_solver. done. }
    assert (Hseen_cand : ∀ u, candidate site base a = Some u → u ∈ seen1).
    { intros u. rewrite Hcand. subst seen1 new.
      destruct (keyword_in_path full_url); [|done]. intros [= <-].
      rewrite andb_true_r. case_bool_decide; set_solver. }
    destruct (max <=? size links1)%nat eqn:Ebreak.
    + (* [break] *)
      exists seen1. cbn [fst snd]. split; [done|]. split; [done|].
      split.
      { intros u Hu Hnu. exists a. split; [apply elem_of_cons; by left|by apply Hnew_seen]. }
      split; [done|]. split; [done|]. split.
      * intros u Hu Hnu. destruct (Hnew u Hu Hnu) as (Hns & Hin1 & Hc).
        split; [done|]. split; [done|].
        exists a. split; [apply elem_of_cons; by left|done].
      * intros Hsz. apply Nat.leb_le in Ebreak. lia.
    + destruct (IH links1 (with_seen st seen1)) as (seen' & Est & H2 & Hgrow & Hres).
      cbn [seen_urls with_seen] in H2, Hgrow, Hres.
      exists seen'. split; [by rewrite Est|]. split; [set_solver +Hs1 H2|].
      split.
      { intros u Hu Hnu. destruct (decide (u ∈ seen1)) as [Hu1|Hu1].
        - exists a. split; [apply elem_of_cons; by left|by apply Hnew_seen].
        - destruct (Hgrow u Hu Hu1) as (a0 & Ha0 & Hc).
          exists a0. split; [apply elem_of_cons; by right|done]. }
      destruct (Scrapermod.get_links_loop site base max rest links1 (with_seen st seen1)).1
        as [links'|e'].
      * destruct Hres as (H1 & H3 & H4 & H5).
        split; [set_solver +Hl1 H1|].
        split; [set_solver +Hs1' H3 H1|].
        split.
        -- intros u Hu Hnu. destruct (decide (u ∈ links1)) as [Hu1|Hu1].
           ++ destruct (Hnew u Hu1 Hnu) as (Hns & Hin1 & Hc).
              split; [done|]. split; [set_solver +Hin1 H2|].
              exists a. split; [apply elem_of_cons; by left|done].
           ++ destruct (H4 u Hu Hu1) as (Hns & Hin & a0 & Ha0 & Hc).
              split; [set_solver +Hns Hs1|]. split; [done|].
              exists a0. split; [apply elem_of_cons; by right|done].
        -- intros Hsz. destruct (H5 Hsz) as [H5a H5b]. split.
           ++ intros a0 u Ha0 Hc. apply elem_of_cons in Ha0 as [->|Ha0].
              ** apply H2. by apply Hseen_cand.
              ** by eapply H5a.
           ++ intros a0 Ha0. apply elem_of_cons in Ha0 as [->|Ha0]; [done|by apply H5b].
      * destruct Hres as (-> & a0 & Ha0 & Hm). split; [done|].
        exists a0. split; [apply elem_of_cons; by right|done].
  - (* the anchor is skipped *)
    assert (Hcand : candidate site base a = None) by (unfold candidate; by rewrite Hpg).
    assert (Hmal : malformed site base a = false) by (unfold malformed; by rewrite Hpg).
    destruct (IH links st) as (seen' & Est & H2 & Hgrow & Hres).
    exists seen'. split; [done|]. split; [done|].
    split.
    { intros u Hu Hnu. destruct (Hgrow u Hu Hnu) as (a0 & Ha0 & Hc).
      exists a0. split; [apply elem_of_cons; by right|done]. }
    destruct (Scrapermod.get_links_loop site base max rest links st).1 as [links'|e'].
    + destruct Hres as (H1 & H3 & H4 & H5).
      split; [done|]. split; [done|]. split.
      * intros u Hu Hnu. destruct (H4 u Hu Hnu) as (Hns & Hin & a0 & Ha0 & Hc).
        split; [done|]. split; [done|].
        exists a0. split; [apply elem_of_cons; by right|done].
      * intros Hsz. destruct (H5 Hsz) as [H5a H5b]. split.
        -- intros a0 u Ha0 Hc. apply elem_of_cons in Ha0 as [->|Ha0]; [congruence|].
           by eapply H5a.
        -- intros a0 Ha0. apply elem_of_cons in Ha0 as [->|Ha0]; [done|by apply H5b].
    + destruct Hres as (-> & a0 & Ha0 & Hm). split; [done|].
      exists a0. split; [apply elem_of_cons; by right|done].
  - (* the anchor is malformed *)
    exists (seen_urls st). rewrite with_seen_id. cbn [fst snd].
    split; [done|]. split; [done|]. split; [done|].
    split; [by eapply past_guards_Raise|].
    exists a. split; [apply elem_of_cons; by left|]. unfold malformed. by rewrite Hpg.
Qed.


Lemma size_add_le (x : string) (links : gset string) :
  (size ({[x]} ∪ links) ≤ S (size links))%nat.
Proof.
  rewrite size_union_alt, size_singleton.
  assert (Hsub : links ∖ {[x]} ⊆ links) by set_solver.
  apply subseteq_size in Hsub. lia.
Qed.

(** The set the loop returns has at most [max] elements, or one more
    than it started with. *)
Lemma get_links_loop_size site base max anchors : ∀ links st links',
  (Scrapermod.get_links_loop site base max anchors links st).1 = Ok links' →
  (size links' ≤ Nat.max max (S (size links)))%nat.
Proof.
  induction anchors as [|a rest IH]; intros links st links'.
  { simpl. intros [= <-]. lia. }
  rewrite get_links_loop_cons.
  destruct (past_guards site base a) as [[full_url|]|e]; [|apply IH|done]. cbn zeta.
  set (new := bool_decide _ && _).
  set (links1 := if new then {[full_url]} ∪ links else links).
  assert (Hsz : (size links1 ≤ S (size links))%nat).
  { subst links1. destruct new; [apply size_add_le|lia]. }
  destruct (Nat.leb_spec max (size links1)).
  - simpl. intros [= <-]. lia.
  - intros E. apply IH in E. lia.
Qed.

End get_links.

Section get_links_facts.
Context `{World} `{Config}.

(** A candidate is on the seed's host, has an http(s) scheme and a
    recipe keyword in its path. *)
Lemma candidate_same_host site base a u :
  candidate site base a = Some u →
  Scrapermod.normalize_domain u = Ok base
  ∧ (∃ parsed, urlparse u = Some parsed
               ∧ (scheme parsed = "http" ∨ scheme parsed = "https"))
  ∧ keyword_in_path u = true.
Proof.
  intros [Hpg Hkw]%candidate_past_guards. split; [|split; [|done]];
    revert Hpg; unfold past_guards;
    (destruct (negb _ || _); [done|]);
    (destruct (urljoin site _) as [full_url|]; cbn [or_raise rbind]; [|done]);
    (destruct (urlparse full_url) as [parsed|] eqn:Hp; cbn [or_raise rbind]; [|done]);
    (destruct (negb (existsb _ _)) eqn:E2; [done|]);
    (destruct (Scrapermod.normalize_domain full_url) as [domain|] eqn:Hd;
     cbn [rbind]; [|done]);
    (destruct (negb (String.eqb _ _)) eqn:E3; [done|]);
    intros [= <-].
  - apply negb_false_iff, String.eqb_eq in E3. by rewrite Hd, E3.
  - exists parsed. split; [done|].
    apply negb_false_iff in E2. simpl in E2. rewrite orb_false_r in E2.
    apply orb_true_iff in E2 as [E|E]; apply String.eqb_eq in E; auto.
Qed.

(** A seed URL that [urlparse] refuses: [get_links] raises at once. *)
Lemma get_links_raise site max st e :
  Scrapermod.normalize_domain site = Raise e →
  Scrapermod.get_links site max st = (Raise e, st).
Proof.
  intros E. unfold Scrapermod.get_links. unfold bind at 1.
  by rewrite (Scrapermod_make_request_raise _ _ _ E).
Qed.

(** [get_links] in one equation: the request, then the loop. *)
Lemma get_links_eq site max st base :
  Scrapermod.normalize_domain site = Ok base →
  Scrapermod.get_links site max st =
    match (Scrapermod.make_request site st).1 with
    | Ok (Some r) =>
        match Scrapermod.get_links_loop site base max
                (find_all_a (BeautifulSoup (text r))) ∅ (Scrapermod.make_request site st).2 with
        | (Ok links, st') => (Ok (elements links), st')
        | (Raise e, st') => (Raise e, st')
        end
    | Ok None => (Ok [], (Scrapermod.make_request site st).2)
    | Raise e => (Raise e, (Scrapermod.make_request site st).2)
    end.
Proof.
  intros Hbase. unfold Scrapermod.get_links. unfold bind at 1.
  rewrite (Scrapermod_make_request_eq _ _ _ Hbase). cbn [fst snd].
  destruct (requests_get _ site) as [res|e]; [|done].
  destruct (Response_ok res && is_html res) eqn:E; [|done].
  apply andb_true_iff in E as [E _]. unfold not_. rewrite E. cbn [negb].
  rewrite (bind_lift_Ok _ _ _ base Hbase).
  unfold bind, ret. by destruct (Scrapermod.get_links_loop _ _ _ _ _ _) as [[?|?] ?].
Qed.

(** [get_links] changes only the timers, the clock, the trace and the
    seen set, which can only grow.  When it returns, its links are the
    fresh candidates it has added to the seen set, at most
    [max(max_links, 1)] of them; when it raises, it is the [ValueError]
    of a malformed anchor. *)
Lemma get_links_spec site max st base :
  Scrapermod.normalize_domain site = Ok base →
  ∃ seen',
    (Scrapermod.get_links site max st).2
      = with_seen (Scrapermod.make_request site st).2 seen'
    ∧ seen_urls st ⊆ seen'
    ∧ (∀ u, u ∈ seen' → u ∉ seen_urls st → ∃ a, candidate site base a = Some u)
    ∧ match (Scrapermod.get_links site max st).1 with
      | Ok l =>
          ∃ links, l = elements links
            ∧ seen' = seen_urls st ∪ links
            ∧ (size links ≤ Nat.max max 1)%nat
            ∧ (∀ u, u ∈ links →
                 (u ∉ seen_urls st) ∧ ∃ a, candidate site base a = Some u)
            ∧ ((Scrapermod.make_request site st).1 = Ok None → links = ∅)
      | Raise e => e = ValueError
      end.
Proof.
  intros Hbase. rewrite (get_links_eq _ _ _ _ Hbase).
  assert (Hseen : seen_urls (Scrapermod.make_request site st).2 = seen_urls st)
    by (by rewrite (Scrapermod_make_request_eq _ _ _ Hbase)).
  destruct (Scrapermod.make_request site st).1 as [[r|]|e] eqn:E1.
  - set (anchors := find_all_a (BeautifulSoup (text r))).
    set (st1 := (Scrapermod.make_request site st).2) in *.
    pose proof (get_links_loop_size site base max anchors ∅ st1) as Hsize.
    destruct (get_links_loop_spec site base max anchors ∅ st1)
      as (seen' & Est & H2 & Hgrow & Hres).
    assert (Hgrow' : ∀ u, u ∈ seen' → u ∉ seen_urls st →
              ∃ a, candidate site base a = Some u).
    { intros u Hu Hnu. rewrite Hseen in Hgrow.
      destruct (Hgrow u Hu Hnu) as (a & _ & Hc). by exists a. }
    destruct (Scrapermod.get_links_loop site base max anchors ∅ st1) as [[links|e] st'];
      cbn [fst snd] in *; subst st'.
    + destruct Hres as (_ & H3 & H4 & _).
      exists seen'. rewrite Hseen in *. split; [done|]. split; [done|]. split; [done|].
      exists links. split; [done|].
      assert (Hs0 : size (∅ : gset string) = 0%nat) by apply size_empty.
      specialize (Hsize links eq_refl). rewrite Hs0 in Hsize.
      split; [|split; [lia|split]].
      * apply set_eq. intros u. split.
        -- intros Hu. set_solver +Hu H3.
        -- intros [Hu|Hu]%elem_of_union; [set_solver +Hu H2|].
           destruct (H4 u Hu) as (_ & Hin & _); [set_solver|done].
      * intros u Hu. destruct (H4 u Hu) as (Hns & _ & a & _ & Hc); [set_solver|].
        split; [done|]. by exists a.
      * done.
    + exists seen'. rewrite Hseen in *. split; [done|]. split; [done|]. split; [done|].
      by destruct Hres.
  - exists (seen_urls st). rewrite <- Hseen at 1. rewrite with_seen_id. cbn [fst snd].
    split; [done|]. split; [done|]. split; [done|].
    exists ∅. rewrite elements_empty. split; [done|]. split; [set_solver|].
    split; [rewrite size_empty; lia|]. split; set_solver.
  - rewrite (Scrapermod_make_request_eq _ _ _ Hbase) in E1. done.
Qed.


End get_links_facts.

Section discoverer.
Context `{World} `{Config}.

(** Every link of [scrapermod.get_links] is on the seed's normalized
    host. *)
Lemma Scrapermod_links_same_host site max st l :
  (Scrapermod.get_links site max st).1 = Ok l →
  ∃ base, Scrapermod.normalize_domain site = Ok base
          ∧ ∀ u, u ∈ l → Scrapermod.normalize_domain u = Ok base.
Proof.
  destruct (Scrapermod.normalize_domain site) as [base|e'] eqn:Hbase;
    [|by rewrite (get_links_raise _ _ _ _ Hbase)].
  destruct (get_links_spec site max st base Hbase) as (seen' & _ & _ & _ & Hres).
  intros E. rewrite E in Hres. destruct Hres as (links & -> & _ & _ & Hnew & _).
  exists base. split; [done|]. intros u Hu%elem_of_elements.
  destruct (Hnew u Hu) as (_ & a & Hc). by apply candidate_same_host in Hc as [? _].
Qed.

End discoverer.

(** C4, as the code has it: when [get_links] has returned, a second
    [get_links] on the same seed document, run with a seen set that
    contains the one the first call left, returns none of the links of
    the first call; and it returns no link at all when the first call
    ended below [max_links], that is, when the cap did not cut the first
    call short. *)
Theorem C4_second_call_disjoint `{World} `{Config}
    (site : string) (max_links : nat) (st st' : store) (l1 : list string) :
  seen_urls (Scrapermod.get_links site max_links st).2 ⊆ seen_urls st' →
  requests_get (length (trace st')) site = requests_get (length (trace st)) site →
  (Scrapermod.get_links site max_links st).1 = Ok l1 →
  (∀ l2, (Scrapermod.get_links site max_links st').1 = Ok l2 → ∀ u, u ∈ l1 → u ∉ l2)
  ∧ ((length l1 < max_links)%nat → (Scrapermod.get_links site max_links st').1 = Ok []).
Proof.
  intros Hseen Hsame Hl1.
  destruct (Scrapermod.normalize_domain site) as [base|e'] eqn:Hbase;
    [|by rewrite (get_links_raise _ _ _ _ Hbase) in Hl1].
  rewrite !(get_links_eq _ _ _ _ Hbase) in *.
  rewrite !(Scrapermod_make_request_eq _ _ _ Hbase) in *. cbn [fst snd] in *.
  rewrite Hsame.
  destruct (requests_get (length (trace st)) site) as [res|e];
    [|injection Hl1 as <-; split; [intros l2 _ u Hu; by apply elem_of_nil in Hu|done]].
  destruct (Response_ok res && is_html res);
    [|injection Hl1 as <-; split; [intros l2 _ u Hu; by apply elem_of_nil in Hu|done]].
  set (anchors := find_all_a (BeautifulSoup (text res))) in *.
  set (sta := after_get st site base _) in *.
  set (stb := after_get st' site base _).
  destruct (get_links_loop_spec site base max_links anchors ∅ sta)
    as (seen1 & Ea & A2 & _ & Ares).
  destruct (get_links_loop_spec site base max_links anchors ∅ stb)
    as (seen2 & Eb & B2 & _ & Bres).
  destruct (Scrapermod.get_links_loop site base max_links anchors ∅ sta)
    as [[links1|e1] sta'] eqn:E1; [|done].
  cbn [fst snd] in *. subst sta'. injection Hl1 as <-.
  destruct Ares as (_ & A3 & A4 & A5).
  assert (Hb : seen_urls stb = seen_urls st') by done.
  assert (Hsub : seen1 ⊆ seen_urls st') by done.
  destruct (Scrapermod.get_links_loop site base max_links anchors ∅ stb)
    as [[links2|e2] stb'] eqn:E2; cbn [fst snd] in *.
  - destruct Bres as (_ & B3 & B4 & B5). split.
    + intros l2 [= <-] u Hu1 Hu2. apply elem_of_elements in Hu1, Hu2.
      destruct (A4 u) as (_ & Hin & _); [done|set_solver|].
      destruct (B4 u) as (Hnot & _); [done|set_solver|].
      rewrite Hb in Hnot. set_solver.
    + intros Hlen. fold (size links1) in Hlen. destruct (A5 Hlen) as [A5a _].
      assert (links2 = ∅) as ->; [|by rewrite elements_empty].
      apply set_eq. intros u. split; [|set_solver]. intros Hu.
      destruct (B4 u) as (Hnot & _ & a & Ha & Hc); [done|set_solver|].
      rewrite Hb in Hnot. specialize (A5a a u Ha Hc). set_solver.
  - split; [done|].
    intros Hlen. fold (size links1) in Hlen. destruct (A5 Hlen) as [_ A5b].
    destruct Bres as (_ & a & Ha & Hm). rewrite (A5b a Ha) in Hm. done.
Qed.

Lemma C4_second_call_disjoint_witness :
  (@Scrapermod.get_links Pages.world_seed scrapermod_config
     "https://example.com/recipes/" 5
     (@Scrapermod.get_links Pages.world_seed scrapermod_config
        "https://example.com/recipes/" 5 (initial_store 0)).2).1 = Ok [].
Proof.
  eapply (@C4_second_call_disjoint Pages.world_seed scrapermod_config
            "https://example.com/recipes/" 5 (initial_store 0)).
  - reflexivity.
  - reflexivity.
  - reflexivity.
  - vm_compute. lia.
Defined.

(** C4 as stated fails: with [max_links = 1] and two recipe links on the
    seed page, the first call stops at the first link and the second call
    returns the other one. *)
Lemma C4_counterexample :
  (@Scrapermod.get_links Pages.world_seed scrapermod_config
     "https://example.com/recipes/" 1 (initial_store 0)).1
    = Ok ["https://example.com/recipes/42-lemon-cake"]
  ∧ (@Scrapermod.get_links Pages.world_seed scrapermod_config
       "https://example.com/recipes/" 1
       (@Scrapermod.get_links Pages.world_seed scrapermod_config
          "https://example.com/recipes/" 1 (initial_store 0)).2).1
    = Ok ["https://example.com/recipes/7-apple-pie"].
Proof. split; vm_compute; reflexivity. Qed.

(** C5 fails in [scraper.py] and [scraperlist_of_recipes.py]: their
    filter only asks that the seed's netloc occurs somewhere in the href,
    so a link to another host whose URL contains that text is returned. *)
Theorem C5_cross_domain_link :
  (@Scraper.get_links Pages.world_foreign scraper_config
     "http://example.com/" 10 (initial_store 0)).1
    = Ok ["https://evil.test/recipe/example.com"]
  ∧ (@ScraperList.get_recipe_links Pages.world_foreign
       "http://example.com/" 5 (initial_store 0)).1
    = Ok ["https://evil.test/recipe/example.com"]
  ∧ @Scrapermod.normalize_domain Pages.world_foreign "https://evil.test/recipe/example.com"
    = Ok "evil.test"
  ∧ @Scrapermod.normalize_domain Pages.world_foreign "http://example.com/" = Ok "example.com".
Proof. repeat split; vm_compute; reflexivity. Qed.

(** ** The extractor of [scrapermod.py] *)

Section parse_recipe.
Context `{World} `{Config}.

Lemma Scrapermod_parse_recipe_raise url st e :
  Scrapermod.normalize_domain url = Raise e →
  Scrapermod.parse_recipe url st = (Raise e, st).
Proof.
  intros E. unfold Scrapermod.parse_recipe. unfold bind at 1.
  by rewrite (Scrapermod_make_request_raise _ _ _ E).
Qed.

Lemma Scrapermod_parse_recipe_eq url st domain :
  Scrapermod.normalize_domain url = Ok domain →
  Scrapermod.parse_recipe url st =
    (Ok match requests_get (length (trace st)) url with
        | Ok res =>
            if Response_ok res && is_html res
            then Scrapermod.parse_scripts (find_all_ld_json (BeautifulSoup (text res)))
                   (Scrapermod.empty_recipe url)
            else None
        | Raise _ => None
        end,
     (Scrapermod.make_request url st).2).
Proof.
  intros Hdom. unfold Scrapermod.parse_recipe. unfold bind at 1.
  rewrite (Scrapermod_make_request_eq _ _ _ Hdom). cbn [fst snd].
  destruct (requests_get _ url) as [res|e]; [|done].
  destruct (Response_ok res && is_html res) eqn:E; [|done].
  apply andb_true_iff in E as [E _]. unfold not_. by rewrite E.
Qed.



End parse_recipe.

(** ** Records of [scrapermod.parse_recipe] *)

Section scrapermod_records.
Context `{World} `{Config}.

Lemma process_item_returned item r r' :
  Scrapermod.process_item item r = (r', true) → complete r' = true.
Proof.
  unfold Scrapermod.process_item, complete.
  destruct item as [| | | |?|kv]; try done.
  destruct (Scrapermod.is_recipe_type _); [|done].
  intros [= <- E]. simpl in *.
  apply andb_true_iff in E as [-> E]. simpl.
  by destruct (Scrapermod.instructions_of _).
Qed.

Lemma process_items_returned items : ∀ r r',
  Scrapermod.process_items items r = (r', true) → complete r' = true.
Proof.
  induction items as [|item rest IH]; intros r r'; simpl; [done|].
  destruct (Scrapermod.process_item item r) as [r1 [|]] eqn:E.
  - intros [= <-]. by eapply process_item_returned.
  - apply IH.
Qed.

Lemma parse_scripts_complete scripts : ∀ r r',
  Scrapermod.parse_scripts scripts r = Some r' → complete r' = true.
Proof.
  induction scripts as [|s rest IH]; intros r r'; simpl; [done|].
  destruct (Scrapermod.script_items s) as [items|e]; [|apply IH].
  destruct (Scrapermod.process_items items r) as [r1 [|]] eqn:E.
  - intros [= <-]. by eapply process_items_returned.
  - apply IH.
Qed.

Lemma complete_valid r : complete r = true → valid r = true.
Proof.
  unfold complete, valid. intros [-> _]%andb_true_iff. done.
Qed.

Lemma complete_has_content r : complete r = true → has_content r = true.
Proof.
  unfold complete, has_content. intros [_ ->]%andb_true_iff. apply orb_true_r.
Qed.

Lemma complete_both r :
  complete r = true →
  Value.truthy (ingredients r) = true ∧ Value.truthy (instructions r) = true.
Proof.
  unfold complete. intros [-> E]%andb_true_iff. split; [done|].
  by destruct (instructions r) as [| | | |[|]|].
Qed.

Lemma Scrapermod_parse_recipe_complete url st r :
  (Scrapermod.parse_recipe url st).1 = Ok (Some r) → complete r = true.
Proof.
  destruct (Scrapermod.normalize_domain url) as [domain|e] eqn:Hdom;
    [|by rewrite (Scrapermod_parse_recipe_raise _ _ _ Hdom)].
  rewrite (Scrapermod_parse_recipe_eq _ _ _ Hdom). simpl.
  destruct (requests_get _ url) as [res|e]; [|done].
  destruct (_ && _); [|done]. intros [= E]. by eapply parse_scripts_complete.
Qed.

Lemma Scrapermod_parse_recipe_store url st :
  (Scrapermod.parse_recipe url st).2 = (Scrapermod.make_request url st).2.
Proof.
  destruct (Scrapermod.normalize_domain url) as [domain|e] eqn:Hdom.
  - by rewrite (Scrapermod_parse_recipe_eq _ _ _ Hdom).
  - by rewrite (Scrapermod_parse_recipe_raise _ _ _ Hdom),
      (Scrapermod_make_request_raise _ _ _ Hdom).
Qed.

(** [parse_recipe] raises only for a URL that [urlparse] refuses. *)
Lemma Scrapermod_parse_recipe_Raise url st e :
  (Scrapermod.parse_recipe url st).1 = Raise e →
  e = ValueError ∧ urlparse url = None.
Proof.
  destruct (Scrapermod.normalize_domain url) as [domain|e'] eqn:Hdom.
  - by rewrite (Scrapermod_parse_recipe_eq _ _ _ Hdom).
  - rewrite (Scrapermod_parse_recipe_raise _ _ _ Hdom). intros [= <-].
    by apply normalize_domain_Raise.
Qed.

Lemma Scrapermod_make_request_recipes url st :
  all_recipes (Scrapermod.make_request url st).2 = all_recipes st.
Proof.
  destruct (Scrapermod.normalize_domain url) as [domain|e] eqn:Hdom.
  - by rewrite (Scrapermod_make_request_eq _ _ _ Hdom).
  - by rewrite (Scrapermod_make_request_raise _ _ _ Hdom).
Qed.

Lemma Scrapermod_get_links_recipes site max st :
  all_recipes (Scrapermod.get_links site max st).2 = all_recipes st.
Proof.
  destruct (Scrapermod.normalize_domain site) as [base|e] eqn:Hbase.
  - destruct (get_links_spec site max st base Hbase) as (seen' & E & _).
    rewrite E. simpl. apply Scrapermod_make_request_recipes.
  - by rewrite (get_links_raise _ _ _ _ Hbase).
Qed.

(** A seed whose links were returned is a URL that [urlparse] accepts. *)
Lemma Scrapermod_get_links_parsed site max st l :
  (Scrapermod.get_links site max st).1 = Ok l → ∃ parsed, urlparse site = Some parsed.
Proof.
  destruct (Scrapermod.normalize_domain site) as [base|e] eqn:Hbase.
  - intros _. by eapply normalize_domain_Ok.
  - by rewrite (get_links_raise _ _ _ _ Hbase).
Qed.

End scrapermod_records.

(** ** The orchestrator of [scrapermod.py] *)

Section scrapermod_main.
Context `{World} `{Config}.

Lemma collected_appended st r : collected (appended st r) = S (collected st).
Proof. unfold collected, appended. simpl. rewrite length_app. simpl. lia. Qed.

(** One round of the loop over the links. *)
Lemma Scrapermod_links_loop_cons link rest st :
  Scrapermod.links_loop (link :: rest) st =
    if (MAX_TOTAL_RECIPES <=? collected st)%nat then (Ok tt, st)
    else
      let st1 := (Scrapermod.make_request link st).2 in
      match (Scrapermod.parse_recipe link st).1 with
      | Ok (Some r) =>
          match Scrapermod.name_preview r (appended st1 r) with
          | (Ok _, st2) => Scrapermod.links_loop rest st2
          | (Raise e, st2) => (Raise e, st2)
          end
      | Ok None => Scrapermod.links_loop rest st1
      | Raise e => (Raise e, st1)
      end.
Proof.
  cbn [Scrapermod.links_loop]. unfold bind at 1. unfold get_all_recipes at 1.
  unfold collected. destruct (_ <=? _)%nat; [done|].
  unfold bind at 1. cbn zeta.
  rewrite <- (Scrapermod_parse_recipe_store link st).
  by destruct (Scrapermod.parse_recipe link st) as [[[r|]|e] st1].
Qed.

Lemma name_preview_store r st : (Scrapermod.name_preview r st).2 = st.
Proof. unfold Scrapermod.name_preview. by destruct (name r). Qed.

(** The loop over the links only appends complete records, and never
    beyond the cap. *)
Lemma Scrapermod_links_loop_spec links : ∀ st,
  ∃ new,
    all_recipes (Scrapermod.links_loop links st).2 = (all_recipes st ++ new)%list
    ∧ Forall (λ r, complete r = true) new
    ∧ (collected (Scrapermod.links_loop links st).2
       ≤ Nat.max MAX_TOTAL_RECIPES (collected st))%nat.
Proof.
  induction links as [|link rest IH]; intros st.
  { exists []. simpl. rewrite app_nil_r. split; [done|]. split; [done|lia]. }
  rewrite Scrapermod_links_loop_cons.
  destruct (Nat.leb_spec MAX_TOTAL_RECIPES (collected st)) as [Hcap|Hcap].
  { exists []. simpl. rewrite app_nil_r. split; [done|]. split; [done|lia]. }
  cbn zeta.
  pose proof (Scrapermod_make_request_recipes link st) as Hkeep.
  destruct (Scrapermod.parse_recipe link st).1 as [[r|]|e] eqn:Er.
  - apply Scrapermod_parse_recipe_complete in Er.
    pose proof (name_preview_store r (appended (Scrapermod.make_request link st).2 r)) as Hst.
    assert (Happ : all_recipes (appended (Scrapermod.make_request link st).2 r)
                   = (all_recipes st ++ [r])%list)
      by (unfold appended; simpl; by rewrite Hkeep).
    assert (Hcol : collected (appended (Scrapermod.make_request link st).2 r)
                   = S (collected st))
      by (rewrite collected_appended; unfold collected; by rewrite Hkeep).
    destruct (Scrapermod.name_preview r _) as [[[]|e] st2]; simpl in Hst; subst st2.
    + destruct (IH (appended (Scrapermod.make_request link st).2 r))
        as (new & E & Hnew & Hlen).
      exists (r :: new). rewrite E, Happ, <- app_assoc. split; [done|].
      split; [by constructor|]. rewrite Hcol in Hlen. lia.
    + exists [r]. simpl. split; [done|]. split; [by repeat constructor|].
      rewrite Hcol. lia.
  - destruct (IH (Scrapermod.make_request link st).2) as (new & E & Hnew & Hlen).
    exists new. rewrite E, Hkeep. split; [done|]. split; [done|].
    unfold collected in *. rewrite Hkeep in Hlen. lia.
  - exists []. simpl. rewrite app_nil_r, Hkeep. split; [done|]. split; [done|].
    unfold collected. rewrite Hkeep. lia.
Qed.

(** Once the cap is reached the loop over the links does nothing. *)
Lemma Scrapermod_links_loop_capped links st :
  (MAX_TOTAL_RECIPES ≤ collected st)%nat →
  Scrapermod.links_loop links st = (Ok tt, st).
Proof.
  intros Hcap. destruct links as [|link rest]; [done|].
  rewrite Scrapermod_links_loop_cons.
  by destruct (Nat.leb_spec MAX_TOTAL_RECIPES (collected st)); [|lia].
Qed.

(** One round of the loop over the sites. *)
Lemma Scrapermod_sites_loop_cons site rest st :
  Scrapermod.sites_loop (site :: rest) st =
    let st1 := (Scrapermod.get_links site MAX_RECIPES_PER_SITE st).2 in
    match (Scrapermod.get_links site MAX_RECIPES_PER_SITE st).1 with
    | Ok [] => Scrapermod.sites_loop rest st1
    | Ok links =>
        let st2 := match Scrapermod.links_loop links st1 with
                   | (Ok _, st2) => st2
                   | (Raise _, st2) => (time_sleep 5000 st2).2
                   end in
        if (MAX_TOTAL_RECIPES <=? collected st2)%nat then (Ok tt, st2)
        else Scrapermod.sites_loop rest st2
    | Raise _ =>
        let st2 := (time_sleep 5000 st1).2 in
        if (MAX_TOTAL_RECIPES <=? collected st2)%nat then (Ok tt, st2)
        else Scrapermod.sites_loop rest st2
    end.
Proof.
  cbn [Scrapermod.sites_loop]. unfold bind at 1, try_except, Scrapermod.site_body.
  unfold bind at 1.
  pose proof (Scrapermod_get_links_parsed site MAX_RECIPES_PER_SITE st) as Hparsed.
  destruct (Scrapermod.get_links site MAX_RECIPES_PER_SITE st) as [[[|l links]|e] st1];
    cbn [fst snd Exception] in *; try done.
  - destruct (Hparsed _ eq_refl) as [parsed Hp]. rewrite Hp.
    rewrite (bind_lift_Ok _ _ _ parsed) by done.
    unfold bind at 1.
    destruct (Scrapermod.links_loop (l :: links) st1) as [[[]|e] st2];
      unfold_M; unfold collected; simpl; by destruct (_ <=? _)%nat.
  - unfold_M; unfold collected; simpl; by destruct (_ <=? _)%nat.
Qed.

Lemma time_sleep_recipes d st : all_recipes (time_sleep d st).2 = all_recipes st.
Proof. done. Qed.

(** The loop over the sites keeps the records complete and the list
    within the cap. *)
Lemma Scrapermod_sites_loop_spec sites : ∀ st,
  ∃ new,
    Scrapermod.sites_loop sites st = (Ok tt, (Scrapermod.sites_loop sites st).2)
    ∧ all_recipes (Scrapermod.sites_loop sites st).2 = (all_recipes st ++ new)%list
    ∧ Forall (λ r, complete r = true) new
    ∧ (collected (Scrapermod.sites_loop sites st).2
       ≤ Nat.max MAX_TOTAL_RECIPES (collected st))%nat.
Proof.
  induction sites as [|site rest IH]; intros st.
  { exists []. simpl. rewrite app_nil_r. repeat split; try done. lia. }
  rewrite Scrapermod_sites_loop_cons. cbn zeta.
  pose proof (Scrapermod_get_links_recipes site MAX_RECIPES_PER_SITE st) as Hkeep.
  set (st1 := (Scrapermod.get_links site MAX_RECIPES_PER_SITE st).2) in *.
  assert (Hcol1 : collected st1 = collected st) by (unfold collected; by rewrite Hkeep).
  destruct (Scrapermod.get_links site MAX_RECIPES_PER_SITE st).1 as [[|l links]|e].
  - destruct (IH st1) as (new & E & Ha & Hnew & Hlen).
    exists new. rewrite <- E, Ha, Hkeep. repeat split; try done. lia.
  - destruct (Scrapermod_links_loop_spec (l :: links) st1) as (new1 & Ha1 & Hnew1 & Hlen1).
    set (st2 := match Scrapermod.links_loop (l :: links) st1 with
                | (Ok _, st2) => st2
                | (Raise _, st2) => (time_sleep 5000 st2).2
                end).
    assert (Ha2 : all_recipes st2 = all_recipes (Scrapermod.links_loop (l :: links) st1).2)
      by (subst st2; by destruct (Scrapermod.links_loop _ _) as [[[]|?] ?]).
    assert (Hcol2 : collected st2 = collected (Scrapermod.links_loop (l :: links) st1).2)
      by (unfold collected; by rewrite Ha2).
    destruct (MAX_TOTAL_RECIPES <=? collected st2)%nat.
    + exists new1. cbn [fst snd]. rewrite Ha2, Ha1, Hkeep. repeat split; try done. lia.
    + destruct (IH st2) as (new & E & Ha & Hnew & Hlen).
      exists (new1 ++ new)%list. rewrite <- E, Ha, Ha2, Ha1, Hkeep, app_assoc.
      repeat split; try done; [by apply Forall_app|lia].
  - set (st2 := (time_sleep 5000 st1).2).
    assert (Ha2 : all_recipes st2 = all_recipes st1) by done.
    assert (Hcol2 : collected st2 = collected st1) by done.
    destruct (MAX_TOTAL_RECIPES <=? collected st2)%nat.
    + exists []. cbn [fst snd]. rewrite Ha2, Hkeep, app_nil_r. repeat split; try done. lia.
    + destruct (IH st2) as (new & E & Ha & Hnew & Hlen).
      exists new. rewrite <- E, Ha, Ha2, Hkeep. repeat split; try done. lia.
Qed.

(** Sites after the one at which the cap was reached are not visited. *)
Lemma Scrapermod_sites_loop_stop sites1 sites2 : ∀ st,
  (collected st < MAX_TOTAL_RECIPES)%nat →
  (MAX_TOTAL_RECIPES ≤ collected (Scrapermod.sites_loop sites1 st).2)%nat →
  Scrapermod.sites_loop (sites1 ++ sites2) st = Scrapermod.sites_loop sites1 st.
Proof.
  induction sites1 as [|site rest IH]; intros st Hlt Hcap.
  { simpl in Hcap. lia. }
  rewrite <- app_comm_cons, !Scrapermod_sites_loop_cons in *. cbn zeta in *.
  pose proof (Scrapermod_get_links_recipes site MAX_RECIPES_PER_SITE st) as Hkeep.
  set (st1 := (Scrapermod.get_links site MAX_RECIPES_PER_SITE st).2) in *.
  assert (Hcol1 : collected st1 = collected st) by (unfold collected; by rewrite Hkeep).
  destruct (Scrapermod.get_links site MAX_RECIPES_PER_SITE st).1 as [[|l links]|e].
  - apply IH; [lia|done].
  - destruct (Nat.leb_spec MAX_TOTAL_RECIPES
                (collected match Scrapermod.links_loop (l :: links) st1 with
                           | (Ok _, st2) => st2
                           | (Raise _, st2) => (time_sleep 5000 st2).2
                           end)); [done|].
    by apply IH.
  - destruct (Nat.leb_spec MAX_TOTAL_RECIPES (collected (time_sleep 5000 st1).2)); [done|].
    by apply IH.
Qed.

(** Links after the one at which the cap was reached are not fetched. *)
Lemma Scrapermod_links_loop_stop links1 links2 : ∀ st,
  (MAX_TOTAL_RECIPES ≤ collected (Scrapermod.links_loop links1 st).2)%nat →
  Scrapermod.links_loop (links1 ++ links2) st = Scrapermod.links_loop links1 st.
Proof.
  induction links1 as [|link rest IH]; intros st Hcap.
  { simpl in *. by apply Scrapermod_links_loop_capped. }
  rewrite <- app_comm_cons, !Scrapermod_links_loop_cons in *. cbn zeta in *.
  destruct (MAX_TOTAL_RECIPES <=? collected st)%nat; [done|].
  destruct (Scrapermod.parse_recipe link st).1 as [[r|]|e]; try done.
  - destruct (Scrapermod.name_preview r _) as [[[]|e] st2]; [by apply IH|done].
  - by apply IH.
Qed.

Lemma Scrapermod_main_eq st :
  Scrapermod.main st =
    (Ok (all_recipes (Scrapermod.sites_loop RECIPE_WEBSITES (reset_all_recipes st).2).2),
     (Scrapermod.sites_loop RECIPE_WEBSITES (reset_all_recipes st).2).2).
Proof.
  unfold Scrapermod.main. unfold bind at 1. cbn [reset_all_recipes fst snd].
  unfold bind at 1.
  destruct (Scrapermod_sites_loop_spec RECIPE_WEBSITES (reset_all_recipes st).2)
    as (new & E & _).
  cbn [reset_all_recipes snd] in E. rewrite E. done.
Qed.

End scrapermod_main.




(** ** [scraper.py] *)

Section scraper_main.
Context `{World} `{Config}.

Lemma Scraper_parse_recipe_raise url st :
  urlparse url = None →
  Scraper.parse_recipe url st = (Raise ValueError, st).
Proof.
  intros E. unfold Scraper.parse_recipe. unfold bind at 1.
  by rewrite (Scraper_make_request_raise _ _ E).
Qed.

Lemma Scraper_parse_recipe_eq url st parsed :
  urlparse url = Some parsed →
  Scraper.parse_recipe url st =
    (Ok match requests_get (length (trace st)) url with
        | Ok res => if Response_ok res
                    then Scraper.parse_soup url (BeautifulSoup (text res)) else None
        | Raise _ => None
        end,
     (Scraper.make_request url st).2).
Proof.
  intros Hp. unfold Scraper.parse_recipe. unfold bind at 1.
  rewrite (Scraper_make_request_eq _ _ _ Hp). cbn [fst snd].
  destruct (requests_get _ url) as [res|e]; [|done].
  destruct (Response_ok res) eqn:E; [|done]. unfold not_. by rewrite E.
Qed.

Lemma Scraper_get_links_raise site max st :
  urlparse site = None →
  Scraper.get_links site max st = (Raise ValueError, st).
Proof.
  intros E. unfold Scraper.get_links. unfold bind at 1.
  by rewrite (Scraper_make_request_raise _ _ E).
Qed.

Lemma Scraper_get_links_eq site max st parsed :
  urlparse site = Some parsed →
  Scraper.get_links site max st =
    (Ok match requests_get (length (trace st)) site with
        | Ok res =>
            if Response_ok res
            then elements (Scraper.get_links_loop (netloc parsed) max
                             (find_all_a (BeautifulSoup (text res))) ∅)
            else []
        | Raise _ => []
        end,
     (Scraper.make_request site st).2).
Proof.
  intros Hp. unfold Scraper.get_links. unfold bind at 1.
  rewrite (Scraper_make_request_eq _ _ _ Hp). cbn [fst snd].
  destruct (requests_get _ site) as [res|e]; [|done].
  destruct (Response_ok res) eqn:E; [|done]. unfold not_. rewrite E. cbn [negb].
  rewrite Hp. by rewrite (bind_lift_Ok _ _ _ parsed).
Qed.

Lemma Scraper_make_request_recipes url st :
  all_recipes (Scraper.make_request url st).2 = all_recipes st.
Proof.
  destruct (urlparse url) as [parsed|] eqn:Hp.
  - by rewrite (Scraper_make_request_eq _ _ _ Hp).
  - by rewrite (Scraper_make_request_raise _ _ Hp).
Qed.

Lemma Scraper_get_links_recipes site max st :
  all_recipes (Scraper.get_links site max st).2 = all_recipes st.
Proof.
  destruct (urlparse site) as [parsed|] eqn:Hp.
  - rewrite (Scraper_get_links_eq _ _ _ _ Hp). apply Scraper_make_request_recipes.
  - by rewrite (Scraper_get_links_raise _ _ _ Hp).
Qed.

Lemma Scraper_parse_recipe_store url st :
  (Scraper.parse_recipe url st).2 = (Scraper.make_request url st).2.
Proof.
  destruct (urlparse url) as [parsed|] eqn:Hp.
  - by rewrite (Scraper_parse_recipe_eq _ _ _ Hp).
  - by rewrite (Scraper_parse_recipe_raise _ _ Hp), (Scraper_make_request_raise _ _ Hp).
Qed.

Lemma parse_soup_valid url sp r :
  Scraper.parse_soup url sp = Some r → valid r = true.
Proof.
  unfold Scraper.parse_soup, valid.
  match goal with |- context [if ?c then _ else _] => destruct c eqn:E end; [|done].
  by intros [= <-].
Qed.

Lemma Scraper_parse_recipe_valid url st r :
  (Scraper.parse_recipe url st).1 = Ok (Some r) → valid r = true.
Proof.
  destruct (urlparse url) as [parsed|] eqn:Hp;
    [|by rewrite (Scraper_parse_recipe_raise _ _ Hp)].
  rewrite (Scraper_parse_recipe_eq _ _ _ Hp). simpl.
  destruct (requests_get _ url) as [res|e]; [|done].
  destruct (Response_ok res); [|done]. intros [= E]. by eapply parse_soup_valid.
Qed.

(** One round of the loop over the links: a URL that [urlparse] refuses
    ends the loop with its [ValueError]. *)
Lemma Scraper_links_loop_cons link rest st :
  Scraper.links_loop (link :: rest) st =
    match (Scraper.parse_recipe link st).1 with
    | Ok _ =>
        if (MAX_TOTAL_RECIPES <=? collected (Scraper_round link st))%nat
        then (Ok tt, Scraper_round link st)
        else Scraper.links_loop rest (Scraper_round link st)
    | Raise e => (Raise e, Scraper_round link st)
    end.
Proof.
  cbn [Scraper.links_loop]. unfold Scraper_round. unfold bind at 1. cbn zeta.
  rewrite <- (Scraper_parse_recipe_store link st).
  destruct (Scraper.parse_recipe link st) as [[[r|]|e] st1]; cbn [fst snd]; [| |done];
    unfold_M; unfold collected, appended; simpl; by destruct (_ <=? _)%nat.
Qed.

Lemma Scraper_round_recipes link st :
  ∃ new, all_recipes (Scraper_round link st) = (all_recipes st ++ new)%list
         ∧ Forall (λ r, valid r = true) new
         ∧ (length new ≤ 1)%nat.
Proof.
  unfold Scraper_round. cbn zeta.
  pose proof (Scraper_make_request_recipes link st) as Hkeep.
  destruct (Scraper.parse_recipe link st).1 as [[r|]|e] eqn:Er.
  - exists [r]. unfold appended. simpl. rewrite Hkeep. split; [done|].
    split; [|done]. repeat constructor. by eapply Scraper_parse_recipe_valid.
  - exists []. rewrite app_nil_r. repeat split; try done. simpl. lia.
  - exists []. rewrite app_nil_r. repeat split; try done. simpl. lia.
Qed.

Lemma Scraper_links_loop_spec links : ∀ st,
  ∃ new,
    all_recipes (Scraper.links_loop links st).2 = (all_recipes st ++ new)%list
    ∧ Forall (λ r, valid r = true) new
    ∧ ((collected st < MAX_TOTAL_RECIPES)%nat →
       (collected (Scraper.links_loop links st).2 ≤ MAX_TOTAL_RECIPES)%nat).
Proof.
  induction links as [|link rest IH]; intros st.
  { exists []. simpl. rewrite app_nil_r. repeat split; try done. lia. }
  rewrite Scraper_links_loop_cons.
  destruct (Scraper_round_recipes link st) as (new1 & Ha1 & Hnew1 & Hlen1).
  assert (Hcol1 : collected (Scraper_round link st) = (collected st + length new1)%nat)
    by (unfold collected; by rewrite Ha1, length_app).
  destruct (Scraper.parse_recipe link st).1 as [o|e].
  - destruct (Nat.leb_spec MAX_TOTAL_RECIPES (collected (Scraper_round link st))).
    + exists new1. cbn [fst snd]. repeat split; try done. lia.
    + destruct (IH (Scraper_round link st)) as (new & Ha & Hnew & Hlen).
      exists (new1 ++ new)%list. rewrite Ha, Ha1, app_assoc.
      repeat split; try done; [by apply Forall_app|]. intros _. by apply Hlen.
  - exists new1. cbn [fst snd]. repeat split; try done. lia.
Qed.

Lemma Scraper_sites_loop_cons site rest st :
  Scraper.sites_loop (site :: rest) st =
    if (MAX_TOTAL_RECIPES <=? collected (Scraper_site site st))%nat
    then (Ok tt, Scraper_site site st)
    else Scraper.sites_loop rest (Scraper_site site st).
Proof.
  cbn [Scraper.sites_loop]. unfold Scraper_site. unfold bind at 1.
  destruct (try_except _ Exception _ st) as [[[]|e] st2] eqn:E.
  - unfold_M. unfold collected. simpl. by destruct (_ <=? _)%nat.
  - exfalso. unfold try_except in E.
    destruct (bind _ _ st) as [[[]|e'] st']; simpl in E; discriminate E.
Qed.

(** The [try] statement of a site: the links, then the loop over them,
    with whatever is raised swallowed. *)
Lemma Scraper_site_eq site st :
  Scraper_site site st =
    match Scraper.get_links site MAX_RECIPES_PER_SITE st with
    | (Ok links, st1) => (Scraper.links_loop links st1).2
    | (Raise _, st1) => st1
    end.
Proof.
  unfold Scraper_site, try_except. unfold bind at 1.
  destruct (Scraper.get_links site MAX_RECIPES_PER_SITE st) as [[links|e] st1]; [|done].
  by destruct (Scraper.links_loop links st1) as [[[]|e] st2].
Qed.

Lemma Scraper_site_recipes site st :
  ∃ new,
    all_recipes (Scraper_site site st) = (all_recipes st ++ new)%list
    ∧ Forall (λ r, valid r = true) new
    ∧ ((collected st < MAX_TOTAL_RECIPES)%nat →
       (collected (Scraper_site site st) ≤ MAX_TOTAL_RECIPES)%nat).
Proof.
  pose proof (Scraper_get_links_recipes site MAX_RECIPES_PER_SITE st) as Hkeep.
  rewrite Scraper_site_eq.
  destruct (Scraper.get_links site MAX_RECIPES_PER_SITE st) as [[links|e] st1];
    cbn [fst snd] in *.
  - destruct (Scraper_links_loop_spec links st1) as (new & Ha & Hnew & Hlen).
    exists new. rewrite Ha, Hkeep. repeat split; try done.
    intros Hlt. apply Hlen. unfold collected in *. by rewrite Hkeep.
  - exists []. rewrite Hkeep, app_nil_r. repeat split; try done.
    unfold collected. rewrite Hkeep. lia.
Qed.

Lemma Scraper_sites_loop_spec sites : ∀ st,
  ∃ new,
    Scraper.sites_loop sites st = (Ok tt, (Scraper.sites_loop sites st).2)
    ∧ all_recipes (Scraper.sites_loop sites st).2 = (all_recipes st ++ new)%list
    ∧ Forall (λ r, valid r = true) new
    ∧ ((collected st < MAX_TOTAL_RECIPES)%nat →
       (collected (Scraper.sites_loop sites st).2 ≤ MAX_TOTAL_RECIPES)%nat).
Proof.
  induction sites as [|site rest IH]; intros st.
  { exists []. simpl. rewrite app_nil_r. repeat split; try done. lia. }
  rewrite Scraper_sites_loop_cons.
  destruct (Scraper_site_recipes site st) as (new1 & Ha1 & Hnew1 & Hlen1).
  destruct (Nat.leb_spec MAX_TOTAL_RECIPES (collected (Scraper_site site st))).
  - exists new1. cbn [fst snd]. repeat split; done.
  - destruct (IH (Scraper_site site st)) as (new & E & Ha & Hnew & Hlen).
    exists (new1 ++ new)%list. rewrite <- E, Ha, Ha1, app_assoc.
    repeat split; try done; [by apply Forall_app|]. intros _. by apply Hlen.
Qed.

Lemma Scraper_sites_loop_stop sites1 sites2 : ∀ st,
  (collected st < MAX_TOTAL_RECIPES)%nat →
  (MAX_TOTAL_RECIPES ≤ collected (Scraper.sites_loop sites1 st).2)%nat →
  Scraper.sites_loop (sites1 ++ sites2) st = Scraper.sites_loop sites1 st.
Proof.
  induction sites1 as [|site rest IH]; intros st Hlt Hcap.
  { simpl in Hcap. lia. }
  rewrite <- app_comm_cons, !Scraper_sites_loop_cons in *.
  destruct (Nat.leb_spec MAX_TOTAL_RECIPES (collected (Scraper_site site st))); [done|].
  by apply IH.
Qed.

Lemma Scraper_links_loop_stop links1 links2 : ∀ st,
  (collected st < MAX_TOTAL_RECIPES)%nat →
  (MAX_TOTAL_RECIPES ≤ collected (Scraper.links_loop links1 st).2)%nat →
  Scraper.links_loop (links1 ++ links2) st = Scraper.links_loop links1 st.
Proof.
  induction links1 as [|link rest IH]; intros st Hlt Hcap.
  { simpl in Hcap. lia. }
  rewrite <- app_comm_cons, !Scraper_links_loop_cons in *.
  destruct (Scraper.parse_recipe link st).1 as [o|e]; [|done].
  destruct (Nat.leb_spec MAX_TOTAL_RECIPES (collected (Scraper_round link st))); [done|].
  by apply IH.
Qed.

Lemma Scraper_main_eq st :
  Scraper.main st =
    (Ok (all_recipes (Scraper.sites_loop RECIPE_WEBSITES (reset_all_recipes st).2).2),
     (Scraper.sites_loop RECIPE_WEBSITES (reset_all_recipes st).2).2).
Proof.
  unfold Scraper.main. unfold bind at 1. cbn [reset_all_recipes fst snd].
  unfold bind at 1.
  destruct (Scraper_sites_loop_spec RECIPE_WEBSITES (reset_all_recipes st).2)
    as (new & E & _).
  cbn [reset_all_recipes snd] in E. rewrite E. done.
Qed.

End scraper_main.

(** ** [scraperlist_of_recipes.py] *)

Section scraperlist_request.
Context `{World}.

Lemma ScraperList_make_request_raise url st :
  urlparse url = None →
  ScraperList.make_request url st = (Raise ValueError, st).
Proof. intros E. unfold ScraperList.make_request. by rewrite E. Qed.

Lemma ScraperList_make_request_eq url st parsed :
  urlparse url = Some parsed →
  let domain := netloc parsed in
  let d := default 0 (@Scrapermod.sleep_time scraper_config (domain_timers st) domain (clock st)) in
  ScraperList.make_request url st =
    (match requests_get (length (trace st)) url with
     | Ok res => Ok (if Response_ok res then Some res else None)
     | Raise e => if is_RequestException e then Ok None else Raise e
     end,
     after_get st url domain d).
Proof.
  intros Hp domain d. subst d.
  unfold ScraperList.make_request. rewrite Hp.
  rewrite (bind_lift_Ok _ _ _ parsed) by done. fold domain.
  unfold Scrapermod.sleep_time, after_get, Response_ok.
  unfold_M. cbn [RATE_LIMIT scraper_config].
  destruct (domain_timers st !! domain) as [last|]; simpl;
    [destruct (_ <? 1500); simpl|];
    rewrite ?Z.add_0_r;
    destruct (requests_get _ url) as [res|e]; simpl;
    try (destruct (_ && _); reflexivity);
    destruct (is_RequestException e); reflexivity.
Qed.

Lemma ScraperList_make_request_recipes url st :
  all_recipes (ScraperList.make_request url st).2 = all_recipes st.
Proof.
  destruct (urlparse url) as [parsed|] eqn:Hp.
  - by rewrite (ScraperList_make_request_eq _ _ _ Hp).
  - by rewrite (ScraperList_make_request_raise _ _ Hp).
Qed.

Lemma status_200_ok res : status_code res = 200 → Response_ok res = true.
Proof. intros E. unfold Response_ok. by rewrite E. Qed.

Lemma rbind_Ok {A B} (r : result A) (k : A → result B) b :
  rbind r k = Ok b → ∃ a, r = Ok a ∧ k a = Ok b.
Proof. destruct r as [a|e]; simpl; [eauto|done]. Qed.

(** [extract_recipe_data] in one equation: the request, then the
    extraction from the page when its status is 200. *)
Lemma ScraperList_extract_eq url st parsed :
  urlparse url = Some parsed →
  ScraperList.extract_recipe_data url st =
    (match requests_get (length (trace st)) url with
     | Ok res =>
         if status_code res =? 200
         then match ScraperList.extract_soup url (BeautifulSoup (text res)) with
              | Ok r => Ok (Some r)
              | Raise e => Raise e
              end
         else Ok None
     | Raise e => if is_RequestException e then Ok None else Raise e
     end,
     (ScraperList.make_request url st).2).
Proof.
  intros Hp. unfold ScraperList.extract_recipe_data. unfold bind at 1.
  rewrite (ScraperList_make_request_eq _ _ _ Hp). cbn [fst snd].
  destruct (requests_get _ url) as [res|e]; [|by destruct (is_RequestException e)].
  destruct (status_code res =? 200) eqn:E200.
  - apply Z.eqb_eq in E200 as E. rewrite (status_200_ok _ E). unfold not_.
    rewrite (status_200_ok _ E), E200. cbn [negb orb]. unfold bind, lift, ret.
    by destruct (ScraperList.extract_soup url _).
  - destruct (Response_ok res) eqn:Eok; [|done].
    unfold not_. rewrite Eok, E200. done.
Qed.

Lemma ScraperList_extract_raise url st :
  urlparse url = None →
  ScraperList.extract_recipe_data url st = (Raise ValueError, st).
Proof.
  intros E. unfold ScraperList.extract_recipe_data. unfold bind at 1.
  by rewrite (ScraperList_make_request_raise _ _ E).
Qed.

(** A record of [extract_recipe_data] is what [extract_soup] makes of the
    page that the GET returned with status 200. *)
Lemma extract_recipe_data_inv url st r :
  (ScraperList.extract_recipe_data url st).1 = Ok (Some r) →
  ∃ res, requests_get (length (trace st)) url = Ok res
         ∧ status_code res = 200
         ∧ ScraperList.extract_soup url (BeautifulSoup (text res)) = Ok r.
Proof.
  destruct (urlparse url) as [parsed|] eqn:Hp;
    [|by rewrite (ScraperList_extract_raise _ _ Hp)].
  rewrite (ScraperList_extract_eq _ _ _ Hp). cbn [fst].
  destruct (requests_get _ url) as [res|e]; [|by destruct (is_RequestException e)].
  destruct (Z.eqb_spec (status_code res) 200) as [E200|E200]; [|done].
  destruct (ScraperList.extract_soup url _) as [r'|e] eqn:E; [|done].
  intros [= <-]. by exists res.
Qed.

(** The parts of a record that [extract_soup] returns. *)
Lemma extract_soup_inv url sp r :
  ScraperList.extract_soup url sp = Ok r →
  ∃ name0 ingredients0 instructions0 n ingredients1 instructions1,
    ScraperList.extract_name sp = Ok name0
    ∧ ScraperList.extract_ingredients sp = Ok ingredients0
    ∧ ScraperList.extract_instructions sp = Ok instructions0
    ∧ ScraperList.clean name0 = Ok n
    ∧ ScraperList.clean_each ingredients0 = Ok ingredients1
    ∧ ScraperList.clean_each instructions0 = Ok instructions1
    ∧ r = {| source_url := url;
             name := JStr (if Py.nonempty n then n else ScraperList.Unknown_Recipe_Name);
             ingredients := JArr ingredients1;
             instructions := JArr instructions1 |}.
Proof.
  unfold ScraperList.extract_soup.
  intros (name0 & E1 & E)%rbind_Ok.
  apply rbind_Ok in E as (ing0 & E2 & E).
  apply rbind_Ok in E as (ins0 & E3 & E).
  apply rbind_Ok in E as (n & E4 & E).
  apply rbind_Ok in E as (ing1 & E5 & E).
  apply rbind_Ok in E as (ins1 & E6 & [= <-]).
  by exists name0, ing0, ins0, n, ing1, ins1.
Qed.

(** In a record of [extract_recipe_data] both fields are lists, so the
    test [ingredients or instructions] asks for a non-empty list. *)
Lemma extract_record_content url st r :
  (ScraperList.extract_recipe_data url st).1 = Ok (Some r) →
  has_content r = valid r.
Proof.
  intros (res & _ & _ & E)%extract_recipe_data_inv.
  destruct (extract_soup_inv url _ r E) as (? & ? & ? & ? & ing1 & ins1 & _ & _ & _ & _ & _ & _ & ->).
  unfold has_content, valid. cbn [ingredients instructions].
  by destruct ing1, ins1.
Qed.

End scraperlist_request.

Section grows.

Lemma grows_keeps {A} (m : M A) :
  (∀ st, all_recipes (m st).2 = all_recipes st) → grows m.
Proof. intros Hk st. exists []. by rewrite app_nil_r. Qed.

Lemma grows_bind {A B} (m : M A) (k : A → M B) :
  grows m → (∀ a, grows (k a)) → grows (bind m k).
Proof.
  intros Hm Hk st. unfold bind. destruct (Hm st) as (new1 & E1 & F1).
  destruct (m st) as [[a|e] st1]; simpl in *.
  - destruct (Hk a st1) as (new2 & E2 & F2). exists (new1 ++ new2)%list.
    rewrite E2, E1, app_assoc. split; [done|]. by apply Forall_app.
  - by exists new1.
Qed.

(** The rule for a continuation that relies on what the first part
    returned. *)
Lemma grows_bind_result {A B} (m : M A) (k : A → M B) :
  grows m → (∀ st a, (m st).1 = Ok a → grows (k a)) → grows (bind m k).
Proof.
  intros Hm Hk st. unfold bind. destruct (Hm st) as (new1 & E1 & F1).
  specialize (Hk st).
  destruct (m st) as [[a|e] st1]; simpl in *.
  - destruct (Hk a eq_refl st1) as (new2 & E2 & F2). exists (new1 ++ new2)%list.
    rewrite E2, E1, app_assoc. split; [done|]. by apply Forall_app.
  - by exists new1.
Qed.

Lemma grows_try {A} (body : M A) catches (handler : exn → M A) :
  grows body → (∀ e, grows (handler e)) → grows (try_except body catches handler).
Proof.
  intros Hb Hh st. unfold try_except. destruct (Hb st) as (new1 & E1 & F1).
  destruct (body st) as [[a|e] st1]; simpl in *; [by exists new1|].
  destruct (catches e); [|by exists new1].
  destruct (Hh e st1) as (new2 & E2 & F2). exists (new1 ++ new2)%list.
  rewrite E2, E1, app_assoc. split; [done|]. by apply Forall_app.
Qed.

Lemma grows_append r : has_content r = true → grows (all_recipes_append r).
Proof. intros Hv st. exists [r]. simpl. split; [done|]. by repeat constructor. Qed.

Lemma returns_try_ret {A} (body : M A) (a : A) :
  returns (try_except body Exception (λ _, ret a)).
Proof.
  intros st. unfold try_except, Exception, ret.
  destruct (body st) as [[a'|e] st1]; simpl; eauto.
Qed.

End grows.

Ltac grows_step :=
  first
    [ apply grows_bind; [|intros ?]
    | apply grows_try; [|intros ?]
    | apply grows_keeps; intros ?; reflexivity
    | match goal with
      | |- grows (match ?x with _ => _ end) => destruct x
      end ].

Section scraperlist_main.
Context `{World}.

Lemma ScraperList_make_request_grows url : grows (ScraperList.make_request url).
Proof. apply grows_keeps. apply ScraperList_make_request_recipes. Qed.

Lemma ScraperList_extract_grows url : grows (ScraperList.extract_recipe_data url).
Proof.
  unfold ScraperList.extract_recipe_data.
  apply grows_bind; [apply ScraperList_make_request_grows|intros ?].
  repeat grows_step.
Qed.

Lemma ScraperList_get_recipe_links_grows site max :
  grows (ScraperList.get_recipe_links site max).
Proof.
  unfold ScraperList.get_recipe_links.
  apply grows_bind; [apply ScraperList_make_request_grows|intros ?].
  repeat grows_step.
Qed.

Lemma ScraperList_links_loop_grows links : grows (ScraperList.links_loop links).
Proof.
  induction links as [|link rest IH]; cbn [ScraperList.links_loop].
  { repeat grows_step. }
  apply grows_bind.
  - apply grows_try; [|intros ?; repeat grows_step].
    apply grows_bind_result; [apply ScraperList_extract_grows|intros st [r|] Hr];
      [|repeat grows_step].
    fold (valid r). rewrite <- (extract_record_content _ _ _ Hr).
    destruct (has_content r) eqn:Hv; [by apply grows_append|repeat grows_step].
  - intros _. apply grows_bind; [repeat grows_step|intros recs].
    destruct (_ <=? _)%nat; [repeat grows_step|done].
Qed.

Lemma ScraperList_websites_loop_grows websites : grows (ScraperList.websites_loop websites).
Proof.
  induction websites as [|website rest IH]; cbn [ScraperList.websites_loop].
  { repeat grows_step. }
  apply grows_bind.
  - apply grows_try; [|intros ?; repeat grows_step].
    apply grows_bind; [apply ScraperList_get_recipe_links_grows|intros links].
    apply grows_bind; [apply ScraperList_links_loop_grows|intros _].
    repeat grows_step.
  - intros [|]; [repeat grows_step|done].
Qed.

Lemma ScraperList_websites_loop_returns websites : returns (ScraperList.websites_loop websites).
Proof.
  induction websites as [|website rest IH]; intros st; cbn [ScraperList.websites_loop].
  { by exists tt. }
  unfold bind at 1.
  set (body := try_except _ Exception _).
  destruct (returns_try_ret
              (let* recipe_links := ScraperList.get_recipe_links website 5 in
               ScraperList.links_loop recipe_links;;
               let* recs := get_all_recipes in ret (100 <=? length recs)%nat)
              false st) as [stop E].
  fold body in E. destruct (body st) as [[s|e] st1]; simpl in E; [|done].
  destruct s; [by exists tt|apply IH].
Qed.

(** [scrape_and_save] returns, and in every record of its list the
    ingredients or the instructions are a non-empty list. *)
Lemma ScraperList_scrape_and_save_content websites st :
  ∃ recs, (ScraperList.scrape_and_save websites st).1 = Ok recs
          ∧ Forall (λ r, has_content r = true) recs.
Proof.
  unfold ScraperList.scrape_and_save. unfold bind at 1. cbn [reset_all_recipes].
  set (st0 := {| domain_timers := _; all_recipes := [] |}).
  unfold bind at 1.
  destruct (ScraperList_websites_loop_returns websites st0) as [[] E].
  destruct (ScraperList_websites_loop_grows websites st0) as (new & Ea & Hnew).
  destruct (ScraperList.websites_loop websites st0) as [[[]|e] st1]; simpl in *; [|done].
  exists (all_recipes st1). split; [done|]. by rewrite Ea.
Qed.

End scraperlist_main.

Section records.
Context `{World} `{Config}.

(** In every record of [scrapermod.main] the instructions are a
    non-empty list (and the ingredients are not empty either). *)
Lemma Scrapermod_main_content st :
  ∃ recs, (Scrapermod.main st).1 = Ok recs
          ∧ Forall (λ r, complete r = true ∧ has_content r = true) recs.
Proof.
  rewrite Scrapermod_main_eq. cbn [fst]. eexists. split; [done|].
  destruct (Scrapermod_sites_loop_spec RECIPE_WEBSITES (reset_all_recipes st).2)
    as (new & _ & Ea & Hnew & _).
  rewrite Ea. cbn [reset_all_recipes snd all_recipes app].
  eapply Forall_impl; [exact Hnew|]. intros r Hr. split; [done|].
  by apply complete_has_content.
Qed.

(** Every record of [scraper.main] passed the test of [parse_recipe]:
    the truth value of its ingredients or of its instructions. *)
Lemma Scraper_main_valid st :
  ∃ recs, (Scraper.main st).1 = Ok recs ∧ Forall (λ r, valid r = true) recs.
Proof.
  rewrite Scraper_main_eq. cbn [fst]. eexists. split; [done|].
  destruct (Scraper_sites_loop_spec RECIPE_WEBSITES (reset_all_recipes st).2)
    as (new & _ & Ea & Hnew & _).
  rewrite Ea. done.
Qed.

End records.

(** C2 fails in [scraper.py].  Its [parse_recipe] stores
    [data.get('recipeIngredient', [])] as it comes and tests the truth
    value of the field, so a JSON-LD recipe whose [recipeIngredient] is
    [true] gives a record that [main] appends although its ingredients
    are not a sequence and its instructions are empty: all that
    [scraper.main] ensures of a collected record is that truth value.
    In [scrapermod.py] and [scraperlist_of_recipes.py] every collected
    record has a non-empty list in one of the two fields, for every
    world and configuration. *)
Theorem C2_only_valid_records :
  (@Scraper.parse_recipe FlagPages.world_flag FlagPages.one_site_config
     "https://example.com/recipes/42-lemon-cake" (initial_store 0)).1
    = Ok (Some FlagPages.flag_record)
  ∧ (@Scraper.main FlagPages.world_flag FlagPages.one_site_config (initial_store 0)).1
    = Ok [FlagPages.flag_record]
  ∧ ingredients FlagPages.flag_record = JBool true
  ∧ instructions FlagPages.flag_record = JArr []
  ∧ valid FlagPages.flag_record = true
  ∧ has_content FlagPages.flag_record = false
  ∧ (∀ (W : World) (C : Config) (st : store),
       ∃ recs, (Scraper.main st).1 = Ok recs ∧ Forall (λ r, valid r = true) recs)
  ∧ (∀ (W : World) (C : Config) (st : store),
       ∃ recs, (Scrapermod.main st).1 = Ok recs
               ∧ Forall (λ r, has_content r = true) recs)
  ∧ (∀ (W : World) (websites : list string) (st : store),
       ∃ recs, (ScraperList.scrape_and_save websites st).1 = Ok recs
               ∧ Forall (λ r, has_content r = true) recs).
Proof.
  do 6 (split; [vm_compute; reflexivity|]).
  split; [intros W C st; apply Scraper_main_valid|].
  split; [|intros W websites st; apply ScraperList_scrape_and_save_content].
  intros W C st. destruct (Scrapermod_main_content st) as (recs & E & Hrecs).
  exists recs. split; [done|]. eapply Forall_impl; [exact Hrecs|]. by intros r [_ ?].
Qed.

(** C3: with [MAX_TOTAL_RECIPES = N > 0], the list that [main] hands to
    the sinks has at most [N] records, in [scrapermod.py] and in
    [scraper.py]; and once the list has [N] records no further link of
    the site and no further site is processed: running the loops on more
    links or more sites ends in the same store, trace of GETs included. *)
Theorem C3_global_cap `{World} `{Config} (st : store) :
  (0 < MAX_TOTAL_RECIPES)%nat →
  (∃ recs, (Scrapermod.main st).1 = Ok recs ∧ (length recs ≤ MAX_TOTAL_RECIPES)%nat)
  ∧ (∃ recs, (Scraper.main st).1 = Ok recs ∧ (length recs ≤ MAX_TOTAL_RECIPES)%nat)
  ∧ (∀ sites1 sites2 st0,
       (collected st0 < MAX_TOTAL_RECIPES)%nat →
       (MAX_TOTAL_RECIPES ≤ collected (Scrapermod.sites_loop sites1 st0).2)%nat →
       Scrapermod.sites_loop (sites1 ++ sites2) st0 = Scrapermod.sites_loop sites1 st0)
  ∧ (∀ links1 links2 st0,
       (MAX_TOTAL_RECIPES ≤ collected (Scrapermod.links_loop links1 st0).2)%nat →
       Scrapermod.links_loop (links1 ++ links2) st0 = Scrapermod.links_loop links1 st0)
  ∧ (∀ sites1 sites2 st0,
       (collected st0 < MAX_TOTAL_RECIPES)%nat →
       (MAX_TOTAL_RECIPES ≤ collected (Scraper.sites_loop sites1 st0).2)%nat →
       Scraper.sites_loop (sites1 ++ sites2) st0 = Scraper.sites_loop sites1 st0)
  ∧ (∀ links1 links2 st0,
       (collected st0 < MAX_TOTAL_RECIPES)%nat →
       (MAX_TOTAL_RECIPES ≤ collected (Scraper.links_loop links1 st0).2)%nat →
       Scraper.links_loop (links1 ++ links2) st0 = Scraper.links_loop links1 st0).
Proof.
  intros Hpos. split.
  { rewrite Scrapermod_main_eq. cbn [fst]. eexists. split; [done|].
    destruct (Scrapermod_sites_loop_spec RECIPE_WEBSITES (reset_all_recipes st).2)
      as (new & _ & _ & _ & Hlen).
    unfold collected in Hlen. cbn [reset_all_recipes snd all_recipes length] in *. lia. }
  split.
  { rewrite Scraper_main_eq. cbn [fst]. eexists. split; [done|].
    destruct (Scraper_sites_loop_spec RECIPE_WEBSITES (reset_all_recipes st).2)
      as (new & _ & _ & _ & Hlen).
    unfold collected in Hlen. cbn [reset_all_recipes snd all_recipes length] in *.
    apply Hlen. lia. }
  split; [intros; by apply Scrapermod_sites_loop_stop|].
  split; [intros; by apply Scrapermod_links_loop_stop|].
  split; [intros; by apply Scraper_sites_loop_stop|].
  intros; by apply Scraper_links_loop_stop.
Qed.

Lemma C3_global_cap_witness :
  ∃ recs,
    (@Scrapermod.main Pages.world_cakes Pages.one_recipe_config (initial_store 0)).1 = Ok recs
    ∧ (length recs ≤ 1)%nat.
Proof.
  destruct (@C3_global_cap Pages.world_cakes Pages.one_recipe_config (initial_store 0))
    as [Hmain _].
  - cbn. lia.
  - exact Hmain.
Defined.

(** The small run stops after one recipe and two GETs: the seed page of
    the first site and one of its links. *)
Example one_recipe_run :
  length (@Scrapermod.main Pages.world_cakes Pages.one_recipe_config (initial_store 0)).2.(all_recipes) = 1%nat
  ∧ length (@Scrapermod.main Pages.world_cakes Pages.one_recipe_config (initial_store 0)).2.(trace)
    = 2%nat.
Proof. split; vm_compute; reflexivity. Qed.

(** ** Strings *)

Section strings.

Lemma lstrip_head s :
  Py.lstrip s = EmptyString
  ∨ ∃ c s', Py.lstrip s = String c s' ∧ Py.isspace c = false.
Proof.
  induction s as [|c s IH]; simpl; [by left|].
  destruct (Py.isspace c) eqn:E; [done|]. right. eauto.
Qed.

Lemma rstrip_cons_nonspace c s :
  Py.isspace c = false → Py.rstrip (String c s) = String c (Py.rstrip s).
Proof. intros E. simpl. rewrite E. by destruct (Py.rstrip s). Qed.

Lemma rstrip_idemp s : Py.rstrip (Py.rstrip s) = Py.rstrip s.
Proof.
  induction s as [|c s IH]; simpl; [done|].
  destruct (Py.rstrip s) as [|c' r] eqn:E.
  - destruct (Py.isspace c) eqn:Ec; simpl; [done|]. by rewrite Ec.
  - change (Py.rstrip (String c (String c' r)))
      with (match Py.rstrip (String c' r) with
            | EmptyString => if Py.isspace c then EmptyString else String c EmptyString
            | r' => String c r'
            end).
    by rewrite IH.
Qed.

Lemma strip_idemp s : Py.strip (Py.strip s) = Py.strip s.
Proof.
  unfold Py.strip. destruct (lstrip_head s) as [->|(c & s' & -> & Ec)]; [done|].
  rewrite (rstrip_cons_nonspace c s' Ec). cbn [Py.lstrip]. rewrite Ec.
  rewrite (rstrip_cons_nonspace c _ Ec). by rewrite rstrip_idemp.
Qed.

Lemma has_newline_cons c s :
  has_newline (String c s) = Ascii.eqb Py.newline c || has_newline s.
Proof. done. Qed.

Lemma lstrip_no_newline s : has_newline s = false → has_newline (Py.lstrip s) = false.
Proof.
  induction s as [|c s IH]; [done|]. rewrite has_newline_cons.
  intros [E1 E2]%orb_false_iff. simpl. destruct (Py.isspace c); [by apply IH|].
  by rewrite has_newline_cons, E1, E2.
Qed.

Lemma rstrip_no_newline s : has_newline s = false → has_newline (Py.rstrip s) = false.
Proof.
  induction s as [|c s IH]; [done|]. rewrite has_newline_cons.
  intros [E1 E2]%orb_false_iff. simpl. specialize (IH E2).
  destruct (Py.rstrip s) as [|c' r].
  - destruct (Py.isspace c); [done|]. by rewrite has_newline_cons, E1.
  - by rewrite has_newline_cons, E1, IH.
Qed.

Lemma replace_nl_no_newline s : has_newline (Py.replace_nl s) = false.
Proof.
  induction s as [|c s IH]; [done|]. simpl. rewrite has_newline_cons, IH, orb_false_r.
  destruct (Ascii.eqb c Py.newline) eqn:E; [done|].
  by rewrite Ascii.eqb_sym.
Qed.

(** What [x.replace('\n', ' ').strip()] returns is cleaned. *)
Lemma clean_cleaned s : cleaned (Py.strip (Py.replace_nl s)).
Proof.
  split; [|apply strip_idemp].
  unfold Py.strip. apply rstrip_no_newline, lstrip_no_newline, replace_nl_no_newline.
Qed.

End strings.

(** ** The extractor of [scraperlist_of_recipes.py] *)

Section extract.
Context `{World}.

(** The clean-up of a list succeeds on lists of strings only, and maps
    each string to its cleaned form: nothing is dropped. *)
Lemma clean_each_inv l : ∀ l',
  ScraperList.clean_each l = Ok l' →
  ∃ ss, l = map JStr ss ∧ l' = map (λ s, JStr (Py.strip (Py.replace_nl s))) ss.
Proof.
  induction l as [|x rest IH]; intros l'; simpl.
  { intros [= <-]. by exists []. }
  intros (s & Es & E)%rbind_Ok. apply rbind_Ok in E as (rest' & Er & [= <-]).
  destruct (IH _ Er) as (ss & -> & ->).
  destruct x as [| | |s0| |]; simpl in Es; try done. injection Es as <-.
  by exists (s0 :: ss).
Qed.

Lemma clean_inv x n :
  ScraperList.clean x = Ok n → ∃ s, x = JStr s ∧ n = Py.strip (Py.replace_nl s).
Proof. destruct x as [| | |s| |]; simpl; try done. intros [= <-]. eauto. Qed.

Lemma clean_each_cleaned l : ∀ l',
  ScraperList.clean_each l = Ok l' →
  ∃ ss, l' = map JStr ss ∧ Forall cleaned ss ∧ length ss = length l.
Proof.
  intros l' (ss0 & -> & ->)%clean_each_inv.
  exists (map (λ s, Py.strip (Py.replace_nl s)) ss0).
  split; [by rewrite map_map|]. split; [|by rewrite !length_map].
  apply Forall_forall. intros s (s0 & -> & _)%list_elem_of_fmap.
  apply clean_cleaned.
Qed.

Lemma sentinel_cleaned : cleaned ScraperList.Unknown_Recipe_Name.
Proof. split; vm_compute; reflexivity. Qed.

Lemma nonempty_ne s : Py.nonempty s = true → s ≠ EmptyString.
Proof. by destruct s. Qed.

(** A field of the record before the clean-up: the structured value
    when it is not empty, else the texts of the first selector that
    matches, else nothing. *)
Lemma heuristic_list_eq sp selectors cur :
  ScraperList.heuristic_list sp selectors cur
  = match cur with
    | [] => match ScraperList.first_match sp selectors with
            | Some l => map JStr l
            | None => []
            end
    | _ :: _ => cur
    end.
Proof. by destruct cur. Qed.

End extract.

(** C8, as the code has it: a record of
    [scraperlist_of_recipes.extract_recipe_data] never has an empty name.
    Its name is the cleaned name of the fetched page (the structured one
    when it is not empty, else the heuristic one) when that is non-empty,
    and the sentinel "Unknown Recipe Name" otherwise. *)
Theorem C8_name_sentinel `{World} (url : string) (st : store) (r : recipe) :
  (ScraperList.extract_recipe_data url st).1 = Ok (Some r) →
  ∃ res structured n,
    requests_get (length (trace st)) url = Ok res
    ∧ ScraperList.structured_phase (BeautifulSoup (text res))
        ScraperList.structured_name (JStr "") = Ok structured
    ∧ ScraperList.clean
        (if Value.truthy structured then structured
         else ScraperList.heuristic_name (BeautifulSoup (text res)) structured) = Ok n
    ∧ name r = JStr (if Py.nonempty n then n else "Unknown Recipe Name")
    ∧ name r ≠ JStr "".
Proof.
  intros (res & Hres & _ & E)%extract_recipe_data_inv.
  destruct (extract_soup_inv url _ r E)
    as (name0 & ? & ? & n & ? & ? & Hn & _ & _ & Hc & _ & _ & ->).
  unfold ScraperList.extract_name in Hn.
  apply rbind_Ok in Hn as (structured & Hs & [= <-]).
  exists res, structured, n. cbn [name].
  split; [done|]. split; [done|]. split; [done|]. split; [done|].
  by destruct n.
Qed.

Lemma C8_name_sentinel_witness :
  ∃ res structured n,
    @requests_get Pages.world_mixed 0 "https://example.com/recipes/42-lemon-cake" = Ok res
    ∧ @ScraperList.structured_phase Pages.world_mixed _ (@BeautifulSoup Pages.world_mixed (text res))
        ScraperList.structured_name (JStr "") = Ok structured
    ∧ ScraperList.clean
        (if Value.truthy structured then structured
         else ScraperList.heuristic_name (@BeautifulSoup Pages.world_mixed (text res)) structured)
      = Ok n
    ∧ JStr "Unknown Recipe Name" = JStr (if Py.nonempty n then n else "Unknown Recipe Name")
    ∧ JStr "Unknown Recipe Name" ≠ JStr "".
Proof.
  apply (@C8_name_sentinel Pages.world_mixed "https://example.com/recipes/42-lemon-cake"
           (initial_store 0)
           {| source_url := "https://example.com/recipes/42-lemon-cake";
              name := JStr "Unknown Recipe Name";
              ingredients := JArr [JStr "200g flour"; JStr "2 eggs"];
              instructions := JArr [JStr "Mix."; JStr "Bake."] |}).
  vm_compute. reflexivity.
Defined.

(** C8 as stated fails for [scrapermod.py] and [scraper.py], which have
    no sentinel: a JSON-LD recipe without name and headline gives a
    record whose name is the empty string. *)
Lemma C8_counterexample :
  (@Scrapermod.parse_recipe Pages.world_nameless scrapermod_config
     "https://example.com/recipes/42-lemon-cake" (initial_store 0)).1
    = Ok (Some {| source_url := "https://example.com/recipes/42-lemon-cake";
                  name := JStr "";
                  ingredients := JArr [JStr "200g flour"; JStr "2 eggs"];
                  instructions := JArr [JStr "Mix."; JStr "Bake."] |})
  ∧ (@Scraper.parse_recipe Pages.world_nameless scraper_config
       "https://example.com/recipes/42-lemon-cake" (initial_store 0)).1
    = Ok (Some {| source_url := "https://example.com/recipes/42-lemon-cake";
                  name := JStr "";
                  ingredients := JArr [JStr "200g flour"; JStr "2 eggs"];
                  instructions := JArr [JStr "Mix."; JStr "Bake."] |}).
Proof. split; vm_compute; reflexivity. Qed.

(** C9, as the code has it: in a record of
    [scraperlist_of_recipes.extract_recipe_data] the name and the two
    lists are the strings extracted from the fetched page, whichever path
    they came from, each with its newlines replaced by spaces and then
    trimmed; so every string is without newline and without surrounding
    whitespace, and the lists keep one element per extracted value, in
    order, empty strings included. *)
Theorem C9_strings_cleaned `{World} (url : string) (st : store) (r : recipe) :
  (ScraperList.extract_recipe_data url st).1 = Ok (Some r) →
  ∃ res name0 ings0 inss0,
    requests_get (length (trace st)) url = Ok res
    ∧ ScraperList.extract_name (BeautifulSoup (text res)) = Ok (JStr name0)
    ∧ ScraperList.extract_ingredients (BeautifulSoup (text res)) = Ok (map JStr ings0)
    ∧ ScraperList.extract_instructions (BeautifulSoup (text res)) = Ok (map JStr inss0)
    ∧ name r = JStr (if Py.nonempty (Py.strip (Py.replace_nl name0))
                     then Py.strip (Py.replace_nl name0) else "Unknown Recipe Name")
    ∧ ingredients r = JArr (map (λ s, JStr (Py.strip (Py.replace_nl s))) ings0)
    ∧ instructions r = JArr (map (λ s, JStr (Py.strip (Py.replace_nl s))) inss0)
    ∧ (∀ s, name r = JStr s
            ∨ (∃ l, ingredients r = JArr l ∧ JStr s ∈ l)
            ∨ (∃ l, instructions r = JArr l ∧ JStr s ∈ l) →
            cleaned s).
Proof.
  intros (res & Hres & _ & E)%extract_recipe_data_inv.
  destruct (extract_soup_inv url _ r E)
    as (name0 & ing0 & ins0 & n & ing1 & ins1 & Hn & Hi & Hs & Hc & Hci & Hcs & ->).
  apply clean_inv in Hc as (s0 & -> & ->).
  apply clean_each_inv in Hci as (ings0 & -> & ->).
  apply clean_each_inv in Hcs as (inss0 & -> & ->).
  exists res, s0, ings0, inss0. cbn [name ingredients instructions].
  do 7 (split; [done|]).
  intros s [Hname|[(l & [= <-] & Hin)|(l & [= <-] & Hin)]].
  - injection Hname as <-. destruct (Py.nonempty _); [apply clean_cleaned|apply sentinel_cleaned].
  - apply list_elem_of_fmap in Hin as (s1 & [= ->] & _). apply clean_cleaned.
  - apply list_elem_of_fmap in Hin as (s1 & [= ->] & _). apply clean_cleaned.
Qed.

Lemma C9_strings_cleaned_witness :
  cleaned "Lemon Cake" ∧ cleaned "2 eggs" ∧ cleaned "" ∧ cleaned "Bake.".
Proof.
  destruct (@C9_strings_cleaned Pages.world_untidy "https://example.com/recipes/42-lemon-cake"
              (initial_store 0)
              {| source_url := "https://example.com/recipes/42-lemon-cake";
                 name := JStr "Lemon Cake";
                 ingredients := JArr [JStr "2 eggs"];
                 instructions := JArr [JStr ""; JStr "Bake."] |})
    as (res & name0 & ings0 & inss0 & _ & _ & _ & _ & _ & _ & _ & Hclean).
  - vm_compute. reflexivity.
  - cbn [name ingredients instructions] in Hclean.
    split; [apply Hclean; by left|].
    split; [apply Hclean; right; left; eexists; split; [reflexivity|set_solver]|].
    split; apply Hclean; right; right; eexists; (split; [reflexivity|set_solver]).
Defined.

(** C9 as stated fails: the clean-up of [extract_recipe_data] keeps a
    string that is empty after trimming (here the step without text),
    and [scrapermod.parse_recipe] returns the strings as they are in the
    JSON-LD block, newline and padding included. *)
Lemma C9_counterexample :
  (@ScraperList.extract_recipe_data Pages.world_untidy
     "https://example.com/recipes/42-lemon-cake" (initial_store 0)).1
    = Ok (Some {| source_url := "https://example.com/recipes/42-lemon-cake";
                  name := JStr "Lemon Cake";
                  ingredients := JArr [JStr "2 eggs"];
                  instructions := JArr [JStr ""; JStr "Bake."] |})
  ∧ (@Scrapermod.parse_recipe Pages.world_untidy scrapermod_config
       "https://example.com/recipes/42-lemon-cake" (initial_store 0)).1
    = Ok (Some {| source_url := "https://example.com/recipes/42-lemon-cake";
                  name := JStr (" Lemon" ++ String Py.newline "Cake ");
                  ingredients := JArr [JStr " 2 eggs "];
                  instructions := JArr [JStr ""; JStr "Bake."] |}).
Proof. split; vm_compute; reflexivity. Qed.

(** C1, as the code has it.  [scrapermod.parse_recipe] returns a record
    only when its ingredients and its instructions are both non-empty
    (and it has no heuristic path: the alternative is absent).
    [scraperlist_of_recipes.extract_recipe_data] decides field by field:
    each of the two lists of the record is the clean-up of the structured
    value of the fetched page when that value is not empty, and of the
    texts of the first matching selector otherwise (of nothing when no
    selector matches), whatever the other field took.
    [scraper.parse_recipe] returns the structured record as soon as one
    of the two lists is non-empty. *)
Theorem C1_structured_acceptance `{World} `{Config}
    (url : string) (st : store) (r : recipe) :
  ((Scrapermod.parse_recipe url st).1 = Ok (Some r) →
     Value.truthy (ingredients r) = true ∧ Value.truthy (instructions r) = true)
  ∧ ((ScraperList.extract_recipe_data url st).1 = Ok (Some r) →
       ∃ res si ss ings inss,
         requests_get (length (trace st)) url = Ok res
         ∧ ScraperList.structured_phase (BeautifulSoup (text res))
             ScraperList.structured_ingredients [] = Ok si
         ∧ ScraperList.structured_phase (BeautifulSoup (text res))
             ScraperList.structured_instructions [] = Ok ss
         ∧ ingredients r = JArr ings
         ∧ instructions r = JArr inss
         ∧ ScraperList.clean_each
             match si with
             | [] => match ScraperList.first_match (BeautifulSoup (text res))
                             ScraperList.ingredient_selectors with
                     | Some l => map JStr l
                     | None => []
                     end
             | _ :: _ => si
             end = Ok ings
         ∧ ScraperList.clean_each
             match ss with
             | [] => match ScraperList.first_match (BeautifulSoup (text res))
                             ScraperList.instruction_selectors with
                     | Some l => map JStr l
                     | None => []
                     end
             | _ :: _ => ss
             end = Ok inss)
  ∧ (∀ sp, Scraper.parse_soup url sp = Some r → valid r = true)
  ∧ (∀ sp script rest,
       find_all_ld_json sp = script :: rest →
       Scraper.read_script script
         {| source_url := url; name := JStr ""; ingredients := JArr [];
            instructions := JArr [] |} = Ok r →
       valid r = true →
       Scraper.parse_soup url sp = Some r).
Proof.
  split.
  { intros Hr. by apply complete_both, (Scrapermod_parse_recipe_complete url st). }
  split.
  { intros (res & Hres & _ & E)%extract_recipe_data_inv.
    destruct (extract_soup_inv url _ r E)
      as (name0 & ing0 & ins0 & n & ing1 & ins1 & _ & Hi & Hs & _ & Hci & Hcs & ->).
    unfold ScraperList.extract_ingredients in Hi.
    apply rbind_Ok in Hi as (si & Hsi & [= <-]).
    unfold ScraperList.extract_instructions in Hs.
    apply rbind_Ok in Hs as (ss & Hss & [= <-]).
    rewrite heuristic_list_eq in Hci, Hcs.
    by exists res, si, ss, ing1, ins1. }
  split; [intros sp; apply parse_soup_valid|].
  intros sp script rest Hscripts Hread Hvalid.
  unfold Scraper.parse_soup. rewrite Hscripts, Hread.
  unfold valid in Hvalid. by rewrite Hvalid.
Qed.

Lemma C1_structured_acceptance_witness :
  ∃ res si ss ings inss,
    @requests_get Pages.world_mixed 0 "https://example.com/recipes/42-lemon-cake" = Ok res
    ∧ @ScraperList.structured_phase Pages.world_mixed _ (@BeautifulSoup Pages.world_mixed (text res))
        ScraperList.structured_ingredients [] = Ok si
    ∧ @ScraperList.structured_phase Pages.world_mixed _ (@BeautifulSoup Pages.world_mixed (text res))
        ScraperList.structured_instructions [] = Ok ss
    ∧ JArr [JStr "200g flour"; JStr "2 eggs"] = JArr ings
    ∧ JArr [JStr "Mix."; JStr "Bake."] = JArr inss
    ∧ ScraperList.clean_each
        match si with
        | [] => match ScraperList.first_match (@BeautifulSoup Pages.world_mixed (text res))
                        ScraperList.ingredient_selectors with
                | Some l => map JStr l
                | None => []
                end
        | _ :: _ => si
        end = Ok ings
    ∧ ScraperList.clean_each
        match ss with
        | [] => match ScraperList.first_match (@BeautifulSoup Pages.world_mixed (text res))
                        ScraperList.instruction_selectors with
                | Some l => map JStr l
                | None => []
                end
        | _ :: _ => ss
        end = Ok inss.
Proof.
  destruct (@C1_structured_acceptance Pages.world_mixed scrapermod_config
              "https://example.com/recipes/42-lemon-cake" (initial_store 0)
              {| source_url := "https://example.com/recipes/42-lemon-cake";
                 name := JStr "Unknown Recipe Name";
                 ingredients := JArr [JStr "200g flour"; JStr "2 eggs"];
                 instructions := JArr [JStr "Mix."; JStr "Bake."] |})
    as (_ & Hmix & _).
  apply Hmix. vm_compute. reflexivity.
Defined.

(** C1 as stated fails: on a page whose JSON-LD block has ingredients
    but no instructions, and whose HTML has an instruction list,
    [extract_recipe_data] returns the structured ingredients together
    with the heuristic instructions; [scraper.parse_recipe] returns the
    partial structured record; [scrapermod.parse_recipe] returns absent
    without any heuristic. *)
Lemma C1_counterexample :
  (@ScraperList.extract_recipe_data Pages.world_mixed
     "https://example.com/recipes/42-lemon-cake" (initial_store 0)).1
    = Ok (Some {| source_url := "https://example.com/recipes/42-lemon-cake";
                  name := JStr "Unknown Recipe Name";
                  ingredients := JArr [JStr "200g flour"; JStr "2 eggs"];
                  instructions := JArr [JStr "Mix."; JStr "Bake."] |})
  ∧ @ScraperList.structured_phase Pages.world_mixed _ Pages.mixed_soup
      ScraperList.structured_ingredients []
    = Ok [JStr "200g flour"; JStr "2 eggs"]
  ∧ @ScraperList.structured_phase Pages.world_mixed _ Pages.mixed_soup
      ScraperList.structured_instructions []
    = Ok []
  ∧ (@Scraper.parse_recipe Pages.world_mixed scraper_config
       "https://example.com/recipes/42-lemon-cake" (initial_store 0)).1
    = Ok (Some {| source_url := "https://example.com/recipes/42-lemon-cake";
                  name := JStr "";
                  ingredients := JArr [JStr "200g flour"; JStr "2 eggs"];
                  instructions := JArr [] |})
  ∧ (@Scrapermod.parse_recipe Pages.world_mixed scrapermod_config
       "https://example.com/recipes/42-lemon-cake" (initial_store 0)).1
    = Ok None.
Proof. repeat split; vm_compute; reflexivity. Qed.

(** * Further properties *)

(** ** [scrapermod.get_links] *)



(** A malformed link on the seed page: [get_links] raises [ValueError]
    when it comes to it, with the links before it already in the seen
    set; in [main] the [try] statement of the site catches it. *)
Example get_links_malformed_href :
  (@Scrapermod.get_links BadPages.world_bad scrapermod_config
     "https://example.com/recipes/" 5 (initial_store 0)).1 = Raise ValueError
  ∧ seen_urls (@Scrapermod.get_links BadPages.world_bad scrapermod_config
                 "https://example.com/recipes/" 5 (initial_store 0)).2
    = {["https://example.com/recipes/42-lemon-cake"]}
  ∧ (@Scrapermod.main BadPages.world_bad Pages.one_recipe_config (initial_store 0)).1 = Ok [].
Proof. repeat split; vm_compute; reflexivity. Qed.



(** ** The number of GETs of [scrapermod.main] *)

Section more_gets.
Context `{World} `{Config}.

Lemma Scrapermod_make_request_gets url st :
  (gets (Scrapermod.make_request url st).2 ≤ S (gets st))%nat.
Proof.
  destruct (Scrapermod.normalize_domain url) as [domain|e] eqn:Hdom.
  - rewrite (Scrapermod_make_request_eq _ _ _ Hdom). unfold gets, after_get. simpl.
    rewrite length_app. simpl. lia.
  - rewrite (Scrapermod_make_request_raise _ _ _ Hdom). simpl. lia.
Qed.

Lemma Scrapermod_get_links_gets site max st :
  (gets (Scrapermod.get_links site max st).2 ≤ S (gets st))%nat.
Proof.
  destruct (Scrapermod.normalize_domain site) as [base|e] eqn:Hbase.
  - destruct (get_links_spec site max st base Hbase) as (seen' & E & _).
    rewrite E. cbn [snd]. unfold gets. cbn [with_seen trace].
    apply Scrapermod_make_request_gets.
  - rewrite (get_links_raise _ _ _ _ Hbase). simpl. lia.
Qed.

Lemma Scrapermod_get_links_count site max st l :
  (Scrapermod.get_links site max st).1 = Ok l → (length l ≤ Nat.max max 1)%nat.
Proof.
  destruct (Scrapermod.normalize_domain site) as [base|e'] eqn:Hbase;
    [|by rewrite (get_links_raise _ _ _ _ Hbase)].
  destruct (get_links_spec site max st base Hbase) as (seen' & _ & _ & _ & Hres).
  intros E. rewrite E in Hres. by destruct Hres as (links & -> & _ & Hsize & _).
Qed.

Lemma Scrapermod_links_loop_gets links : ∀ st,
  (gets (Scrapermod.links_loop links st).2 ≤ gets st + length links)%nat.
Proof.
  induction links as [|link rest IH]; intros st; [simpl; lia|].
  rewrite Scrapermod_links_loop_cons.
  destruct (_ <=? _)%nat; [simpl; lia|]. cbn zeta.
  pose proof (Scrapermod_make_request_gets link st) as Hg.
  destruct (Scrapermod.parse_recipe link st).1 as [[r|]|e].
  - pose proof (name_preview_store r (appended (Scrapermod.make_request link st).2 r)) as Hst.
    destruct (Scrapermod.name_preview r _) as [[[]|e] st2]; simpl in Hst; subst st2.
    + etrans; [apply IH|]. unfold gets, appended in *. simpl in *. lia.
    + unfold gets, appended in *. simpl in *. lia.
  - etrans; [apply IH|]. simpl. lia.
  - simpl. lia.
Qed.

Lemma Scrapermod_sites_loop_gets sites : ∀ st,
  (gets (Scrapermod.sites_loop sites st).2
   ≤ gets st + length sites * (1 + Nat.max MAX_RECIPES_PER_SITE 1))%nat.
Proof.
  induction sites as [|site rest IH]; intros st; [simpl; lia|].
  rewrite Scrapermod_sites_loop_cons. cbn zeta.
  pose proof (Scrapermod_get_links_gets site MAX_RECIPES_PER_SITE st) as Hg.
  pose proof (Scrapermod_get_links_count site MAX_RECIPES_PER_SITE st) as Hlen.
  set (st1 := (Scrapermod.get_links site MAX_RECIPES_PER_SITE st).2) in *.
  destruct (Scrapermod.get_links site MAX_RECIPES_PER_SITE st).1 as [[|l links]|e].
  - etrans; [apply IH|]. simpl. lia.
  - specialize (Hlen _ eq_refl).
    pose proof (Scrapermod_links_loop_gets (l :: links) st1) as Hl.
    set (st2 := match Scrapermod.links_loop (l :: links) st1 with
                | (Ok _, st2) => st2
                | (Raise _, st2) => (time_sleep 5000 st2).2
                end).
    assert (Hg2 : gets st2 = gets (Scrapermod.links_loop (l :: links) st1).2)
      by (subst st2; by destruct (Scrapermod.links_loop _ _) as [[[]|?] ?]).
    destruct (_ <=? _)%nat.
    + cbn [snd]. rewrite Hg2. simpl length in *. lia.
    + etrans; [apply IH|]. rewrite Hg2. simpl length in *. lia.
  - assert (Hg2 : gets (time_sleep 5000 st1).2 = gets st1) by done.
    destruct (_ <=? _)%nat.
    + cbn [snd]. rewrite Hg2. simpl length. lia.
    + etrans; [apply IH|]. rewrite Hg2. simpl length. lia.
Qed.

End more_gets.

(** A run of [scrapermod.main] issues at most one GET per site for the
    seed page plus [max(MAX_RECIPES_PER_SITE, 1)] GETs per site for its
    links: requests are never repeated or retried. *)
Theorem main_gets_bound `{World} `{Config} (st : store) :
  (gets (Scrapermod.main st).2
   ≤ gets st + length RECIPE_WEBSITES * (1 + Nat.max MAX_RECIPES_PER_SITE 1))%nat.
Proof.
  rewrite Scrapermod_main_eq. cbn [snd].
  etrans; [apply Scrapermod_sites_loop_gets|]. done.
Qed.

(** ** [scrapermod.parse_recipe] *)

Section more_parse.
Context `{World}.

Lemma instructions_of_strings ss :
  Scrapermod.instructions_of (JArr (map JStr ss)) = map JStr ss.
Proof. simpl. induction ss as [|s ss IH]; simpl; [done|]. by rewrite IH. Qed.

(** The items of a script depend on its string only through the text
    handed to [json.loads]. *)
Lemma script_items_payload s s' :
  unwrap_payload s = unwrap_payload s' →
  Scrapermod.script_items (Some s) = Scrapermod.script_items (Some s').
Proof.
  intros E. unfold Scrapermod.script_items, unwrap_payload in *. simpl. by rewrite E.
Qed.

Lemma script_items_dict s kv :
  json_loads (unwrap_payload s) = Some (JObj kv) →
  Value.has_key kv "@graph" = false →
  Scrapermod.script_items (Some s) = Ok [JObj kv].
Proof.
  intros Hload Hgraph. unfold Scrapermod.script_items, unwrap_payload in *. simpl.
  rewrite Hload. simpl. by rewrite Hgraph.
Qed.

Lemma lstrip_nonspace c s : Py.isspace c = false → Py.lstrip (String c s) = String c s.
Proof. intros E. simpl. by rewrite E. Qed.

Lemma append_cons c s u : String c s ++ u = String c (s ++ u).
Proof. reflexivity. Qed.

Lemma append_nil u : "" ++ u = u.
Proof. reflexivity. Qed.

Lemma append_assoc s t u : (s ++ t) ++ u = s ++ (t ++ u).
Proof.
  induction s as [|c s IH]; [by rewrite !append_nil|].
  by rewrite !append_cons, IH.
Qed.

Lemma rstrip_end_nonspace x c :
  Py.isspace c = false → Py.rstrip (x ++ String c "") = x ++ String c "".
Proof.
  intros E. induction x as [|d x IH].
  { rewrite append_nil. simpl. by rewrite E. }
  rewrite append_cons. cbn [Py.rstrip]. rewrite IH.
  destruct x; [rewrite append_nil|rewrite append_cons]; done.
Qed.

Lemma substring_0_app t u : substring 0 (String.length t) (t ++ u) = t.
Proof.
  induction t as [|c t IH].
  { rewrite append_nil. by destruct u. }
  rewrite append_cons. cbn [String.length substring]. by rewrite IH.
Qed.

Lemma length_append t u : String.length (t ++ u) = (String.length t + String.length u)%nat.
Proof.
  induction t as [|c t IH]; [by rewrite append_nil|].
  rewrite append_cons. cbn [String.length]. by rewrite IH.
Qed.

(** The payload of a string wrapped in an HTML comment is the text
    between the markers, trimmed. *)
Lemma unwrap_payload_wrapped t :
  unwrap_payload ("<!--" ++ t ++ "-->") = Py.strip t.
Proof.
  unfold unwrap_payload.
  assert (Hstrip : Py.strip ("<!--" ++ t ++ "-->") = "<!--" ++ t ++ "-->").
  { unfold Py.strip. rewrite !append_cons, append_nil.
    rewrite lstrip_nonspace by done.
    replace (t ++ "-->") with ((t ++ "--") ++ ">")
      by (by rewrite append_assoc).
    rewrite <- !append_cons. by apply rstrip_end_nonspace. }
  rewrite Hstrip. rewrite !append_cons, append_nil.
  assert (Hsw : ∀ w, Py.startswith (String "<" (String "!" (String "-" (String "-" w))))
                       "<!--" = true) by (intros w; simpl; by destruct w).
  rewrite Hsw.
  f_equal. unfold Py.slice_4_m3. cbn [String.length substring].
  rewrite length_append. cbn [String.length].
  replace (S (S (S (S (String.length t + 3)))) - 7)%nat with (String.length t) by lia.
  apply substring_0_app.
Qed.

End more_parse.

(** Wrapping the JSON-LD text of a script tag in an HTML comment does
    not change what [scrapermod.parse_recipe] reads from it: the items,
    or the exception, are those of the bare text (which does not itself
    start with a comment marker). *)
Theorem script_items_comment `{World} (t : string) :
  Py.startswith (Py.strip t) "<!--" = false →
  Scrapermod.script_items (Some ("<!--" ++ t ++ "-->")) = Scrapermod.script_items (Some t).
Proof.
  intros Hbare. apply script_items_payload. rewrite unwrap_payload_wrapped.
  unfold unwrap_payload. by rewrite Hbare.
Qed.

Lemma script_items_comment_witness :
  @Scrapermod.script_items Pages.world_cakes
    (Some ("<!--" ++ (" " ++ Examples.dq Pages.lemon_cake_text ++ " ") ++ "-->"))
  = Ok [Pages.lemon_cake].
Proof.
  rewrite (@script_items_comment Pages.world_cakes
             (" " ++ Examples.dq Pages.lemon_cake_text ++ " ")).
  - vm_compute. reflexivity.
  - vm_compute. reflexivity.
Defined.

(** When the first JSON-LD block of a fetched page is an object of type
    Recipe or HowTo with a non-empty [recipeIngredient] and a non-empty
    list of strings as [recipeInstructions], [scrapermod.parse_recipe]
    returns those two values verbatim, with the name (or else the
    headline) of the object when that is non-empty. *)
Theorem parse_recipe_verbatim `{World} `{Config}
    (url : string) (st : store) (domain : string) (res : Response) (s : string)
    (rest : list (option string)) (kv : list (string * json)) (x : string) (xs : list string) :
  Scrapermod.normalize_domain url = Ok domain →
  requests_get (length (trace st)) url = Ok res →
  Response_ok res && is_html res = true →
  find_all_ld_json (BeautifulSoup (text res)) = Some s :: rest →
  json_loads (unwrap_payload s) = Some (JObj kv) →
  Value.has_key kv "@graph" = false →
  Scrapermod.is_recipe_type (Value.get kv "@type" JNull) = true →
  Value.truthy (Value.get kv "recipeIngredient" (JArr [])) = true →
  Value.get kv "recipeInstructions" (JArr []) = JArr (map JStr (x :: xs)) →
  (Scrapermod.parse_recipe url st).1 =
    Ok (Some {| source_url := url;
                name := (let n := Value.or_ (Value.get kv "name" JNull)
                                            (Value.get kv "headline" (JStr "")) in
                         if Value.truthy n then n else JStr "");
                ingredients := Value.get kv "recipeIngredient" (JArr []);
                instructions := JArr (map JStr (x :: xs)) |}).
Proof.
  intros Hdom Hget Hok Hscripts Hload Hgraph Htype Hing Hsteps.
  rewrite (Scrapermod_parse_recipe_eq _ _ _ Hdom). cbn [fst]. rewrite Hget, Hok, Hscripts.
  cbn [Scrapermod.parse_scripts]. rewrite (script_items_dict s kv Hload Hgraph).
  cbn [Scrapermod.process_items Scrapermod.process_item]. rewrite Htype, Hing, Hsteps.
  rewrite instructions_of_strings. cbn zeta.
  destruct (Value.truthy (Value.or_ _ _));
    cbn [ingredients instructions name source_url Scrapermod.empty_recipe];
    rewrite Hing; reflexivity.
Qed.

Lemma parse_recipe_verbatim_witness :
  (@Scrapermod.parse_recipe Pages.world_cakes scrapermod_config
     "https://example.com/recipes/42-lemon-cake" (initial_store 0)).1 =
    Ok (Some {| source_url := "https://example.com/recipes/42-lemon-cake";
                name := JStr "Lemon Cake";
                ingredients := JArr [JStr "200g flour"; JStr "2 eggs"];
                instructions := JArr [JStr "Mix."; JStr "Bake."] |}).
Proof.
  apply (@parse_recipe_verbatim Pages.world_cakes scrapermod_config
           "https://example.com/recipes/42-lemon-cake" (initial_store 0) "example.com"
           (Examples.html_page "<html>cake</html>")
           (Examples.dq Pages.lemon_cake_text) []
           [("@type", JStr "Recipe"); ("name", JStr "Lemon Cake");
            ("recipeIngredient", JArr [JStr "200g flour"; JStr "2 eggs"]);
            ("recipeInstructions", JArr [JStr "Mix."; JStr "Bake."])]
           "Mix." ["Bake."]);
    vm_compute; reflexivity.
Defined.

(** What one item of type Recipe or HowTo does to the [recipe] dict. *)
Lemma process_item_recipe `{World} kv r :
  Scrapermod.is_recipe_type (Value.get kv "@type" JNull) = true →
  Scrapermod.process_item (JObj kv) r =
    let n := Value.or_ (Value.get kv "name" JNull) (Value.get kv "headline" (JStr "")) in
    let v := Value.get kv "recipeIngredient" (JArr []) in
    let l := Scrapermod.instructions_of (Value.get kv "recipeInstructions" (JArr [])) in
    ({| source_url := source_url r;
        name := if Value.truthy n then n else name r;
        ingredients := if Value.truthy v then v else ingredients r;
        instructions := JArr l |},
     Value.truthy (if Value.truthy v then v else ingredients r) && Value.truthy (JArr l)).
Proof.
  intros Ht. unfold Scrapermod.process_item. rewrite Ht. cbn zeta.
  destruct (Value.truthy (Value.or_ _ _));
    destruct (Value.truthy (Value.get kv "recipeIngredient" (JArr []))); reflexivity.
Qed.

(** The [recipe] dict of [scrapermod.parse_recipe] is shared by all
    items of a page: ingredients taken from an item that has no
    instructions stay in the dict, and a later item that has instructions
    but no ingredients completes the record with them. *)
Theorem process_items_carry_over `{World}
    (kv1 kv2 : list (string * json)) (r0 : recipe) (x : json) (l : list json) :
  Scrapermod.is_recipe_type (Value.get kv1 "@type" JNull) = true →
  Scrapermod.is_recipe_type (Value.get kv2 "@type" JNull) = true →
  Value.truthy (Value.get kv1 "recipeIngredient" (JArr [])) = true →
  Scrapermod.instructions_of (Value.get kv1 "recipeInstructions" (JArr [])) = [] →
  Value.truthy (Value.get kv2 "recipeIngredient" (JArr [])) = false →
  Scrapermod.instructions_of (Value.get kv2 "recipeInstructions" (JArr [])) = x :: l →
  ∃ r, Scrapermod.process_items [JObj kv1; JObj kv2] r0 = (r, true)
       ∧ ingredients r = Value.get kv1 "recipeIngredient" (JArr [])
       ∧ instructions r = JArr (x :: l).
Proof.
  intros Ht1 Ht2 Hi1 Hs1 Hi2 Hs2.
  cbn [Scrapermod.process_items].
  rewrite (process_item_recipe kv1 r0 Ht1). cbn zeta. rewrite Hi1, Hs1.
  cbn [Value.truthy]. rewrite andb_false_r.
  rewrite (process_item_recipe kv2 _ Ht2). cbn zeta. rewrite Hi2, Hs2.
  cbn [ingredients Value.truthy]. rewrite Hi1. cbn [andb].
  eexists. split; [reflexivity|]. done.
Qed.

Lemma process_items_carry_over_witness :
  ∃ r, @Scrapermod.process_items
         [JObj MorePages.half_recipe; JObj MorePages.half_howto]
         (Scrapermod.empty_recipe "https://example.com/recipes/42-lemon-cake") = (r, true)
       ∧ ingredients r = JArr [JStr "200g flour"; JStr "2 eggs"]
       ∧ instructions r = JArr [JStr "Jack up the car."].
Proof.
  apply (@process_items_carry_over Examples.world_blank
           MorePages.half_recipe MorePages.half_howto
           (Scrapermod.empty_recipe "https://example.com/recipes/42-lemon-cake")
           (JStr "Jack up the car.") []); reflexivity.
Defined.

(** In [scrapermod.main] the log line slices [recipe['name'][:50]]: when
    the name of a collected record is neither a string nor a list (a
    number, or a JSON-LD language-tagged object), the record is appended
    and the [TypeError] then ends the loop over the links of the site,
    whatever links remain. *)
Theorem links_loop_name_abort `{World} `{Config}
    (link : string) (rest : list string) (st : store) (r : recipe) :
  (collected st < MAX_TOTAL_RECIPES)%nat →
  (Scrapermod.parse_recipe link st).1 = Ok (Some r) →
  sliceable (name r) = false →
  Scrapermod.links_loop (link :: rest) st
  = (Raise TypeError, appended (Scrapermod.make_request link st).2 r).
Proof.
  intros Hlt Hr Hname. rewrite Scrapermod_links_loop_cons.
  destruct (Nat.leb_spec MAX_TOTAL_RECIPES (collected st)); [lia|].
  cbn zeta. rewrite Hr. unfold Scrapermod.name_preview, raise.
  by destruct (name r).
Qed.

Lemma links_loop_name_abort_witness :
  (@Scrapermod.links_loop MorePages.world_tagged_name scrapermod_config
     ["https://example.com/recipes/42-lemon-cake"; "https://example.com/recipes/7-apple-pie"]
     (initial_store 0)).1
  = Raise TypeError.
Proof.
  rewrite (@links_loop_name_abort MorePages.world_tagged_name scrapermod_config
             "https://example.com/recipes/42-lemon-cake"
             ["https://example.com/recipes/7-apple-pie"] (initial_store 0)
             {| source_url := "https://example.com/recipes/42-lemon-cake";
                name := MorePages.tagged_name_name;
                ingredients := JArr [JStr "200g flour"];
                instructions := JArr [JStr "Mix."] |}).
  - reflexivity.
  - cbn. lia.
  - vm_compute. reflexivity.
  - reflexivity.
Defined.

(** ** [scraper.py] *)

Section more_scraper.
Context `{World}.

Lemma first_recipe_found l1 kv l2 :
  forallb other_dict l1 = true →
  Value.eq_str (Value.get kv "@type" JNull) "Recipe" = true →
  Scraper.first_recipe (l1 ++ JObj kv :: l2)%list = Ok (JObj kv).
Proof.
  intros Hl1 Hkv. induction l1 as [|i l1 IH]; simpl in *.
  - by rewrite Hkv.
  - apply andb_true_iff in Hl1 as [Hi Hl1]. destruct i; try done.
    simpl in Hi. apply negb_true_iff in Hi. rewrite Hi. by apply IH.
Qed.

Lemma first_recipe_raises l1 x l2 :
  forallb other_dict l1 = true →
  is_dict x = false →
  Scraper.first_recipe (l1 ++ x :: l2)%list = Raise AttributeError.
Proof.
  intros Hl1 Hx. induction l1 as [|i l1 IH]; simpl in *.
  - by destruct x.
  - apply andb_true_iff in Hl1 as [Hi Hl1]. destruct i; try done.
    simpl in Hi. apply negb_true_iff in Hi. rewrite Hi. by apply IH.
Qed.

Lemma read_script_record url s kv r0 :
  Value.eq_str (Value.get kv "@type" JNull) "Recipe" = true →
  source_url r0 = url → instructions r0 = JArr [] →
  (let? data := match json_loads (Py.strip s) with
                | Some d => Ok d | None => Raise JSONDecodeError end in
   let? data := match data with JArr l => Scraper.first_recipe l | _ => Ok data end in
   Ok data) = Ok (JObj kv) →
  Scraper.read_script (Some s) r0 = Ok (Scraper_record url kv).
Proof.
  intros Hkv Hurl Hins. unfold Scraper.read_script. simpl.
  destruct (json_loads (Py.strip s)) as [d|]; simpl; [|done].
  destruct (match d with JArr l => Scraper.first_recipe l | _ => Ok d end) as [d'|e];
    simpl; [|done].
  intros [= ->]. rewrite Hkv. unfold Scraper_record. rewrite Hurl, Hins. done.
Qed.

End more_scraper.

(** [scraper.parse_recipe] on a page whose first JSON-LD block is a
    list: the record is filled from the first item of type Recipe when
    all items before it are objects, and the page is absent when an item
    that is not an object comes before any Recipe item (the
    [AttributeError] of [i.get] is swallowed). *)
Theorem parse_soup_list `{World} (url : string) (sp : soup) (s : string)
    (rest : list (option string)) (l1 l2 : list json) :
  find_all_ld_json sp = Some s :: rest →
  forallb other_dict l1 = true →
  (∀ kv, json_loads (Py.strip s) = Some (JArr (l1 ++ JObj kv :: l2)) →
         Value.eq_str (Value.get kv "@type" JNull) "Recipe" = true →
         Scraper.parse_soup url sp
         = if valid (Scraper_record url kv) then Some (Scraper_record url kv) else None)
  ∧ (∀ x, json_loads (Py.strip s) = Some (JArr (l1 ++ x :: l2)) →
          is_dict x = false →
          Scraper.parse_soup url sp = None).
Proof.
  intros Hscripts Hl1. split.
  - intros kv Hload Hkv. unfold Scraper.parse_soup. rewrite Hscripts.
    rewrite (read_script_record url s kv); try done.
    rewrite Hload. simpl. by rewrite (first_recipe_found l1 kv l2).
  - intros x Hload Hx. unfold Scraper.parse_soup. rewrite Hscripts.
    unfold Scraper.read_script. simpl. rewrite Hload. simpl.
    by rewrite (first_recipe_raises l1 x l2).
Qed.

Lemma parse_soup_list_witness :
  @Scraper.parse_soup ListPages.world_lists "https://example.com/recipes/string-first"
    (ListPages.list_soup ListPages.string_then_recipe_text) = None.
Proof.
  destruct (@parse_soup_list ListPages.world_lists "https://example.com/recipes/string-first"
              (ListPages.list_soup ListPages.string_then_recipe_text)
              (Examples.dq ListPages.string_then_recipe_text) [] [] [Pages.lemon_cake]
              eq_refl eq_refl) as [_ Hraise].
  apply (Hraise (JStr "https://schema.org")); vm_compute; reflexivity.
Defined.

Section more_scraper_links.
Context `{World} `{Config}.


End more_scraper_links.


(** ** [scraperlist_of_recipes.py] *)

(** [scraperlist_of_recipes.make_request] on a URL that [urlparse]
    accepts: the GET leaves at the later of "now" and "last response of
    this netloc + 1.5 s"; a response with a status outside 4xx/5xx is
    returned and any other response gives [None]; a [RequestException]
    gives [None], and any other exception of the GET propagates to the
    caller; the timer of the netloc is written only when a response came
    back.  On a URL that [urlparse] refuses it raises [ValueError] and
    leaves the store as it is. *)
Theorem ScraperList_make_request_behaviour `{World} (url : string) (st : store) :
  let k := length (trace st) in
  let st' := (ScraperList.make_request url st).2 in
  match urlparse url with
  | Some parsed =>
      last_issue st'
        = Some match domain_timers st !! netloc parsed with
               | Some last => Z.max (clock st) (last + 1500)
               | None => clock st
               end
      ∧ (ScraperList.make_request url st).1
        = match requests_get k url with
          | Ok res => Ok (if Response_ok res then Some res else None)
          | Raise e => if is_RequestException e then Ok None else Raise e
          end
      ∧ domain_timers st'
        = match requests_get k url with
          | Ok _ => <[netloc parsed := clock st']> (domain_timers st)
          | Raise _ => domain_timers st
          end
  | None => ScraperList.make_request url st = (Raise ValueError, st)
  end.
Proof.
  cbn zeta. destruct (urlparse url) as [parsed|] eqn:Hp;
    [|by apply ScraperList_make_request_raise].
  rewrite (ScraperList_make_request_eq _ _ _ Hp). cbn [fst snd].
  split; [|split; [done|]].
  - unfold last_issue, after_get. cbn [trace]. rewrite last_snoc. cbn.
    f_equal. apply (@sleep_time_issue scraper_config).
  - unfold after_get. cbn [domain_timers clock]. by destruct (requests_get _ url).
Qed.

Section more_recipe_links.
Context `{World}.







End more_recipe_links.


Section more_adds.

Lemma adds_keeps {A} (m : M A) n :
  (∀ st, all_recipes (m st).2 = all_recipes st) → adds n m.
Proof. intros Hk st. exists []. rewrite app_nil_r. split; [done|simpl; lia]. Qed.

Lemma adds_bind {A B} (m : M A) (k : A → M B) n1 n2 :
  adds n1 m → (∀ a, adds n2 (k a)) → adds (n1 + n2) (bind m k).
Proof.
  intros Hm Hk st. unfold bind. destruct (Hm st) as (new1 & E1 & F1).
  destruct (m st) as [[a|e] st1]; simpl in *.
  - destruct (Hk a st1) as (new2 & E2 & F2). exists (new1 ++ new2)%list.
    rewrite E2, E1, app_assoc. split; [done|]. rewrite length_app. lia.
  - exists new1. split; [done|lia].
Qed.

Lemma adds_try {A} (body : M A) catches (handler : exn → M A) n :
  adds n body → (∀ e, adds 0 (handler e)) → adds n (try_except body catches handler).
Proof.
  intros Hb Hh st. unfold try_except. destruct (Hb st) as (new1 & E1 & F1).
  destruct (body st) as [[a|e] st1]; simpl in *; [by exists new1|].
  destruct (catches e); [|by exists new1].
  destruct (Hh e st1) as (new2 & E2 & F2). exists (new1 ++ new2)%list.
  rewrite E2, E1, app_assoc. split; [done|]. rewrite length_app. lia.
Qed.

Lemma adds_0 {A} (m : M A) st : adds 0 m → all_recipes (m st).2 = all_recipes st.
Proof.
  intros Hm. destruct (Hm st) as (new & E & Hlen). destruct new; [|simpl in Hlen; lia].
  by rewrite E, app_nil_r.
Qed.

Lemma adds_collected {A} (m : M A) n st :
  adds n m → (collected (m st).2 ≤ collected st + n)%nat.
Proof.
  intros Hm. destruct (Hm st) as (new & E & Hlen). unfold collected.
  rewrite E, length_app. lia.
Qed.

End more_adds.

Ltac keeps_step :=
  first
    [ apply (adds_bind _ _ 0 0); [|intros ?]
    | apply adds_try; [|intros ?]
    | apply adds_keeps; intros ?; reflexivity
    | match goal with
      | |- adds _ (match ?x with _ => _ end) => destruct x
      end ].

Section more_scraperlist_main.
Context `{World}.

Lemma ScraperList_make_request_keeps url : adds 0 (ScraperList.make_request url).
Proof. apply adds_keeps. apply ScraperList_make_request_recipes. Qed.

Lemma ScraperList_extract_keeps url : adds 0 (ScraperList.extract_recipe_data url).
Proof.
  unfold ScraperList.extract_recipe_data.
  apply (adds_bind _ _ 0 0); [apply ScraperList_make_request_keeps|intros ?].
  repeat keeps_step.
Qed.

Lemma ScraperList_get_recipe_links_keeps site max :
  adds 0 (ScraperList.get_recipe_links site max).
Proof.
  unfold ScraperList.get_recipe_links.
  apply (adds_bind _ _ 0 0); [apply ScraperList_make_request_keeps|intros ?].
  repeat keeps_step.
Qed.

(** One round of the loop over the links appends at most one record and
    does not raise. *)
Lemma ScraperList_try_adds link : adds 1 (ScraperList_try link).
Proof.
  unfold ScraperList_try.
  apply adds_try; [|intros ?; repeat keeps_step].
  apply (adds_bind _ _ 0 1); [apply ScraperList_extract_keeps|intros [r|]].
  - destruct (_ || _).
    + intros st. exists [r]. simpl. split; [done|lia].
    + repeat keeps_step.
  - repeat keeps_step.
Qed.

Lemma ScraperList_try_returns link st : (ScraperList_try link st).1 = Ok tt.
Proof.
  destruct (returns_try_ret
              (let* r := ScraperList.extract_recipe_data link in
               match r with
               | Some r =>
                   if Value.truthy (ingredients r) || Value.truthy (instructions r)
                   then all_recipes_append r
                   else ret tt
               | None => ret tt
               end) tt st) as [[] E].
  exact E.
Qed.

Lemma ScraperList_links_loop_cons link rest st :
  ScraperList.links_loop (link :: rest) st =
    let st1 := (ScraperList_try link st).2 in
    if (100 <=? collected st1)%nat then (Ok tt, st1)
    else ScraperList.links_loop rest st1.
Proof.
  cbn [ScraperList.links_loop]. fold (ScraperList_try link). unfold bind at 1.
  pose proof (ScraperList_try_returns link st) as E.
  destruct (ScraperList_try link st) as [[[]|e] st1]; [|done].
  cbn zeta. cbn [snd]. unfold bind at 1, get_all_recipes, ret. fold (collected st1).
  by destruct (_ <=? _)%nat.
Qed.

Lemma ScraperList_links_loop_cap links : ∀ st,
  (collected st < 100)%nat →
  (ScraperList.links_loop links st).1 = Ok tt
  ∧ (collected (ScraperList.links_loop links st).2 ≤ 100)%nat.
Proof.
  induction links as [|link rest IH]; intros st Hlt.
  { simpl. split; [done|lia]. }
  rewrite ScraperList_links_loop_cons. cbn zeta.
  pose proof (adds_collected _ 1 st (ScraperList_try_adds link)) as Hcol.
  destruct (Nat.leb_spec 100 (collected (ScraperList_try link st).2)).
  - cbn [fst snd]. split; [done|lia].
  - by apply IH.
Qed.

Lemma ScraperList_websites_loop_cap websites : ∀ st,
  (collected st < 100)%nat →
  (collected (ScraperList.websites_loop websites st).2 ≤ 100)%nat.
Proof.
  induction websites as [|website rest IH]; intros st Hlt.
  { simpl. lia. }
  cbn [ScraperList.websites_loop]. unfold bind at 1, try_except. unfold bind at 1.
  pose proof (adds_0 _ st (ScraperList_get_recipe_links_keeps website 5)) as Hkeep.
  destruct (ScraperList.get_recipe_links website 5 st) as [[links|e] st1];
    cbn [snd] in Hkeep.
  - assert (Hlt1 : (collected st1 < 100)%nat) by (unfold collected; by rewrite Hkeep).
    destruct (ScraperList_links_loop_cap links st1 Hlt1) as [Eok Hcap].
    unfold bind at 1.
    destruct (ScraperList.links_loop links st1) as [[[]|e] st2]; [|done].
    cbn [snd] in Hcap. unfold bind at 1, get_all_recipes, ret. fold (collected st2).
    destruct (Nat.leb_spec 100 (collected st2)).
    + cbn [snd]. lia.
    + by apply IH.
  - cbn [Exception ret]. apply IH. unfold collected. by rewrite Hkeep.
Qed.

End more_scraperlist_main.

(** [scraperlist_of_recipes.scrape_and_save] returns for every world,
    with at most 100 records. *)
Theorem scrape_and_save_cap `{World} (websites : list string) (st : store) :
  ∃ recs, (ScraperList.scrape_and_save websites st).1 = Ok recs
          ∧ (length recs ≤ 100)%nat.
Proof.
  unfold ScraperList.scrape_and_save. unfold bind at 1. cbn [reset_all_recipes].
  set (st0 := {| domain_timers := _; all_recipes := [] |}).
  unfold bind at 1.
  destruct (ScraperList_websites_loop_returns websites st0) as [[] E].
  assert (Hcap : (collected (ScraperList.websites_loop websites st0).2 ≤ 100)%nat)
    by (apply ScraperList_websites_loop_cap; unfold collected; simpl; lia).
  destruct (ScraperList.websites_loop websites st0) as [[[]|e] st1]; simpl in *; [|done].
  by exists (all_recipes st1).
Qed.

(** An exception raised by [extract_recipe_data] for one link is caught
    in the loop of [scrape_and_save]: the loop goes on with the remaining
    links, nothing is appended for that link, and its GET stays
    logged. *)
Theorem links_loop_continues `{World}
    (link : string) (rest : list string) (st : store) (e : exn) :
  (ScraperList.extract_recipe_data link st).1 = Raise e →
  (collected st < 100)%nat →
  ScraperList.links_loop (link :: rest) st
  = ScraperList.links_loop rest (ScraperList.extract_recipe_data link st).2.
Proof.
  intros Hraise Hlt. rewrite ScraperList_links_loop_cons. cbn zeta.
  pose proof (adds_0 _ st (ScraperList_extract_keeps link)) as Hkeep.
  assert (Hst : (ScraperList_try link st).2 = (ScraperList.extract_recipe_data link st).2).
  { unfold ScraperList_try, try_except. unfold bind at 1.
    destruct (ScraperList.extract_recipe_data link st) as [[r|e'] st1];
      cbn [fst snd] in *; done. }
  rewrite Hst. unfold collected at 1. rewrite Hkeep. fold (collected st).
  by destruct (Nat.leb_spec 100 (collected st)); [lia|].
Qed.

Lemma links_loop_continues_witness :
  @ScraperList.links_loop ListPages.world_lists
    ["https://example.com/recipes/string-first"; "https://example.com/recipes/42-lemon-cake"]
    (initial_store 0)
  = @ScraperList.links_loop ListPages.world_lists
      ["https://example.com/recipes/42-lemon-cake"]
      (@ScraperList.extract_recipe_data ListPages.world_lists
         "https://example.com/recipes/string-first" (initial_store 0)).2.
Proof.
  apply (@links_loop_continues ListPages.world_lists
           "https://example.com/recipes/string-first"
           ["https://example.com/recipes/42-lemon-cake"] (initial_store 0) AttributeError).
  - vm_compute. reflexivity.
  - cbn. lia.
Defined.

Section more_extract.
Context `{World}.

Lemma name_of_list_raises l1 x l2 cur :
  forallb unnamed_dict l1 = true → is_dict x = false →
  ScraperList.name_of_list (l1 ++ x :: l2)%list cur = Raise AttributeError.
Proof.
  intros Hl1 Hx. induction l1 as [|i l1 IH]; simpl in *.
  - by destruct x.
  - apply andb_true_iff in Hl1 as [Hi Hl1]. destruct i; try done.
    simpl in Hi. apply negb_true_iff in Hi. rewrite Hi. by apply IH.
Qed.

Lemma first_match_skip sp pre : ∀ selectors,
  forallb (no_texts sp) pre = true →
  ScraperList.first_match sp (pre ++ selectors)%list = ScraperList.first_match sp selectors.
Proof.
  induction pre as [|p pre IH]; intros selectors Hpre; [done|].
  simpl in Hpre. apply andb_true_iff in Hpre as [Hp Hpre].
  cbn [app ScraperList.first_match]. unfold no_texts in Hp.
  destruct (select_one sp p) as [c|]; [|by apply IH].
  destruct (ScraperList.container_texts c); [by apply IH|done].
Qed.

Lemma replace_nl_id s : has_newline s = false → Py.replace_nl s = s.
Proof.
  induction s as [|c s IH]; [done|]. rewrite has_newline_cons.
  intros [E1 E2]%orb_false_iff. simpl. rewrite (IH E2).
  rewrite Ascii.eqb_sym in E1. by rewrite E1.
Qed.

End more_extract.

(** [extract_recipe_data] raises [AttributeError] on a page whose first
    JSON-LD block is a list in which an item that is not an object comes
    before any Recipe item with a name: [item.get] fails and none of the
    [except] clauses of the function catches it. *)
Theorem extract_soup_list_raises `{World} (url : string) (sp : soup) (s : string)
    (rest : list (option string)) (l1 l2 : list json) (x : json) :
  find_all_ld_json sp = Some s :: rest →
  json_loads s = Some (JArr (l1 ++ x :: l2)) →
  forallb unnamed_dict l1 = true →
  is_dict x = false →
  ScraperList.extract_soup url sp = Raise AttributeError.
Proof.
  intros Hscripts Hload Hl1 Hx.
  unfold ScraperList.extract_soup, ScraperList.extract_name, ScraperList.structured_phase.
  rewrite Hscripts. unfold ScraperList.loads. rewrite Hload. cbn [rbind].
  unfold ScraperList.structured_name. by rewrite name_of_list_raises.
Qed.

Lemma extract_soup_list_raises_witness :
  @ScraperList.extract_soup ListPages.world_lists "https://example.com/recipes/string-first"
    (ListPages.list_soup ListPages.string_then_recipe_text) = Raise AttributeError.
Proof.
  apply (@extract_soup_list_raises ListPages.world_lists
           "https://example.com/recipes/string-first"
           (ListPages.list_soup ListPages.string_then_recipe_text)
           (Examples.dq ListPages.string_then_recipe_text) [] [] [Pages.lemon_cake]
           (JStr "https://schema.org")); vm_compute; reflexivity.
Defined.

(** The heuristic search of [extract_recipe_data] takes the first
    selector of its list whose container gives texts: selectors before it
    that match nothing, or match a container without text, are passed
    over, and later selectors are not consulted.  The texts are the
    non-empty [li]/[p] texts in document order when there are any. *)
Theorem first_match_first (sp : soup) (pre post : list string)
    (selector : string) (c : container) (t : string) (ts : list string) :
  forallb (no_texts sp) pre = true →
  select_one sp selector = Some c →
  filter (λ t, Is_true (Py.nonempty t)) (li_p_texts c) = t :: ts →
  ScraperList.first_match sp (pre ++ selector :: post) = Some (t :: ts)
  ∧ Forall (λ t, t ≠ EmptyString) (t :: ts)
  ∧ (t :: ts) `sublist_of` li_p_texts c.
Proof.
  intros Hpre Hsel Htexts. split; [|split].
  - rewrite first_match_skip by done. cbn [ScraperList.first_match].
    rewrite Hsel. unfold ScraperList.container_texts. by rewrite Htexts.
  - rewrite <- Htexts. apply Forall_forall. intros u Hu%list_elem_of_filter.
    destruct Hu as [Hu _]. by destruct u.
  - rewrite <- Htexts. apply sublist_filter.
Qed.

Lemma first_match_first_witness :
  ScraperList.first_match Pages.mixed_soup
    ([] ++ ".instructions" :: [".recipe-steps"; ".directions"])
  = Some ["Mix."; "Bake."]
  ∧ Forall (λ t, t ≠ EmptyString) ["Mix."; "Bake."]
  ∧ ["Mix."; "Bake."] `sublist_of` ["Mix."; "Bake."].
Proof.
  apply (first_match_first Pages.mixed_soup [] [".recipe-steps"; ".directions"]
           ".instructions"
           {| li_p_texts := ["Mix."; "Bake."];
              text_lines := "Mix." ++ String Py.newline "Bake." |}
           "Mix." ["Bake."]); reflexivity.
Defined.

(** The clean-up of [extract_recipe_data] is idempotent on strings, and
    raises [AttributeError] on anything that is not a string. *)
Theorem clean_idempotent (x : json) :
  match ScraperList.clean x with
  | Ok s => ScraperList.clean (JStr s) = Ok s ∧ ∃ s0, x = JStr s0
  | Raise e => e = AttributeError ∧ ∀ s0, x ≠ JStr s0
  end.
Proof.
  destruct x as [| | |s0| |]; simpl; try (split; [done|intros ?; done]).
  split; [|eauto]. f_equal.
  destruct (clean_cleaned s0) as [Hnl Htrim].
  rewrite (replace_nl_id _ Hnl). exact Htrim.
Qed.

(** ** [normalize_domain] and the timers *)

Section more_normalize.
Context `{World} `{Config}.

Lemma substring_0_length d : substring 0 (String.length d) d = d.
Proof. induction d as [|c d IH]; [done|]. cbn [String.length substring]. by rewrite IH. Qed.

Lemma startswith_nil w : Py.startswith w "" = true.
Proof. by destruct w. Qed.

Lemma normalize_www url parsed d :
  urlparse url = Some parsed →
  Py.lower (netloc parsed) = "www." ++ d →
  Scrapermod.normalize_domain url = Ok d.
Proof.
  intros Hp E. unfold Scrapermod.normalize_domain. rewrite Hp. cbn [or_raise rbind].
  rewrite E. rewrite !append_cons, append_nil. cbn [Py.startswith Ascii.eqb Bool.eqb andb].
  rewrite startswith_nil. unfold Py.drop_prefix. cbn [String.length substring].
  replace (S (S (S (S (String.length d)))) - 4)%nat with (String.length d) by lia.
  by rewrite substring_0_length.
Qed.

Lemma normalize_bare url parsed :
  urlparse url = Some parsed →
  Py.startswith (Py.lower (netloc parsed)) "www." = false →
  Scrapermod.normalize_domain url = Ok (Py.lower (netloc parsed)).
Proof.
  intros Hp E. unfold Scrapermod.normalize_domain. rewrite Hp. cbn [or_raise rbind].
  by rewrite E.
Qed.

End more_normalize.

(** [normalize_domain] gives a host with a leading "www." label and the
    same host without it (in any letter case) the same key, so in
    [scrapermod.py] they share one timer: after a response from the one,
    the GET to the other leaves [RATE_LIMIT] after that response at the
    earliest. *)
Theorem normalize_domain_www `{World} `{Config} (url1 url2 : string) (st : store)
    (parsed1 parsed2 : ParseResult) (res : Response) :
  urlparse url1 = Some parsed1 →
  urlparse url2 = Some parsed2 →
  Py.lower (netloc parsed1) = "www." ++ Py.lower (netloc parsed2) →
  Py.startswith (Py.lower (netloc parsed2)) "www." = false →
  requests_get (length (trace st)) url1 = Ok res →
  let st1 := (Scrapermod.make_request url1 st).2 in
  Scrapermod.normalize_domain url1 = Ok (Py.lower (netloc parsed2))
  ∧ Scrapermod.normalize_domain url2 = Ok (Py.lower (netloc parsed2))
  ∧ last_issue (Scrapermod.make_request url2 st1).2
    = Some (Z.max (clock st1) (clock st1 + RATE_LIMIT)).
Proof.
  intros Hp1 Hp2 Hwww Hbare Hres st1.
  pose proof (normalize_www url1 _ _ Hp1 Hwww) as Hn1.
  pose proof (normalize_bare url2 _ Hp2 Hbare) as Hn2.
  split; [done|]. split; [done|].
  rewrite (Scrapermod_last_issue _ _ _ Hn2). subst st1.
  rewrite (Scrapermod_make_request_eq _ _ _ Hn1). cbn [snd].
  by rewrite (after_get_timer _ _ _ _ res Hres).
Qed.

Lemma normalize_domain_www_witness :
  @Scrapermod.normalize_domain Examples.world_blank "https://www.example.com/recipes/"
  = Ok "example.com"
  ∧ @Scrapermod.normalize_domain Examples.world_blank "https://EXAMPLE.com/recipes/42-lemon-cake"
    = Ok "example.com"
  ∧ last_issue
      (@Scrapermod.make_request Examples.world_blank scrapermod_config
         "https://EXAMPLE.com/recipes/42-lemon-cake"
         (@Scrapermod.make_request Examples.world_blank scrapermod_config
            "https://www.example.com/recipes/" (initial_store 0)).2).2
    = Some (Z.max 120 (120 + 2000)).
Proof.
  apply (@normalize_domain_www Examples.world_blank scrapermod_config
           "https://www.example.com/recipes/" "https://EXAMPLE.com/recipes/42-lemon-cake"
           (initial_store 0)
           {| scheme := "https"; netloc := "www.example.com"; path := "/recipes/" |}
           {| scheme := "https"; netloc := "EXAMPLE.com"; path := "/recipes/42-lemon-cake" |}
           (Examples.html_page "<html></html>")); reflexivity.
Defined.

(** [scrapermod.make_request] keeps every timer entry in the past when
    the GET takes no negative time, never moves the clock back, and never
    sleeps longer than [RATE_LIMIT]: on a URL that [urlparse] accepts,
    the GET leaves between "now" and "now + RATE_LIMIT". *)
Theorem make_request_timers_in_past `{World} `{Config} (url : string) (st : store) :
  0 ≤ latency (length (trace st)) →
  timers_in_past st →
  let st' := (Scrapermod.make_request url st).2 in
  timers_in_past st'
  ∧ clock st ≤ clock st'
  ∧ (∀ domain, Scrapermod.normalize_domain url = Ok domain →
       ∃ t, last_issue st' = Some t ∧ clock st ≤ t ≤ clock st + Z.max 0 RATE_LIMIT).
Proof.
  intros Hlat Hpast. cbn zeta.
  destruct (Scrapermod.normalize_domain url) as [domain|e] eqn:Hdom.
  2: { rewrite (Scrapermod_make_request_raise _ _ _ Hdom). cbn [snd].
       split; [done|]. split; [lia|]. intros domain [=]. }
  rewrite (Scrapermod_last_issue _ _ _ Hdom), (Scrapermod_make_request_eq _ _ _ Hdom).
  cbn [snd].
  pose proof (sleep_time_issue (domain_timers st) domain (clock st)) as Hd.
  set (d := default 0 (Scrapermod.sleep_time (domain_timers st) domain (clock st))) in *.
  assert (Hd0 : 0 ≤ d ≤ Z.max 0 RATE_LIMIT).
  { unfold issue_time_of in Hd. destruct (domain_timers st !! domain) as [last|] eqn:E.
    - specialize (Hpast domain last E). lia.
    - lia. }
  split; [|split].
  - intros host t. unfold after_get. cbn [domain_timers clock].
    destruct (requests_get _ url).
    + destruct (decide (domain = host)) as [->|Hne].
      * rewrite lookup_insert_eq. intros [= <-]. lia.
      * rewrite lookup_insert_ne by done. intros Ht. specialize (Hpast host t Ht). lia.
    + intros Ht. specialize (Hpast host t Ht). lia.
  - unfold after_get. cbn [clock]. lia.
  - intros domain' [= <-]. eexists. split; [reflexivity|]. rewrite <- Hd. lia.
Qed.

Lemma make_request_timers_in_past_witness :
  timers_in_past (@Scrapermod.make_request Examples.world_blank scrapermod_config
                    "https://www.example.com/recipes/" (initial_store 0)).2.
Proof.
  apply (@make_request_timers_in_past Examples.world_blank scrapermod_config
           "https://www.example.com/recipes/" (initial_store 0)).
  - cbn. lia.
  - intros domain t Ht. cbn in Ht. rewrite lookup_empty in Ht. discriminate Ht.
Defined.

(** The CSV row of [scrape_and_save] can always be built: in a record of
    [extract_recipe_data] both lists consist of strings, so
    ['\n'.join] accepts them. *)
Theorem extract_record_joinable `{World} (url : string) (st : store) (r : recipe)
    (sep : string) :
  (ScraperList.extract_recipe_data url st).1 = Ok (Some r) →
  ∃ ings inss,
    ingredients r = JArr (map JStr ings)
    ∧ instructions r = JArr (map JStr inss)
    ∧ str_join sep (ingredients r) = Ok (String.concat sep ings)
    ∧ str_join sep (instructions r) = Ok (String.concat sep inss).
Proof.
  intros (res & _ & _ & E)%extract_recipe_data_inv.
  destruct (extract_soup_inv url _ r E)
    as (name0 & ing0 & ins0 & n & ing1 & ins1 & _ & _ & _ & _ & Hci & Hcs & ->).
  destruct (clean_each_cleaned _ _ Hci) as (ings & -> & _ & _).
  destruct (clean_each_cleaned _ _ Hcs) as (inss & -> & _ & _).
  exists ings, inss. cbn [ingredients instructions]. split; [done|]. split; [done|].
  assert (Hstrs : ∀ ss, as_strs (map JStr ss) = Some ss).
  { induction ss as [|s ss IH]; simpl; [done|]. by rewrite IH. }
  unfold str_join. simpl. by rewrite !Hstrs.
Qed.

Lemma extract_record_joinable_witness :
  ∃ ings inss,
    JArr [JStr "200g flour"; JStr "2 eggs"] = JArr (map JStr ings)
    ∧ JArr [JStr "Mix."; JStr "Bake."] = JArr (map JStr inss)
    ∧ str_join ", " (JArr [JStr "200g flour"; JStr "2 eggs"]) = Ok (String.concat ", " ings)
    ∧ str_join ", " (JArr [JStr "Mix."; JStr "Bake."]) = Ok (String.concat ", " inss).
Proof.
  apply (@extract_record_joinable Pages.world_mixed "https://example.com/recipes/42-lemon-cake"
           (initial_store 0)
           {| source_url := "https://example.com/recipes/42-lemon-cake";
              name := JStr "Unknown Recipe Name";
              ingredients := JArr [JStr "200g flour"; JStr "2 eggs"];
              instructions := JArr [JStr "Mix."; JStr "Bake."] |} ", ").
  vm_compute. reflexivity.
Defined.

(** ** Items and blocks without effect *)

Lemma process_items_skip (items : list json) (r : recipe) :
  forallb passed_over items = true →
  Scrapermod.process_items items r = (r, false).
Proof.
  induction items as [|item rest IH]; [done|].
  cbn [forallb]. intros [Hi Hrest]%andb_true_iff.
  cbn [Scrapermod.process_items].
  assert (Hitem : Scrapermod.process_item item r = (r, false)).
  { destruct item; try done. simpl in Hi. apply negb_true_iff in Hi.
    unfold Scrapermod.process_item. by rewrite Hi. }
  rewrite Hitem. by apply IH.
Qed.

(** Items that are not objects, and objects whose [@type] is not exactly
    the string 'Recipe' or 'HowTo' (a list such as ['Recipe'] included),
    leave the [recipe] dict of [scrapermod.parse_recipe] untouched and do
    not end the search, wherever they stand before the remaining items. *)
Theorem process_items_passed_over (skipped items : list json) (r : recipe) :
  forallb passed_over skipped = true →
  Scrapermod.process_items (skipped ++ items)%list r = Scrapermod.process_items items r.
Proof.
  induction skipped as [|item rest IH]; [done|].
  cbn [forallb]. intros [Hi Hrest]%andb_true_iff.
  change ((item :: rest) ++ items)%list with (item :: (rest ++ items))%list.
  cbn [Scrapermod.process_items].
  assert (Hitem : Scrapermod.process_item item r = (r, false)).
  { destruct item; try done. simpl in Hi. apply negb_true_iff in Hi.
    unfold Scrapermod.process_item. by rewrite Hi. }
  rewrite Hitem. by apply IH.
Qed.

Lemma process_items_passed_over_witness :
  Scrapermod.process_items
    ([JStr "https://schema.org"; EdgePages.typed_by_list] ++ [Pages.lemon_cake])%list
    (Scrapermod.empty_recipe "https://example.com/recipes/42-lemon-cake")
  = Scrapermod.process_items [Pages.lemon_cake]
      (Scrapermod.empty_recipe "https://example.com/recipes/42-lemon-cake").
Proof.
  apply (process_items_passed_over
           [JStr "https://schema.org"; EdgePages.typed_by_list] [Pages.lemon_cake]).
  reflexivity.
Defined.

(** A JSON-LD object whose ['@graph'] value is not a list contributes
    nothing in [scrapermod.parse_recipe]: whether the value is an object
    or string (iterated as keys or characters) or not iterable at all (a
    caught [TypeError]), the search goes on with the next script tag and
    an unchanged [recipe] dict. *)
Theorem graph_not_list_skipped `{World} (s : string) (rest : list (option string))
    (kv : list (string * json)) (r : recipe) :
  json_loads (unwrap_payload s) = Some (JObj kv) →
  Value.has_key kv "@graph" = true →
  (∀ l, Value.get kv "@graph" JNull ≠ JArr l) →
  Scrapermod.parse_scripts (Some s :: rest) r = Scrapermod.parse_scripts rest r.
Proof.
  intros Hload Hgraph Hnotlist. cbn [Scrapermod.parse_scripts].
  assert (Hitems : Scrapermod.script_items (Some s)
                   = Value.iterate (Value.get kv "@graph" JNull)).
  { unfold Scrapermod.script_items, unwrap_payload in *. simpl.
    rewrite Hload. simpl. by rewrite Hgraph. }
  rewrite Hitems.
  destruct (Value.get kv "@graph" JNull) as [| | |g|l|gkv] eqn:Eg; cbn [Value.iterate];
    try done.
  - rewrite process_items_skip; [done|].
    apply forallb_forall. intros x Hx. apply in_map_iff in Hx as (c & <- & _). done.
  - by destruct (Hnotlist l).
  - rewrite process_items_skip; [done|].
    apply forallb_forall. intros x Hx. apply in_map_iff in Hx as (p & <- & _). done.
Qed.

Lemma graph_not_list_skipped_witness :
  @Scrapermod.parse_scripts EdgePages.world_graph_object
    [Some (Examples.dq EdgePages.graph_object_text); Some (Examples.dq Pages.lemon_cake_text)]
    (Scrapermod.empty_recipe "https://example.com/recipes/42-lemon-cake")
  = @Scrapermod.parse_scripts EdgePages.world_graph_object
      [Some (Examples.dq Pages.lemon_cake_text)]
      (Scrapermod.empty_recipe "https://example.com/recipes/42-lemon-cake").
Proof.
  apply (@graph_not_list_skipped EdgePages.world_graph_object
           (Examples.dq EdgePages.graph_object_text)
           [Some (Examples.dq Pages.lemon_cake_text)] EdgePages.graph_object).
  - vm_compute. reflexivity.
  - reflexivity.
  - intros l Hl. vm_compute in Hl. discriminate Hl.
Defined.

(** In [scraperlist_of_recipes.py] only status 200 counts: a response
    with any other status (another 2xx or a 3xx included) gives no links
    and no record. *)
Theorem only_status_200 `{World} (url : string) (max_links : nat) (st : store)
    (parsed : ParseResult) (res : Response) :
  urlparse url = Some parsed →
  requests_get (length (trace st)) url = Ok res →
  status_code res ≠ 200 →
  (ScraperList.get_recipe_links url max_links st).1 = Ok []
  ∧ (ScraperList.extract_recipe_data url st).1 = Ok None.
Proof.
  intros Hp Hres Hstatus.
  assert (Hne : (status_code res =? 200) = false) by (by apply Z.eqb_neq).
  split.
  - unfold ScraperList.get_recipe_links. unfold bind at 1.
    rewrite (ScraperList_make_request_eq _ _ _ Hp). rewrite Hres.
    destruct (Response_ok res); [|reflexivity].
    rewrite Hne. cbn [negb]. by rewrite orb_true_r.
  - rewrite (ScraperList_extract_eq _ _ _ Hp). cbn [fst]. by rewrite Hres, Hne.
Qed.

Lemma only_status_200_witness :
  (@ScraperList.get_recipe_links EdgePages.world_204 "https://example.com/recipes/" 5
     (initial_store 0)).1 = Ok []
  ∧ (@ScraperList.extract_recipe_data EdgePages.world_204 "https://example.com/recipes/"
       (initial_store 0)).1 = Ok None.
Proof.
  apply (@only_status_200 EdgePages.world_204 "https://example.com/recipes/" 5
           (initial_store 0)
           {| scheme := "https"; netloc := "example.com"; path := "/recipes/" |}
           {| status_code := 204; content_type := Some "text/html";
              text := "<html>cake</html>" |}).
  - reflexivity.
  - reflexivity.
  - intros Hc. discriminate Hc.
Defined.
